(** * EnzymePynetics: the parameter estimator

    A shallow embedding of [EnzymeKinetics/tools/parameterestimator.py]
    (class [ParameterEstimator]) and the properties of its data
    normalisation, initial guesses, subsetting, model-set construction,
    ODE initial state, result formatting and plotting helpers.

    Number model.  Measured concentrations, enzyme and inhibitor
    concentrations and the time grid are finite numbers and are
    represented exactly, as rationals ([Q]); rounding of binary floating
    point is not modelled.  Values that the code computes by division
    (rates, initial guesses, relative standard errors) can be infinite or
    NaN and live in [npfloat], the rationals extended with the three IEEE
    special values; the sign of a zero is not kept.

    NumPy is the NumPy of the time of the code (before version 1.24): a
    ragged list of lists becomes a one-dimensional array of objects, and
    [np.any] of a list of objects has the truth value of the disjunction
    of its elements.

    The experiment container, the model descriptor and the rate laws come
    from modules that are not part of the sources; the fitted parameters
    come from the minimiser.  Their records here have the fields that the
    estimator reads or writes. *)

From Stdlib Require Import QArith Qabs ZArith Lia String Sorted.
From stdpp Require Import base option list sets.

Local Open Scope string_scope.
Local Open Scope list_scope.

(** ** Extended floats *)

Inductive npfloat : Type :=
| Fin (q : Q)
| PInf
| NInf
| NaN.

(** ** Exceptions and results *)

(** An f-string is kept as its list of pieces: literal text and the
    interpolated values, which Python renders with [repr] or with a
    fixed-point format such as [:.2f]. *)
Inductive fragment : Type :=
| Lit (s : string)
| Num (x : Q)
| NumList (xs : list Q)
| Fixed (digits : nat) (x : npfloat).

Definition message : Type := list fragment.

Inductive exception : Type :=
| AttributeError (msg : message)
| ValueError (msg : message)
| IndexError
| TypeError
| ZeroDivisionError.

Inductive result (A : Type) : Type :=
| Ok (a : A)
| Raise (e : exception).
Arguments Ok {A} a.
Arguments Raise {A} e.

Definition bind {A B : Type} (r : result A) (k : A -> result B) : result B :=
  match r with
  | Ok a => k a
  | Raise e => Raise e
  end.

#[global] Instance result_bind : MBind result := fun _ _ k r => bind r k.
#[global] Instance result_ret : MRet result := fun _ a => Ok a.

Definition of_option {A : Type} (o : option A) (e : exception) : result A :=
  match o with
  | Some a => Ok a
  | None => Raise e
  end.

Fixpoint mapM {A B : Type} (f : A -> result B) (l : list A) : result (list B) :=
  match l with
  | [] => Ok []
  | a :: l' => b ← f a; bs ← mapM f l'; Ok (b :: bs)
  end.

(** ** Arrays *)

Abbreviation vector := (list Q).
Abbreviation matrix := (list (list Q)).

Module np.

(** [np.array(rows).shape] for a list of lists: two-dimensional when
    the rows have one length, one-dimensional (an array of objects)
    when they are ragged or when there is no row. *)
Definition shape {A : Type} (rows : list (list A)) : list nat :=
  match rows with
  | [] => [0%nat]
  | r :: rs =>
      if forallb (fun r' => Nat.eqb (length r') (length r)) rs
      then [length rows; length r]
      else [length rows]
  end.

(** [np.repeat(xs, k)]: every element [k] times, flat. *)
Definition repeat (xs : list Q) (k : nat) : list Q :=
  flat_map (fun x => replicate k x) xs.

(** [flat.reshape((n, k))]: the rows are cut off one after the other. *)
Fixpoint chunks (n k : nat) (flat : list Q) : matrix :=
  match n with
  | O => []
  | S n' => take k flat :: chunks n' k (drop k flat)
  end.

(** [flat.reshape(shp)] for a two-dimensional shape, the only one it is
    called with. *)
Definition reshape (flat : list Q) (shp : list nat) : result matrix :=
  match shp with
  | [n; k] =>
      if Nat.eqb (length flat) (n * k) then Ok (chunks n k flat)
      else Raise (ValueError [Lit "cannot reshape array"])
  | _ => Raise (ValueError [Lit "cannot reshape array"])
  end.

End np.

(** ** The experiment (external data container) *)

Module Replicate.
(** Modelled from the spec: a replicate trace of a measurement, of which
    the estimator reads the attribute [values]; its class is not part of
    the sources. *)
Record t : Type := { values : list Q }.
End Replicate.

Module Measurement.
(** Modelled from the spec: the class [Measurement] of
    [EnzymeKinetics/core/measurement.py] is not part of the sources; a
    measurement has an initial substrate concentration, an enzyme
    concentration, an optional inhibitor concentration and its replicate
    traces. *)
Record t : Type := {
  initial_substrate_conc : Q;
  enzyme_conc : Q;
  inhibitor_conc : option Q;
  data : list Replicate.t
}.
End Measurement.

Module StoichiometryTypes.
(** Modelled from the spec: the enumeration [StoichiometryTypes] of
    [EnzymeKinetics/core/stoichiometrytypes.py] is not part of the
    sources; its two values are the selector strings of a
    substrate-measured and of a product-measured experiment. *)
Definition SUBSTRATE : string := "substrate".
Definition PRODUCT : string := "product".
End StoichiometryTypes.

Module EnzymeKineticsExperiment.
(** Modelled from the spec: the class [EnzymeKineticsExperiment] of
    [EnzymeKinetics/core/enzymekineticsexperiment.py] is not part of the
    sources; an experiment has unit strings, the stoichiometry selector,
    its measurements and the shared time grid. *)
Record t : Type := {
  data_conc_unit : string;
  time_unit : string;
  stoichiometry : string;
  measurements : list Measurement.t;
  time : list Q
}.
End EnzymeKineticsExperiment.

(** ** Data normalisation *)

(** The arrays that [_initialize_measurement_data] stores on [self]. *)
Record Arrays : Type := mkArrays {
  time : vector;
  initial_substrate : vector;
  enzyme : vector;
  inhibitor : matrix;
  substrate : matrix;
  product : matrix
}.

(** The four lists filled by the nested loop over measurements and
    replicates: one entry per replicate. *)
Definition measurement_data (d : EnzymeKineticsExperiment.t) : list (list Q) :=
  flat_map (fun m => map Replicate.values (Measurement.data m))
           (EnzymeKineticsExperiment.measurements d).

Definition per_replicate {A : Type} (f : Measurement.t -> A)
    (d : EnzymeKineticsExperiment.t) : list A :=
  flat_map (fun m => map (fun _ => f m) (Measurement.data m))
           (EnzymeKineticsExperiment.measurements d).

Definition inhibitor_or_zero (m : Measurement.t) : Q :=
  match Measurement.inhibitor_conc m with
  | Some c => c
  | None => 0%Q
  end.

Definition _calculate_substrate (product : matrix) (initial_substrate : vector) : matrix :=
  map (fun '(product, initial_substrate) =>
         map (fun value => (initial_substrate - value)%Q) product)
      (zip product initial_substrate).

Definition _calculate_product (substrate : matrix) (initial_substrate : vector) : matrix :=
  map (fun '(substrate, initial_substrate) =>
         map (fun value => (initial_substrate - value)%Q) substrate)
      (zip substrate initial_substrate).

Definition stoichiometry_message : message :=
  [Lit "Please define whether measured data is substrate or product data."].

Definition _initialize_measurement_data (d : EnzymeKineticsExperiment.t)
    : result Arrays :=
  let measurement_data := measurement_data d in
  let initial_substrate := per_replicate Measurement.initial_substrate_conc d in
  let enzyme := per_replicate Measurement.enzyme_conc d in
  let inhibitor := per_replicate inhibitor_or_zero d in
  let measurement_shape := np.shape measurement_data in
  columns ← of_option (measurement_shape !! 1%nat) IndexError;
  inhibitor ← np.reshape (np.repeat inhibitor columns) measurement_shape;
  if String.eqb (EnzymeKineticsExperiment.stoichiometry d) StoichiometryTypes.SUBSTRATE then
    Ok {| time := EnzymeKineticsExperiment.time d;
          initial_substrate := initial_substrate;
          enzyme := enzyme;
          inhibitor := inhibitor;
          substrate := measurement_data;
          product := _calculate_product measurement_data initial_substrate |}
  else if String.eqb (EnzymeKineticsExperiment.stoichiometry d) StoichiometryTypes.PRODUCT then
    Ok {| time := EnzymeKineticsExperiment.time d;
          initial_substrate := initial_substrate;
          enzyme := enzyme;
          inhibitor := inhibitor;
          substrate := _calculate_substrate measurement_data initial_substrate;
          product := measurement_data |}
  else Raise (AttributeError stoichiometry_message).

(** ** Arithmetic of extended floats *)

Definition Qltb (x y : Q) : bool := negb (Qle_bool y x).

(** [x / y] on two finite values, as NumPy divides: a zero divisor gives
    an infinity of the sign of [x], or NaN for [0 / 0]. *)
Definition np_div (x y : Q) : npfloat :=
  if Qeq_bool y 0 then
    if Qeq_bool x 0 then NaN
    else if Qltb 0 x then PInf else NInf
  else Fin (x / y).

Definition fabs (x : npfloat) : npfloat :=
  match x with
  | Fin q => Fin (Qabs q)
  | PInf | NInf => PInf
  | NaN => NaN
  end.

Definition fdiv (x y : npfloat) : npfloat :=
  match x, y with
  | NaN, _ | _, NaN => NaN
  | Fin a, Fin b => np_div a b
  | Fin _, (PInf | NInf) => Fin 0
  | (PInf | NInf), (PInf | NInf) => NaN
  | PInf, Fin b => if Qltb b 0 then NInf else PInf
  | NInf, Fin b => if Qltb b 0 then PInf else NInf
  end.


(** [x <= y]; false as soon as one side is NaN. *)
Definition fleb (x y : npfloat) : bool :=
  match x, y with
  | NaN, _ | _, NaN => false
  | NInf, _ => true
  | _, PInf => true
  | Fin a, Fin b => Qle_bool a b
  | _, _ => false
  end.

Definition isnan (x : npfloat) : bool :=
  match x with NaN => true | _ => false end.

Definition isfinite (x : npfloat) : bool :=
  match x with Fin _ => true | _ => false end.

(** [np.fmax]: the larger of two values, a NaN giving way to a number. *)
Definition fmax (x y : npfloat) : npfloat :=
  match x, y with
  | NaN, _ => y
  | _, NaN => x
  | _, _ => if fleb x y then y else x
  end.

Definition zero_size_message : message :=
  [Lit "zero-size array to reduction operation fmax which has no identity"].

Definition broadcast_message : message :=
  [Lit "operands could not be broadcast together"].

(** [np.nanmax] of a flattened array: [np.fmax.reduce]. *)
Definition nanmax (xs : list npfloat) : result npfloat :=
  match xs with
  | [] => Raise (ValueError zero_size_message)
  | x :: xs' => Ok (fold_left fmax xs' x)
  end.

(** [np.diff] along the last axis. *)
Definition diff (xs : list Q) : list Q :=
  zip_with (fun a b => (b - a)%Q) xs (tail xs).

(** One row of a two-dimensional array divided by a one-dimensional
    array, with NumPy's broadcasting of the last axis. *)
Definition broadcast_div (row ts : list Q) : result (list npfloat) :=
  if Nat.eqb (length row) (length ts) then Ok (zip_with np_div row ts)
  else match ts, row with
       | [t], _ => Ok (map (fun x => np_div x t) row)
       | _, [x] => Ok (map (fun t => np_div x t) ts)
       | _, _ => Raise (ValueError broadcast_message)
       end.

(** ** Initial guesses *)

(** [data_time] is [self.data.time], the time grid of the experiment. *)
Definition _calculate_rates (self : Arrays) (data_time : list Q)
    : result (list (list npfloat)) :=
  let concentration_intervals := map diff (substrate self) in
  let time_intervals := diff data_time in
  quotients ← mapM (fun row => broadcast_div row time_intervals)
                    concentration_intervals;
  Ok (map (map fabs) quotients).

(** The array [rates / initial_enzyme_tile] of [_calculate_kcat]. *)
Definition rates_per_enzyme (self : Arrays) (data_time : list Q)
    : result (list (list npfloat)) :=
  rates ← _calculate_rates self data_time;
  let rates_shape := np.shape rates in
  columns ← of_option (rates_shape !! 1%nat) IndexError;
  initial_enzyme_tile ← np.reshape (np.repeat (enzyme self) columns) rates_shape;
  Ok (zip_with (zip_with (fun r e => fdiv r (Fin e))) rates initial_enzyme_tile).

Definition _calculate_kcat (self : Arrays) (data_time : list Q) : result npfloat :=
  quotients ← rates_per_enzyme self data_time;
  nanmax (concat quotients).

Definition _calculate_Km (self : Arrays) (data_time : list Q) : result npfloat :=
  rates ← _calculate_rates self data_time;
  m ← nanmax (concat rates);
  Ok (fdiv m (Fin 2)).

(** ** Validation *)

Definition any_negative (a : matrix) : bool :=
  existsb (existsb (fun x => Qltb x 0)) a.

Definition substrate_negative_message : message :=
  [Lit "Substrate data contains negative concentrations. Check data."].

Definition product_negative_message : message :=
  [Lit "Product data contains negative concentrations. Check data."].

Definition _check_negative_concentrations (self : Arrays) : result unit :=
  if any_negative (substrate self) then
    Raise (ValueError substrate_negative_message)
  else if any_negative (product self) then
    Raise (ValueError product_negative_message)
  else Ok tt.

(** ** Construction *)

Record ParameterEstimator : Type := {
  data : EnzymeKineticsExperiment.t;
  arrays :> Arrays;
  initial_kcat : npfloat;
  initial_Km : npfloat
}.

Definition __init__ (data : EnzymeKineticsExperiment.t) : result ParameterEstimator :=
  self ← _initialize_measurement_data data;
  _ ← _check_negative_concentrations self;
  initial_kcat ← _calculate_kcat self (EnzymeKineticsExperiment.time data);
  initial_Km ← _calculate_Km self (EnzymeKineticsExperiment.time data);
  Ok {| data := data; arrays := self;
        initial_kcat := initial_kcat; initial_Km := initial_Km |}.

(** ** Subsetting *)

(** [np.unique]: the distinct values, ascending. *)
Fixpoint insert_unique (x : Q) (l : list Q) : list Q :=
  match l with
  | [] => [x]
  | y :: l' =>
      if Qeq_bool x y then l
      else if Qle_bool x y then x :: l
      else y :: insert_unique x l'
  end.

Definition unique (xs : list Q) : list Q := fold_right insert_unique [] xs.

(** [concentration in array]: some entry compares equal. *)
Definition contains (xs : vector) (c : Q) : bool :=
  existsb (fun x => Qeq_bool x c) xs.

(** [np.where(array == c)[0]], the positions counted from [i]. *)
Fixpoint where_from (i : nat) (xs : vector) (c : Q) : list nat :=
  match xs with
  | [] => []
  | x :: xs' =>
      if Qeq_bool x c then i :: where_from (S i) xs' c
      else where_from (S i) xs' c
  end.

Definition where_eq (xs : vector) (c : Q) : list nat := where_from 0 xs c.

(** [array[idx]] for an index array: the listed rows, in the order of
    [idx]; an index outside the array is an error. *)
Definition fancy {A : Type} (a : list A) (idx : list nat) : result (list A) :=
  mapM (fun i => of_option (a !! i) IndexError) idx.

(** Python's slice bounds for step one: a negative bound counts from the
    end, and both are clamped to the length. *)
Definition clamp_index (i : Z) (len : nat) : nat :=
  Z.to_nat (if (i <? 0)%Z then Z.max (i + Z.of_nat len) 0
            else Z.min i (Z.of_nat len)).

Definition slice_indices (start stop : option Z) (len : nat) : nat * nat :=
  (match start with None => 0%nat | Some s => clamp_index s len end,
   match stop with None => len | Some s => clamp_index s len end).

Definition slice {A : Type} (start stop : option Z) (l : list A) : list A :=
  let '(lo, hi) := slice_indices start stop (length l) in
  take (hi - lo) (drop lo l).

Definition newline : string := String (Ascii.ascii_of_nat 10) EmptyString.

Definition not_found_message (concentration : Q) (initial_substrate : vector) : message :=
  [Num concentration;
   Lit (" not found in initial substrate concentrations. " ++ newline
        ++ "Initial substrate concentrations are ");
   NumList (unique initial_substrate)].

(** The loop over the requested concentrations, [idx] being the index
    array collected so far. *)
Fixpoint collect_rows (initial_substrate : vector) (initial_substrates : list Q)
    (idx : list nat) : result (list nat) :=
  match initial_substrates with
  | [] => Ok idx
  | concentration :: rest =>
      if negb (contains initial_substrate concentration) then
        Raise (ValueError (not_found_message concentration initial_substrate))
      else
        collect_rows initial_substrate rest
                     (idx ++ where_eq initial_substrate concentration)
  end.

Definition row_index (self : Arrays) (initial_substrates : option (list Q))
    : result (list nat) :=
  match initial_substrates with
  | None | Some [] => Ok (seq 0 (length (substrate self)))
  | Some concentrations => collect_rows (initial_substrate self) concentrations []
  end.

(** The tuple that [_subset_data] returns, under the names that
    [fit_models] gives its components. *)
Record Subset : Type := {
  subset_substrate : matrix;
  subset_product : matrix;
  subset_enzyme : vector;
  subset_initial_substrate : vector;
  subset_time : vector;
  subset_inhibitor : matrix
}.

Definition _subset_data (self : Arrays) (initial_substrates : option (list Q))
    (start_time_index stop_time_index : option Z) : result Subset :=
  idx ← row_index self initial_substrates;
  new_substrate ← fancy (substrate self) idx;
  new_product ← fancy (product self) idx;
  new_enzyme ← fancy (enzyme self) idx;
  new_initial_substrate ← fancy (initial_substrate self) idx;
  let new_time := slice start_time_index stop_time_index (time self) in
  new_inhibitor ← fancy (inhibitor self) idx;
  Ok {| subset_substrate := map (slice start_time_index stop_time_index) new_substrate;
        subset_product := map (slice start_time_index stop_time_index) new_product;
        subset_enzyme := new_enzyme;
        subset_initial_substrate := new_initial_substrate;
        subset_time := new_time;
        subset_inhibitor := new_inhibitor |}.

(** ** Model descriptors *)

(** The rate laws imported from [kineticmodel]. *)
Inductive rate_law : Type :=
| irreversible_model
| competitive_product_inhibition_model
| uncompetitive_product_inhibition_model
| noncompetitive_product_inhibition_model
| substrate_inhibition_model
| competitive_inhibition_model
| uncompetitive_inhibition_model
| noncompetitive_inhibition_model
| partially_competitive_inhibition_model.

(** The dict [w0] with its keys "cS", "cE", "cP", "cI", in this order. *)
Record W0 : Type := {
  cS : matrix;
  cE : vector;
  cP : matrix;
  cI : matrix
}.

Module KineticModel.
(** Modelled from the spec: the class [KineticModel] of [kineticmodel.py]
    is not part of the sources; a model descriptor keeps what it is
    constructed with: its name, the names of its free parameters, the
    initial-state dict with its four slots, the two initial guesses,
    its rate law and the enzyme-inactivation flag. *)
Record t : Type := {
  name : string;
  params : list string;
  w0 : W0;
  kcat_initial : npfloat;
  Km_initial : npfloat;
  model : rate_law;
  enzyme_inactivation : bool
}.
End KineticModel.

(** A Python dict with string keys: the items in insertion order, a
    repeated key replacing the value in place. *)
Definition dict (V : Type) : Type := list (string * V).

Fixpoint dict_set {V : Type} (k : string) (v : V) (d : dict V) : dict V :=
  match d with
  | [] => [(k, v)]
  | (k', v') :: d' =>
      if String.eqb k k' then (k, v) :: d' else (k', v') :: dict_set k v d'
  end.

Definition dict_literal {V : Type} (items : list (string * V)) : dict V :=
  fold_left (fun d '(k, v) => dict_set k v d) items [].

Definition keys {V : Type} (d : dict V) : list string := map fst d.
Definition dict_values {V : Type} (d : dict V) : list V := map snd d.

Definition by_name (ms : list KineticModel.t) : dict KineticModel.t :=
  dict_literal (map (fun m => (KineticModel.name m, m)) ms).

(** [np.all(array == 0)]. *)
Definition all_zero (a : matrix) : bool :=
  forallb (forallb (fun x => Qeq_bool x 0)) a.

(** The test [np.all(self.inhibitor == 0)], on the estimator's own
    inhibitor array. *)
Definition inhibitor_free (self : Arrays) : bool := all_zero (inhibitor self).

Definition _initialize_models (self : ParameterEstimator) (enzyme_inactivation : bool)
    (substrate product : matrix) (enzyme : vector) (inhibitor : matrix)
    : dict KineticModel.t :=
  let descriptor name params driver model :=
    {| KineticModel.name := name;
       KineticModel.params := params;
       KineticModel.w0 := {| cS := substrate; cE := enzyme;
                             cP := product; cI := driver |};
       KineticModel.kcat_initial := initial_kcat self;
       KineticModel.Km_initial := initial_Km self;
       KineticModel.model := model;
       KineticModel.enzyme_inactivation := enzyme_inactivation |} in
  if inhibitor_free self then
    let irreversible_Michaelis_Menten :=
      descriptor "irreversible Michaelis Menten" [] inhibitor irreversible_model in
    let competitive_product_inhibition :=
      descriptor "competitive product inhibition" ["K_ic"] product
                 competitive_product_inhibition_model in
    let uncompetitive_product_inhibition :=
      descriptor "uncompetitive product inhibition" ["K_iu"] product
                 uncompetitive_product_inhibition_model in
    let noncompetitive_product_inhibition :=
      descriptor "non-competitive product inhibition" ["K_iu"; "K_ic"] product
                 noncompetitive_product_inhibition_model in
    let substrate_inhibition :=
      descriptor "substrate inhibition" ["K_iu"] substrate
                 substrate_inhibition_model in
    by_name [irreversible_Michaelis_Menten;
             competitive_product_inhibition;
             uncompetitive_product_inhibition;
             noncompetitive_product_inhibition;
             substrate_inhibition]
  else
    let competitive_inhibition :=
      descriptor "competitive inhibition" ["K_ic"] inhibitor
                 competitive_inhibition_model in
    let uncompetitive_inhibition :=
      descriptor "uncompetitive inhibition" ["K_iu"] inhibitor
                 uncompetitive_inhibition_model in
    let noncompetitive_inhibition :=
      descriptor "non-competitive inhibition" ["K_iu"; "K_ic"] inhibitor
                 noncompetitive_inhibition_model in
    let partially_competitive_inhibition :=
      descriptor "partially competitive inhibition" ["K_ic"; "K_iu"] inhibitor
                 partially_competitive_inhibition_model in
    by_name [competitive_inhibition;
             uncompetitive_inhibition;
             noncompetitive_inhibition;
             partially_competitive_inhibition].

(** ** Fitting: the data and the models of a call of [fit_models] *)

(** The Python values that occur as optional arguments and as fitted
    parameter fields. *)
Inductive pyobj : Type :=
| PyNone
| PyInt (z : Z)
| PyFloat (x : npfloat)
| NpFloat64 (x : npfloat)
| PyList (xs : list Q).

Definition nonzero (x : npfloat) : bool :=
  match x with
  | Fin q => negb (Qeq_bool q 0)
  | _ => true
  end.

(** Truth value of an object. *)
Definition truthy (o : pyobj) : bool :=
  match o with
  | PyNone => false
  | PyInt z => negb (z =? 0)%Z
  | PyFloat x | NpFloat64 x => nonzero x
  | PyList xs => match xs with [] => false | _ :: _ => true end
  end.

(** [np.any] of a list of objects, as a condition. *)
Definition np_any (objects : list pyobj) : bool := existsb truthy objects.

Definition py_list (o : option (list Q)) : pyobj :=
  match o with Some xs => PyList xs | None => PyNone end.

Definition py_int (o : option Z) : pyobj :=
  match o with Some z => PyInt z | None => PyNone end.

(** The first statement of [fit_models]: the arrays the fit works on. *)
Definition fit_models_subset (self : Arrays) (initial_substrate_concs : option (list Q))
    (start_time_index stop_time_index : option Z) : result Subset :=
  if np_any [py_list initial_substrate_concs;
             py_int start_time_index; py_int stop_time_index] then
    _subset_data self initial_substrate_concs start_time_index stop_time_index
  else
    Ok {| subset_substrate := substrate self;
          subset_product := product self;
          subset_enzyme := enzyme self;
          subset_initial_substrate := initial_substrate self;
          subset_time := time self;
          subset_inhibitor := inhibitor self |}.

(** [fit_models] up to the call of the minimiser: the subset arrays and
    the dict of models built from them. *)
Definition fit_models (self : ParameterEstimator)
    (initial_substrate_concs : option (list Q))
    (start_time_index stop_time_index : option Z) (enzyme_inactivation : bool)
    : result (Subset * dict KineticModel.t) :=
  sub ← fit_models_subset self initial_substrate_concs
                           start_time_index stop_time_index;
  Ok (sub, _initialize_models self enzyme_inactivation
             (subset_substrate sub) (subset_product sub)
             (subset_enzyme sub) (subset_inhibitor sub)).

(** [a[i, j]] and [a[i]] for indices that are not negative. *)
Definition item2 (a : matrix) (i j : nat) : result Q :=
  row ← of_option (a !! i) IndexError;
  of_option (row !! j) IndexError.



(** ** The result overview *)









(** ** Arrays as objects: buffers, copies and views

    What an assignment through one array does to another depends on
    whether the two share a buffer.  Indexing with an index array
    allocates a new buffer; a basic slice [a[start:stop]] is a view of
    the buffer of [a]. *)

Module Store.

Inductive buffer : Type :=
| Buf1 (v : vector)
| Buf2 (m : matrix).

(** The allocated buffers, in the order of their allocation. *)
Abbreviation store := (list buffer).

(** An array object: it owns the buffer at [l], or it is the window
    [lo:hi] of the one-dimensional buffer at [l]. *)
Inductive ndarray : Type :=
| Owner (l : nat)
| View (l : nat) (lo hi : nat).

Definition base (a : ndarray) : nat :=
  match a with Owner l | View l _ _ => l end.

Definition alloc (h : store) (b : buffer) : store * ndarray :=
  (h ++ [b], Owner (length h)).

(** The contents seen through an array object. *)
Definition read (h : store) (a : ndarray) : option buffer :=
  match a with
  | Owner l => h !! l
  | View l lo hi =>
      match h !! l with
      | Some (Buf1 v) => Some (Buf1 (take (hi - lo) (drop lo v)))
      | _ => None
      end
  end.

Definition read1 (h : store) (a : ndarray) : option vector :=
  match read h a with Some (Buf1 v) => Some v | _ => None end.

Definition read2 (h : store) (a : ndarray) : option matrix :=
  match read h a with Some (Buf2 m) => Some m | _ => None end.

Definition same_shape (b b' : buffer) : bool :=
  match b, b' with
  | Buf1 v, Buf1 v' => Nat.eqb (length v) (length v')
  | Buf2 m, Buf2 m' =>
      Nat.eqb (length m) (length m')
      && forallb (fun '(r, r') => Nat.eqb (length r) (length r')) (zip m m')
  | _, _ => false
  end.

(** An assignment through [a] ([a[i] = x], [a[i, j] = x], [a[:] = b],
    [a += 1], ...): the elements seen through [a] become those of [b],
    the shape staying what it is. *)
Definition write (h : store) (a : ndarray) (b : buffer) : result store :=
  old ← of_option (read h a) IndexError;
  if same_shape old b then
    match a, b with
    | Owner l, _ => Ok (<[l := b]> h)
    | View l lo hi, Buf1 v' =>
        match h !! l with
        | Some (Buf1 v) =>
            Ok (<[l := Buf1 (take lo v ++ v' ++ drop (lo + length v') v)]> h)
        | _ => Raise IndexError
        end
    | View _ _ _, Buf2 _ => Raise IndexError
    end
  else Raise (ValueError [Lit "could not broadcast input array"]).

(** [a[idx, start:stop]] for a two-dimensional [a]: a new array. *)
Definition getitem_fancy_slice (h : store) (a : ndarray) (idx : list nat)
    (start stop : option Z) : result (store * ndarray) :=
  m ← of_option (read2 h a) IndexError;
  rows ← fancy m idx;
  Ok (alloc h (Buf2 (map (slice start stop) rows))).

(** [a[idx]]: a new array of the dimension of [a]. *)
Definition getitem_fancy (h : store) (a : ndarray) (idx : list nat)
    : result (store * ndarray) :=
  b ← of_option (read h a) IndexError;
  match b with
  | Buf1 v => v' ← fancy v idx; Ok (alloc h (Buf1 v'))
  | Buf2 m => m' ← fancy m idx; Ok (alloc h (Buf2 m'))
  end.

(** [a[start:stop]] for a one-dimensional [a]: a view, no allocation. *)
Definition getitem_slice (h : store) (a : ndarray) (start stop : option Z)
    : result ndarray :=
  v ← of_option (read1 h a) IndexError;
  let '(lo, hi) := slice_indices start stop (length v) in
  match a with
  | Owner l => Ok (View l lo hi)
  | View l lo0 _ => Ok (View l (lo0 + lo) (lo0 + hi))
  end.

(** The array attributes of the estimator, as objects. *)
Record Self : Type := {
  self_time : ndarray;
  self_initial_substrate : ndarray;
  self_enzyme : ndarray;
  self_inhibitor : ndarray;
  self_substrate : ndarray;
  self_product : ndarray
}.

(** The values of the estimator's arrays in a store. *)
Definition load (h : store) (self : Self) : option Arrays :=
  t ← read1 h (self_time self);
  s0 ← read1 h (self_initial_substrate self);
  e ← read1 h (self_enzyme self);
  i ← read2 h (self_inhibitor self);
  s ← read2 h (self_substrate self);
  p ← read2 h (self_product self);
  Some (mkArrays t s0 e i s p).

(** The returned tuple, as objects. *)
Record Returned : Type := {
  new_substrate : ndarray;
  new_product : ndarray;
  new_enzyme : ndarray;
  new_initial_substrate : ndarray;
  new_time : ndarray;
  new_inhibitor : ndarray
}.

Definition _subset_data (h : store) (self : Self)
    (initial_substrates : option (list Q))
    (start_time_index stop_time_index : option Z)
    : result (store * Returned) :=
  arrays ← of_option (load h self) IndexError;
  idx ← row_index arrays initial_substrates;
  '(h, new_substrate) ←
    getitem_fancy_slice h (self_substrate self) idx start_time_index stop_time_index;
  '(h, new_product) ←
    getitem_fancy_slice h (self_product self) idx start_time_index stop_time_index;
  '(h, new_enzyme) ← getitem_fancy h (self_enzyme self) idx;
  '(h, new_initial_substrate) ← getitem_fancy h (self_initial_substrate self) idx;
  new_time ← getitem_slice h (self_time self) start_time_index stop_time_index;
  '(h, new_inhibitor) ← getitem_fancy h (self_inhibitor self) idx;
  Ok (h, {| new_substrate := new_substrate;
            new_product := new_product;
            new_enzyme := new_enzyme;
            new_initial_substrate := new_initial_substrate;
            new_time := new_time;
            new_inhibitor := new_inhibitor |}).

(** The values of the returned tuple in a store. *)
Definition load_returned (h : store) (r : Returned) : option Subset :=
  s ← read2 h (new_substrate r);
  p ← read2 h (new_product r);
  e ← read1 h (new_enzyme r);
  s0 ← read1 h (new_initial_substrate r);
  t ← read1 h (new_time r);
  i ← read2 h (new_inhibitor r);
  Some {| subset_substrate := s; subset_product := p; subset_enzyme := e;
          subset_initial_substrate := s0; subset_time := t;
          subset_inhibitor := i |}.

End Store.

(** ** Predicates of the specification *)

(** A valid experiment: a recognised stoichiometry selector, at least one
    replicate trace, and every trace aligned to the time grid. *)
Definition valid_experiment (d : EnzymeKineticsExperiment.t) : Prop :=
  (EnzymeKineticsExperiment.stoichiometry d = StoichiometryTypes.SUBSTRATE
   \/ EnzymeKineticsExperiment.stoichiometry d = StoichiometryTypes.PRODUCT)
  /\ measurement_data d <> []
  /\ Forall (fun trace => length trace = length (EnzymeKineticsExperiment.time d))
            (measurement_data d).

(** The row counts of the normalised arrays agree. *)
Definition consistent (self : Arrays) : Prop :=
  length (product self) = length (substrate self)
  /\ length (enzyme self) = length (substrate self)
  /\ length (initial_substrate self) = length (substrate self)
  /\ length (inhibitor self) = length (substrate self).

(** Some entry of the array is negative. *)
Definition has_negative (a : matrix) : Prop :=
  exists i t x, item2 a i t = Ok x /\ (x < 0)%Q.

(** The entry [a[i, j]] of a two-dimensional array, when there is one. *)
Definition entry {A : Type} (a : list (list A)) (i j : nat) : option A :=
  row ← a !! i; row !! j.

(** [r] is the maximum, NaN apart, of the values that satisfy [P]: NaN
    when all of them are, and otherwise one of them that is not NaN and
    that no other one that is not NaN exceeds. *)
Definition is_nanmax (r : npfloat) (P : npfloat -> Prop) : Prop :=
  (isnan r = true /\ forall x, P x -> isnan x = true)
  \/ (isnan r = false /\ P r
      /\ forall x, P x -> isnan x = false -> fleb x r = true).

(** The catalytic-rate guess in the words of the specification: the
    maximum of the quotients, the values that are not finite left out. *)
Definition finite_max (xs : list npfloat) : result npfloat :=
  nanmax (List.filter isfinite xs).

Definition spec_calculate_kcat (self : Arrays) (data_time : list Q) : result npfloat :=
  quotients ← rates_per_enzyme self data_time;
  finite_max (concat quotients).

(** The maximum, NaN apart, of the values of a list. *)
Definition nanmax_of (r : npfloat) (xs : list npfloat) : Prop :=
  is_nanmax r (fun x => x ∈ xs).

(** The exceptions of the initial guesses. *)
Definition guess_exceptions : list exception :=
  [ValueError broadcast_message; IndexError;
   ValueError [Lit "cannot reshape array"]; ValueError zero_size_message].

(** The rate of one row, interval by interval. *)
Definition row_rates (data_time row : list Q) : list npfloat :=
  map fabs (zip_with np_div (diff row) (diff data_time)).

(** The two model sets, as tables: name, rate law and free parameters. *)
Definition inhibitor_free_models : list (string * rate_law * list string) :=
  [("irreversible Michaelis Menten", irreversible_model, []);
   ("competitive product inhibition", competitive_product_inhibition_model, ["K_ic"]);
   ("uncompetitive product inhibition", uncompetitive_product_inhibition_model, ["K_iu"]);
   ("non-competitive product inhibition", noncompetitive_product_inhibition_model,
    ["K_iu"; "K_ic"]);
   ("substrate inhibition", substrate_inhibition_model, ["K_iu"])].

Definition true_inhibitor_models : list (string * rate_law * list string) :=
  [("competitive inhibition", competitive_inhibition_model, ["K_ic"]);
   ("uncompetitive inhibition", uncompetitive_inhibition_model, ["K_iu"]);
   ("non-competitive inhibition", noncompetitive_inhibition_model, ["K_iu"; "K_ic"]);
   ("partially competitive inhibition", partially_competitive_inhibition_model,
    ["K_ic"; "K_iu"])].

(** What is in the driver slot of a mechanism: the product for the
    product inhibitions, the substrate for the substrate inhibition, the
    inhibitor for the others. *)
Definition driver_of {A : Type} (law : rate_law) (substrate product inhibitor : A) : A :=
  match law with
  | competitive_product_inhibition_model
  | uncompetitive_product_inhibition_model
  | noncompetitive_product_inhibition_model => product
  | substrate_inhibition_model => substrate
  | _ => inhibitor
  end.

(** The dict entry of a row of a table. *)
Definition described (self : ParameterEstimator) (enzyme_inactivation : bool)
    (substrate product : matrix) (enzyme : vector) (inhibitor : matrix)
    (row : string * rate_law * list string) : string * KineticModel.t :=
  let '(name, law, params) := row in
  (name,
   {| KineticModel.name := name;
      KineticModel.params := params;
      KineticModel.w0 := {| cS := substrate; cE := enzyme; cP := product;
                            cI := driver_of law substrate product inhibitor |};
      KineticModel.kcat_initial := initial_kcat self;
      KineticModel.Km_initial := initial_Km self;
      KineticModel.model := law;
      KineticModel.enzyme_inactivation := enzyme_inactivation |}).

(** The arrays of the estimator themselves, under the names of the
    subset: what [fit_models] works on when it does not subset. *)
Definition unsubset (self : Arrays) : Subset :=
  {| subset_substrate := substrate self;
     subset_product := product self;
     subset_enzyme := enzyme self;
     subset_initial_substrate := initial_substrate self;
     subset_time := time self;
     subset_inhibitor := inhibitor self |}.

(** A concentration occurs in an array: some entry compares equal. *)
Definition present (xs : vector) (c : Q) : Prop :=
  exists x, x ∈ xs /\ (x == c)%Q.

(** The leading entries of [xs] equal to [c], and what follows them. *)
Fixpoint lead_block (c : Q) (xs : vector) : vector :=
  match xs with
  | x :: xs' => if Qeq_bool x c then x :: lead_block c xs' else []
  | [] => []
  end.

Fixpoint skip_block (c : Q) (xs : vector) : vector :=
  match xs with
  | x :: xs' => if Qeq_bool x c then skip_block c xs' else xs
  | [] => []
  end.

(** The rows are grouped by concentration in the order of the list [cs]:
    first all rows of the first concentration of the list, then all rows
    of the second, and so on, with no row left over. *)
Fixpoint groupedb (cs : list Q) (xs : vector) : bool :=
  match cs with
  | [] => match xs with [] => true | _ :: _ => false end
  | c :: cs' =>
      match xs with
      | [] => false
      | x :: _ =>
          Qeq_bool x c && negb (contains (skip_block c xs) c)
          && groupedb cs' (skip_block c xs)
      end
  end.

(** The buffers of the estimator's arrays. *)
Definition bases (self : Store.Self) : list nat :=
  [Store.base (Store.self_time self);
   Store.base (Store.self_initial_substrate self);
   Store.base (Store.self_enzyme self);
   Store.base (Store.self_inhibitor self);
   Store.base (Store.self_substrate self);
   Store.base (Store.self_product self)].

(** ** Example data *)

Definition replicate_of (values : list Q) : Replicate.t :=
  {| Replicate.values := values |}.

(** The experiment of the module's own test run. *)
Definition m1 : Measurement.t :=
  {| Measurement.initial_substrate_conc := 100;
     Measurement.enzyme_conc := 0.05;
     Measurement.inhibitor_conc := None;
     Measurement.data :=
       [replicate_of [0; 1; 2; 3; 4; 5];
        replicate_of [0.3; 1.3; 2.3; 3.3; 4.3; 5.3];
        replicate_of [0.6; 1.6; 2.6; 3.6; 4.6; 5.6]] |}%Q.

Definition m2 : Measurement.t :=
  {| Measurement.initial_substrate_conc := 200;
     Measurement.enzyme_conc := 0.05;
     Measurement.inhibitor_conc := Some 0;
     Measurement.data :=
       [replicate_of [5; 6; 7; 8; 9; 10];
        replicate_of [5.3; 6.3; 7.3; 8.3; 9.3; 10.3];
        replicate_of [8.6; 9.6; 10.6; 11.6; 12.6; 13.6]] |}%Q.

Definition m3 : Measurement.t :=
  {| Measurement.initial_substrate_conc := 300;
     Measurement.enzyme_conc := 0.11;
     Measurement.inhibitor_conc := None;
     Measurement.data :=
       [replicate_of [10; 11; 15; 20; 25; 30];
        replicate_of [10.3; 11.3; 21.3; 31.3; 41.3; 51.3];
        replicate_of [10.6; 11.6; 15; 31.6; 41.6; 71.6]] |}%Q.

Definition experiment_of (measurements : list Measurement.t) : EnzymeKineticsExperiment.t :=
  {| EnzymeKineticsExperiment.data_conc_unit := "mmole / l";
     EnzymeKineticsExperiment.time_unit := "min";
     EnzymeKineticsExperiment.stoichiometry := "product";
     EnzymeKineticsExperiment.measurements := measurements;
     EnzymeKineticsExperiment.time := [0; 2; 4; 6; 8; 9]%Q |}.

Definition testdata : EnzymeKineticsExperiment.t := experiment_of [m1; m2; m3].

Definition no_arrays : Arrays := mkArrays [] [] [] [] [] [].

Definition arrays_of (d : EnzymeKineticsExperiment.t) : Arrays :=
  match _initialize_measurement_data d with
  | Ok self => self
  | Raise _ => no_arrays
  end.

Definition estimator_of (d : EnzymeKineticsExperiment.t) : ParameterEstimator :=
  match __init__ d with
  | Ok self => self
  | Raise _ =>
      {| data := d; arrays := no_arrays; initial_kcat := NaN; initial_Km := NaN |}
  end.

(** A blank without enzyme, and a measurement whose product exceeds the
    initial substrate. *)
Definition blank : Measurement.t :=
  {| Measurement.initial_substrate_conc := 100;
     Measurement.enzyme_conc := 0;
     Measurement.inhibitor_conc := None;
     Measurement.data := [replicate_of [0; 1; 2; 3; 4; 5]] |}%Q.

Definition overshoot : Measurement.t :=
  {| Measurement.initial_substrate_conc := 10;
     Measurement.enzyme_conc := 0.05;
     Measurement.inhibitor_conc := None;
     Measurement.data := [replicate_of [0; 3; 6; 9; 12; 15]] |}%Q.

(** The arrays of the test run as objects: one buffer each. *)
Definition testdata_store : Store.store :=
  let a := arrays_of testdata in
  [Store.Buf1 (time a); Store.Buf1 (initial_substrate a); Store.Buf1 (enzyme a);
   Store.Buf2 (inhibitor a); Store.Buf2 (substrate a); Store.Buf2 (product a)].

Definition testdata_self : Store.Self :=
  {| Store.self_time := Store.Owner 0;
     Store.self_initial_substrate := Store.Owner 1;
     Store.self_enzyme := Store.Owner 2;
     Store.self_inhibitor := Store.Owner 3;
     Store.self_substrate := Store.Owner 4;
     Store.self_product := Store.Owner 5 |}.


(** ** The result overview: the labels of the parameters *)

(** [d[k]] for a dict with string keys; [None] stands for the [KeyError]
    of a key that the dict does not have. *)
Fixpoint dict_get {V : Type} (k : string) (d : dict V) : option V :=
  match d with
  | [] => None
  | (k', v) :: d' => if String.eqb k k' then Some v else dict_get k d'
  end.

(** The dict [parameter_mapper] of [_result_overview]: the column label
    of every parameter name, from the unit strings of the experiment and
    the unit chosen for the inhibitor. *)
Definition parameter_mapper (time_unit data_conc_unit inhibitor_unit : string)
    : dict string :=
  dict_literal
    [("k_cat", "kcat [1/" ++ time_unit ++ "]");
     ("Km", "Km [" ++ data_conc_unit ++ "]");
     ("K_ic", "Ki competitive [" ++ inhibitor_unit ++ "]");
     ("K_iu", "Ki uncompetitive [" ++ inhibitor_unit ++ "]");
     ("K_ie", "ki time-dep enzyme-inactiv. [1/" ++ time_unit ++ "]")]%string.

(** [name.startswith(start)]. *)
Definition startswith (name start : string) : bool := String.prefix start name.

(** ** Arrays of rank zero, one and two *)

(** An array whose rank the code changes as it goes: a scalar, a
    one-dimensional array, or a two-dimensional array with its number of
    columns (which an array without rows still has). *)
Inductive ndarray (A : Type) : Type :=
| Nd0 (x : A)
| Nd1 (v : list A)
| Nd2 (columns : nat) (rows : list (list A)).
Arguments Nd0 {A} x.
Arguments Nd1 {A} v.
Arguments Nd2 {A} columns rows.


(** [a.size]. *)
Definition nd_size {A : Type} (a : ndarray A) : nat :=
  match a with
  | Nd0 _ => 1
  | Nd1 v => length v
  | Nd2 columns rows => length rows * columns
  end.

(** [a.ravel()]. *)
Definition nd_flatten {A : Type} (a : ndarray A) : list A :=
  match a with
  | Nd0 x => [x]
  | Nd1 v => v
  | Nd2 _ rows => concat rows
  end.

(** [np.atleast_2d(a)]: its number of columns and its rows. *)
Definition nd_columns {A : Type} (a : ndarray A) : nat :=
  match a with
  | Nd0 _ => 1
  | Nd1 v => length v
  | Nd2 columns _ => columns
  end.

Definition atleast_2d {A : Type} (a : ndarray A) : list (list A) :=
  match a with
  | Nd0 x => [[x]]
  | Nd1 v => [v]
  | Nd2 _ rows => rows
  end.

(** [np.append(a, b)] without an axis: both flattened, one after the
    other. *)
Definition np_append {A : Type} (a b : ndarray A) : ndarray A :=
  Nd1 (nd_flatten a ++ nd_flatten b).

Definition concatenate_message : message :=
  [Lit "all the input array dimensions except for the concatenation axis must match exactly"].

(** [np.vstack([a, b])]: both made two-dimensional and stacked row on
    row; the numbers of columns have to agree. *)
Definition np_vstack {A : Type} (a b : ndarray A) : result (ndarray A) :=
  if Nat.eqb (nd_columns a) (nd_columns b)
  then Ok (Nd2 (nd_columns a) (atleast_2d a ++ atleast_2d b))
  else Raise (ValueError concatenate_message).

(** [a[idx]] for the index tuple of [np.where] on a one-dimensional
    array: the listed entries of the first axis. *)
Definition nd_getitem_rows {A : Type} (a : ndarray A) (idx : list nat)
    : result (ndarray A) :=
  match a with
  | Nd0 _ => Raise IndexError
  | Nd1 v => v' ← fancy v idx; Ok (Nd1 v')
  | Nd2 columns rows => rows' ← fancy rows idx; Ok (Nd2 columns rows')
  end.

(** [a[i, j]]: an index error also when the array has not two axes. *)
Definition nd_item2 {A : Type} (a : ndarray A) (i j : nat) : result A :=
  match a with
  | Nd2 _ rows =>
      row ← of_option (rows !! i) IndexError;
      of_option (row !! j) IndexError
  | _ => Raise IndexError
  end.

(** [a.reshape(n, k)] of a one-dimensional array. *)
Fixpoint rows_of_flat {A : Type} (n k : nat) (flat : list A) : list (list A) :=
  match n with
  | O => []
  | S n' => take k flat :: rows_of_flat n' k (drop k flat)
  end.

Definition nd_reshape {A : Type} (flat : list A) (n k : nat) : result (ndarray A) :=
  if Nat.eqb (length flat) (n * k) then Ok (Nd2 k (rows_of_flat n k flat))
  else Raise (ValueError [Lit "cannot reshape array"]).

(** ** Means and standard deviations *)

Definition Qsum (v : vector) : Q := fold_right Qplus 0%Q v.

(** The mean of the entries; NaN when there is none. *)
Definition mean (v : vector) : npfloat :=
  match v with
  | [] => NaN
  | _ :: _ => Fin (Qsum v / inject_Z (Z.of_nat (length v)))
  end.

(** A standard deviation is kept as the square root that it is, by its
    radicand, the mean of the squared distances to the mean. *)
Inductive root : Type := Sqrt (radicand : npfloat).

Definition std (v : vector) : root :=
  match v with
  | [] => Sqrt NaN
  | _ :: _ =>
      let n := inject_Z (Z.of_nat (length v)) in
      let mu := (Qsum v / n)%Q in
      Sqrt (Fin (Qsum (map (fun x => Qabs (x - mu) * Qabs (x - mu))%Q v) / n))
  end.

(** Column [j] of the rows. *)
Definition column {A : Type} (j : nat) (rows : list (list A)) : list A :=
  omap (fun row => row !! j) rows.

(** A reduction along the first axis, [np.mean(a, axis=0)] or
    [np.std(a, axis=0)]: of a one-dimensional array a scalar, of a
    two-dimensional array the reduction of every column; a scalar has no
    axis to reduce. *)
Definition reduce_axis0 {B : Type} (f : vector -> B) (a : ndarray Q)
    : result (ndarray B) :=
  match a with
  | Nd0 _ => Raise IndexError
  | Nd1 v => Ok (Nd0 (f v))
  | Nd2 columns rows => Ok (Nd1 (map (fun j => f (column j rows)) (seq 0 columns)))
  end.

Definition np_mean (a : ndarray Q) : result (ndarray npfloat) := reduce_axis0 mean a.
Definition np_std (a : ndarray Q) : result (ndarray root) := reduce_axis0 std a.

(** The loop of [_mean_w0] over the distinct concentrations, [mean_array]
    being the array built so far. *)
Fixpoint mean_w0_loop (measurement_data : ndarray Q) (init_substrate : vector)
    (concentrations : vector) (mean_array : ndarray npfloat)
    : result (ndarray npfloat) :=
  match concentrations with
  | [] => Ok mean_array
  | concentration :: rest =>
      let idx := where_eq init_substrate concentration in
      selected ← nd_getitem_rows measurement_data idx;
      mean ← np_mean selected;
      mean_array ←
        (if Nat.eqb (nd_size mean_array) 0 then Ok (np_append mean_array mean)
         else np_vstack mean_array mean);
      mean_w0_loop measurement_data init_substrate rest mean_array
  end.

Definition _mean_w0 (measurement_data : ndarray Q) (init_substrate : vector)
    : result (ndarray npfloat) :=
  mean_w0_loop measurement_data init_substrate (unique init_substrate) (Nd1 []).

(** The loop of [_calculate_mean_std]; [np.append] without an axis keeps
    [mean_data] and [std_data] one-dimensional. *)
Fixpoint mean_std_loop (subset_initial_substrate : vector) (data : ndarray Q)
    (concentrations : vector) (mean_data : list npfloat) (std_data : list root)
    : result (list npfloat * list root) :=
  match concentrations with
  | [] => Ok (mean_data, std_data)
  | concentration :: rest =>
      let idx := where_eq subset_initial_substrate concentration in
      selected ← nd_getitem_rows data idx;
      mean ← np_mean selected;
      let mean_data := nd_flatten (np_append (Nd1 mean_data) mean) in
      selected ← nd_getitem_rows data idx;
      deviation ← np_std selected;
      let std_data := nd_flatten (np_append (Nd1 std_data) deviation) in
      mean_std_loop subset_initial_substrate data rest mean_data std_data
  end.

(** [int(a / b)] for two lengths. *)
Definition int_div (a b : nat) : result nat :=
  if Nat.eqb b 0 then Raise ZeroDivisionError else Ok (a / b)%nat.

Definition _calculate_mean_std (subset_initial_substrate : vector) (data : ndarray Q)
    : result (ndarray npfloat * ndarray root) :=
  let unique_initial_substrates := unique subset_initial_substrate in
  '(mean_data, std_data) ←
    mean_std_loop subset_initial_substrate data unique_initial_substrates [] [];
  k ← int_div (length mean_data) (length unique_initial_substrates);
  mean_data ← nd_reshape mean_data (length unique_initial_substrates) k;
  k ← int_div (length std_data) (length unique_initial_substrates);
  std_data ← nd_reshape std_data (length unique_initial_substrates) k;
  Ok (mean_data, std_data).

(** The rows of [data] whose initial substrate concentration is [c]. *)
Definition rows_with {A : Type} (c : Q) (init_substrate : vector) (data : list A)
    : list A :=
  map snd (List.filter (fun '(x, _) => Qeq_bool x c) (zip init_substrate data)).

(** ** Plotting: markers and legend *)

Definition markers : list string := ["o"; "x"; "D"; "X"; "d"].

(** A lookup in a dict with float keys: the value, or the [KeyError] of
    the key. *)
Inductive keyed (A : Type) : Type :=
| Value (a : A)
| KeyError (key : Q).
Arguments Value {A} a.
Arguments KeyError {A} key.

(** [dict(zip(unique_a, palette[:len(unique_a)]))]: the keys, which
    [np.unique] returns, are distinct, so the dict has the pairs of the
    zip. *)
Definition mapping_of {V : Type} (array : vector) (palette : list V) : list (Q * V) :=
  let unique_a := unique array in
  zip unique_a (take (length unique_a) palette).

Fixpoint getitem {V : Type} (mapping : list (Q * V)) (item : Q) : keyed V :=
  match mapping with
  | [] => KeyError item
  | (key, v) :: rest => if Qeq_bool item key then Value v else getitem rest item
  end.

(** [[mapping[item] for item in items]]. *)
Fixpoint getitems {V : Type} (mapping : list (Q * V)) (items : vector)
    : keyed (list V) :=
  match items with
  | [] => Value []
  | item :: rest =>
      match getitem mapping item with
      | KeyError key => KeyError key
      | Value v =>
          match getitems mapping rest with
          | KeyError key => KeyError key
          | Value vs => Value (v :: vs)
          end
      end
  end.

(** [a[:, 0]]. *)
Definition first_column (a : matrix) : result vector :=
  mapM (fun row => of_option (row !! 0%nat) IndexError) a.

(** The marker of every row of the dataset, from [visualize]. *)
Definition marker_vector (self : Arrays) : result (keyed (list string)) :=
  let marker_mapping := mapping_of (concat (inhibitor self)) markers in
  column0 ← first_column (inhibitor self);
  Ok (getitems marker_mapping column0).


(** ** Further predicates *)

(** The rows of a list of lists have one length. *)
Definition rectangular {A : Type} (rows : list (list A)) : Prop :=
  exists k, Forall (fun r => length r = k) rows.

(** The stoichiometry selector is one of the two recognised values. *)
Definition recognized (d : EnzymeKineticsExperiment.t) : Prop :=
  EnzymeKineticsExperiment.stoichiometry d = StoichiometryTypes.SUBSTRATE
  \/ EnzymeKineticsExperiment.stoichiometry d = StoichiometryTypes.PRODUCT.

(** Every reading of a replicate lies between zero and the initial
    substrate concentration of its measurement. *)
Definition within_boundsb (d : EnzymeKineticsExperiment.t) : bool :=
  forallb (fun '(row, s0) => forallb (fun x => Qle_bool 0 x && Qle_bool x s0) row)
          (zip (measurement_data d)
               (per_replicate Measurement.initial_substrate_conc d)).

(** A value that is not negative: NaN, plus infinity, or a finite number
    from zero on. *)
Definition not_negative (x : npfloat) : Prop :=
  match x with
  | Fin q => (0 <= q)%Q
  | PInf | NaN => True
  | NInf => False
  end.



(** The arrays of the estimator with every time axis cut by [window]:
    all rows kept, the inhibitor array as it is. *)
Definition windowed (self : Arrays) (window : forall A : Type, list A -> list A) : Subset :=
  {| subset_substrate := map (window Q) (substrate self);
     subset_product := map (window Q) (product self);
     subset_enzyme := enzyme self;
     subset_initial_substrate := initial_substrate self;
     subset_time := window Q (time self);
     subset_inhibitor := inhibitor self |}.

(** Mass balance of a substrate and a product array: wherever both have an
    entry, the two add up to the initial substrate concentration of the
    row. *)
Definition balanced (s p : matrix) (s0 : vector) : Prop :=
  forall i t x y, entry s i t = Some x -> entry p i t = Some y ->
    exists c, s0 !! i = Some c /\ (y + x == c)%Q.


(** The parameter names that a result overview maps to labels. *)
Definition parameter_names : list string := ["k_cat"; "Km"; "K_ic"; "K_iu"; "K_ie"].

(** The reduction by [f] of every one of the [columns] columns of the
    rows of [data] whose initial substrate concentration is [c]. *)
Definition group_reduce {B : Type} (f : vector -> B) (columns : nat)
    (init_substrate : vector) (data : matrix) (c : Q) : list B :=
  map (fun j => f (column j (rows_with c init_substrate data))) (seq 0 columns).

(** ** Further example data *)

(** An experiment on another time grid. *)
Definition with_time (d : EnzymeKineticsExperiment.t) (time : list Q)
    : EnzymeKineticsExperiment.t :=
  {| EnzymeKineticsExperiment.data_conc_unit := EnzymeKineticsExperiment.data_conc_unit d;
     EnzymeKineticsExperiment.time_unit := EnzymeKineticsExperiment.time_unit d;
     EnzymeKineticsExperiment.stoichiometry := EnzymeKineticsExperiment.stoichiometry d;
     EnzymeKineticsExperiment.measurements := EnzymeKineticsExperiment.measurements d;
     EnzymeKineticsExperiment.time := time |}.

(** A measurement of one replicate with a single reading. *)
Definition spot : Measurement.t :=
  {| Measurement.initial_substrate_conc := 100;
     Measurement.enzyme_conc := 0.05;
     Measurement.inhibitor_conc := None;
     Measurement.data := [replicate_of [0]] |}%Q.

(** The subset that [_subset_data] returns, when it returns. *)
Definition subset_of (self : Arrays) (initial_substrates : option (list Q))
    (start_time_index stop_time_index : option Z) : Subset :=
  match _subset_data self initial_substrates start_time_index stop_time_index with
  | Ok sub => sub
  | Raise _ => unsubset self
  end.

(** A measurement in the presence of an inhibitor. *)
Definition inhibited : Measurement.t :=
  {| Measurement.initial_substrate_conc := 100;
     Measurement.enzyme_conc := 0.05;
     Measurement.inhibitor_conc := Some 5;
     Measurement.data :=
       [replicate_of [0; 1; 1; 2; 2; 3];
        replicate_of [0.3; 1.3; 1.3; 2.3; 2.3; 3.3];
        replicate_of [0.6; 1.6; 1.6; 2.6; 2.6; 3.6]] |}%Q.
(** * Properties *)

(** ** Results and lists *)

Lemma bind_Ok {A B : Type} (r : result A) (k : A -> result B) (b : B) :
  (a ← r; k a) = Ok b -> exists a, r = Ok a /\ k a = Ok b.
Proof. destruct r as [a|e]; simpl; [eauto | discriminate]. Qed.

Lemma bind_Raise {A B : Type} (r : result A) (k : A -> result B) (e : exception) :
  (a ← r; k a) = Raise e -> r = Raise e \/ exists a, r = Ok a /\ k a = Raise e.
Proof. destruct r as [a|e']; simpl; [eauto | intros [= ->]; auto]. Qed.

Ltac simpl_bind := cbn [mbind result_bind bind of_option].
Tactic Notation "simpl_bind" "in" hyp(H) := cbn [mbind result_bind bind of_option] in H.

Tactic Notation "inv_bind" hyp(H) "as" ident(a) ident(Ha) :=
  apply bind_Ok in H; destruct H as (a & Ha & H).

Lemma mapM_Ok_length {A B : Type} (f : A -> result B) (l : list A) (bs : list B) :
  mapM f l = Ok bs -> length bs = length l.
Proof.
  revert bs; induction l as [|a l IH]; simpl; intros bs H.
  - by injection H as <-.
  - inv_bind H as b Hb. inv_bind H as bs' Hbs. injection H as <-.
    simpl. f_equal. eauto.
Qed.

Lemma mapM_Ok_lookup {A B : Type} (f : A -> result B) (l : list A) (bs : list B) :
  mapM f l = Ok bs ->
  forall i a, l !! i = Some a -> exists b, bs !! i = Some b /\ f a = Ok b.
Proof.
  revert bs; induction l as [|x l IH]; simpl; intros bs H i a Hi; [done|].
  inv_bind H as b Hb. inv_bind H as bs' Hbs. injection H as <-.
  destruct i as [|i]; simpl in *.
  - injection Hi as ->. eauto.
  - eauto.
Qed.

Lemma mapM_total {A B : Type} (f : A -> result B) (l : list A) :
  (forall a, a ∈ l -> exists b, f a = Ok b) -> exists bs, mapM f l = Ok bs.
Proof.
  induction l as [|x l IH]; intros H; simpl; [eauto|].
  destruct (H x) as [b Hb]; [left|]. rewrite Hb. simpl.
  destruct IH as [bs Hbs]; [intros a Ha; apply H; by right|].
  rewrite Hbs. simpl. eauto.
Qed.

Lemma mapM_Raise {A B : Type} (f : A -> result B) (l : list A) (e : exception) :
  mapM f l = Raise e -> exists a, a ∈ l /\ f a = Raise e.
Proof.
  induction l as [|x l IH]; simpl; [discriminate|]. intros H.
  apply bind_Raise in H as [H | (b & Hb & H)].
  - exists x. split; [left | done].
  - apply bind_Raise in H as [H | (bs & Hbs & H)]; [|discriminate].
    destruct (IH H) as (a & Ha & Hfa). exists a. split; [by right | done].
Qed.

Lemma lookup_map {A B : Type} (f : A -> B) (l : list A) (i : nat) :
  map f l !! i = f <$> (l !! i).
Proof. apply (list_lookup_fmap f l i). Qed.

(** ** Shapes *)

Lemma shape_columns {A : Type} (rows : list (list A)) (k : nat) :
  np.shape rows !! 1%nat = Some k ->
  rows <> [] /\ np.shape rows = [length rows; k]
  /\ Forall (fun r => length r = k) rows.
Proof.
  destruct rows as [|r rs]; simpl; [discriminate|].
  destruct (forallb _ rs) eqn:Hall; simpl; [|discriminate].
  intros [= <-]. split; [done|]. split; [done|].
  constructor; [done|]. apply Forall_forall. intros r' Hr'.
  rewrite forallb_forall in Hall. apply Nat.eqb_eq, Hall.
  by apply list_elem_of_In.
Qed.

Lemma shape_rectangular {A : Type} (rows : list (list A)) (k : nat) :
  rows <> [] -> Forall (fun r => length r = k) rows ->
  np.shape rows = [length rows; k].
Proof.
  destruct rows as [|r rs]; [done|]. intros _ Hall.
  apply Forall_cons in Hall as [Hr Hrs]. unfold np.shape.
  replace (forallb _ rs) with true; [by rewrite Hr|].
  symmetry. apply forallb_forall. intros r' Hr'. apply Nat.eqb_eq.
  rewrite Forall_forall in Hrs. rewrite Hr. apply Hrs. by apply list_elem_of_In.
Qed.

Lemma chunks_repeat (xs : list Q) (k : nat) :
  np.chunks (length xs) k (np.repeat xs k) = map (replicate k) xs.
Proof.
  induction xs as [|x xs IH]; simpl; [done|].
  unfold np.repeat in *. simpl.
  rewrite take_app_length' by (by rewrite length_replicate).
  rewrite drop_app_length' by (by rewrite length_replicate).
  by rewrite IH.
Qed.

Lemma length_np_repeat (xs : list Q) (k : nat) :
  length (np.repeat xs k) = (length xs * k)%nat.
Proof.
  unfold np.repeat. induction xs as [|x xs IH]; simpl; [done|].
  rewrite length_app, length_replicate, IH. lia.
Qed.

Lemma reshape_repeat (xs : list Q) (k : nat) :
  np.reshape (np.repeat xs k) [length xs; k] = Ok (map (replicate k) xs).
Proof.
  unfold np.reshape. rewrite length_np_repeat, Nat.eqb_refl.
  by rewrite chunks_repeat.
Qed.

(** ** The rows of an experiment *)

Lemma length_per_replicate {A : Type} (f : Measurement.t -> A) d :
  length (per_replicate f d) = length (measurement_data d).
Proof.
  unfold per_replicate, measurement_data.
  induction (EnzymeKineticsExperiment.measurements d) as [|m ms IH]; simpl; [done|].
  by rewrite !length_app, !length_map, IH.
Qed.

(** ** Normalisation *)

Lemma calculate_lookup (rows : matrix) (s0s : vector) i row s0 :
  rows !! i = Some row -> s0s !! i = Some s0 ->
  _calculate_product rows s0s !! i = Some (map (fun v => (s0 - v)%Q) row).
Proof.
  intros Hr Hs. unfold _calculate_product.
  rewrite lookup_map, lookup_zip_with, Hr. simpl. by rewrite Hs.
Qed.

Lemma calculate_substrate_product rows s0s :
  _calculate_substrate rows s0s = _calculate_product rows s0s.
Proof. reflexivity. Qed.

Lemma normalization_Ok d self :
  _initialize_measurement_data d = Ok self ->
  exists columns,
    measurement_data d <> []
    /\ Forall (fun r => length r = columns) (measurement_data d)
    /\ time self = EnzymeKineticsExperiment.time d
    /\ initial_substrate self = per_replicate Measurement.initial_substrate_conc d
    /\ enzyme self = per_replicate Measurement.enzyme_conc d
    /\ inhibitor self = map (replicate columns) (per_replicate inhibitor_or_zero d)
    /\ ((EnzymeKineticsExperiment.stoichiometry d = StoichiometryTypes.SUBSTRATE
         /\ substrate self = measurement_data d
         /\ product self = _calculate_product (measurement_data d) (initial_substrate self))
        \/ (EnzymeKineticsExperiment.stoichiometry d = StoichiometryTypes.PRODUCT
            /\ product self = measurement_data d
            /\ substrate self = _calculate_substrate (measurement_data d) (initial_substrate self))).
Proof.
  unfold _initialize_measurement_data. intros H.
  inv_bind H as columns Hc.
  destruct (np.shape (measurement_data d) !! 1%nat) as [k|] eqn:Hk; [|discriminate].
  injection Hc as ->.
  apply shape_columns in Hk as (Hne & Hshape & Hall).
  inv_bind H as inh Hinh. rewrite Hshape in Hinh.
  rewrite <- (length_per_replicate inhibitor_or_zero), reshape_repeat in Hinh.
  injection Hinh as <-.
  exists columns. split; [done|]. split; [done|].
  destruct (String.eqb_spec (EnzymeKineticsExperiment.stoichiometry d)
                            StoichiometryTypes.SUBSTRATE) as [Hs|Hs].
  { injection H as <-. simpl. repeat split; auto. }
  destruct (String.eqb_spec (EnzymeKineticsExperiment.stoichiometry d)
                            StoichiometryTypes.PRODUCT) as [Hp|Hp]; [|discriminate].
  injection H as <-. simpl. repeat split; auto.
Qed.

Lemma normalization_total d :
  valid_experiment d -> exists self, _initialize_measurement_data d = Ok self.
Proof.
  intros (Hst & Hne & Hall). unfold _initialize_measurement_data.
  rewrite (shape_rectangular _ _ Hne Hall). cbn -[np.reshape np.repeat String.eqb].
  rewrite <- (length_per_replicate inhibitor_or_zero), reshape_repeat.
  destruct Hst as [-> | ->]; simpl; eauto.
Qed.

Lemma length_calculate rows s0s :
  length s0s = length rows -> length (_calculate_product rows s0s) = length rows.
Proof.
  intros H. unfold _calculate_product. rewrite length_map, length_zip_with. lia.
Qed.

Lemma normalization_consistent d self :
  _initialize_measurement_data d = Ok self -> consistent self.
Proof.
  intros H. apply normalization_Ok in H as (k & _ & _ & _ & Hs0 & He & Hi & Hsp).
  unfold consistent. rewrite Hi, He, length_map.
  assert (length (initial_substrate self) = length (measurement_data d)) as Hl
    by (rewrite Hs0; apply length_per_replicate).
  destruct Hsp as [(_ & -> & ->) | (_ & -> & ->)];
    rewrite ?calculate_substrate_product, ?length_calculate, ?length_per_replicate;
    auto.
Qed.


(** ** Validation *)

Lemma Qltb_lt (x y : Q) : Qltb x y = true <-> (x < y)%Q.
Proof.
  unfold Qltb. rewrite negb_true_iff. split.
  - intros H. apply Qnot_le_lt. intros Hle. apply Qle_bool_iff in Hle. congruence.
  - intros H. destruct (Qle_bool y x) eqn:E; [|done].
    apply Qle_bool_iff in E. exfalso. by apply (Qlt_not_le x y).
Qed.

Lemma item2_Ok (a : matrix) i t x :
  item2 a i t = Ok x <-> exists row, a !! i = Some row /\ row !! t = Some x.
Proof.
  unfold item2. split.
  - destruct (a !! i) as [row|]; simpl; [|discriminate].
    destruct (row !! t) as [y|] eqn:E; simpl; [|discriminate].
    intros [= ->]. eauto.
  - intros (row & -> & Ht). simpl. by rewrite Ht.
Qed.

Lemma any_negative_spec (a : matrix) :
  any_negative a = true <-> has_negative a.
Proof.
  unfold any_negative, has_negative. rewrite existsb_exists. split.
  - intros (row & Hrow & Hex). apply existsb_exists in Hex as (x & Hx & Hneg).
    apply list_elem_of_In, list_elem_of_lookup in Hrow as [i Hi].
    apply list_elem_of_In, list_elem_of_lookup in Hx as [t Ht].
    exists i, t, x. split; [apply item2_Ok; eauto | by apply Qltb_lt].
  - intros (i & t & x & Hitem & Hneg). apply item2_Ok in Hitem as (row & Hi & Ht).
    exists row. split; [eapply list_elem_of_In, list_elem_of_lookup_2; eauto|].
    apply existsb_exists. exists x.
    split; [eapply list_elem_of_In, list_elem_of_lookup_2; eauto | by apply Qltb_lt].
Qed.

Lemma any_negative_false (a : matrix) :
  any_negative a = false <-> ~ has_negative a.
Proof.
  rewrite <- any_negative_spec. destruct (any_negative a); split; congruence.
Qed.

Lemma broadcast_div_Raise row ts e :
  broadcast_div row ts = Raise e -> e = ValueError broadcast_message.
Proof.
  unfold broadcast_div. destruct (Nat.eqb _ _); [discriminate|].
  destruct ts as [|t [|t' ts]], row as [|x [|x' row]]; simpl; congruence.
Qed.

Lemma calculate_rates_Raise self t e :
  _calculate_rates self t = Raise e -> e = ValueError broadcast_message.
Proof.
  unfold _calculate_rates. intros H.
  apply bind_Raise in H as [H | (q & _ & H)]; [|discriminate].
  apply mapM_Raise in H as (row & _ & H). by apply broadcast_div_Raise in H.
Qed.

Lemma of_option_Raise {A : Type} (o : option A) e e' :
  of_option o e = Raise e' -> e' = e.
Proof. destruct o; simpl; congruence. Qed.

Lemma reshape_Raise flat shp e :
  np.reshape flat shp = Raise e -> e = ValueError [Lit "cannot reshape array"].
Proof.
  unfold np.reshape. destruct shp as [|n [|k [|? ?]]]; try congruence.
  destruct (Nat.eqb _ _); congruence.
Qed.

Lemma nanmax_Raise xs e :
  nanmax xs = Raise e -> e = ValueError zero_size_message.
Proof. destruct xs; simpl; congruence. Qed.

Lemma calculate_kcat_Raise self t e :
  _calculate_kcat self t = Raise e -> e ∈ guess_exceptions.
Proof.
  unfold _calculate_kcat, rates_per_enzyme, guess_exceptions. intros H.
  apply bind_Raise in H as [H | (quotients & _ & H)];
    [|apply nanmax_Raise in H as ->; set_solver].
  apply bind_Raise in H as [H | (rates & _ & H)].
  { apply calculate_rates_Raise in H as ->. set_solver. }
  apply bind_Raise in H as [H | (columns & _ & H)].
  { apply of_option_Raise in H as ->. set_solver. }
  apply bind_Raise in H as [H | (tile & _ & H)]; [|discriminate].
  apply reshape_Raise in H as ->. set_solver.
Qed.

Lemma calculate_Km_Raise self t e :
  _calculate_Km self t = Raise e -> e ∈ guess_exceptions.
Proof.
  unfold _calculate_Km, guess_exceptions. intros H.
  apply bind_Raise in H as [H | (rates & _ & H)].
  { apply calculate_rates_Raise in H as ->. set_solver. }
  apply bind_Raise in H as [H | (m & _ & H)]; [|discriminate].
  apply nanmax_Raise in H as ->. set_solver.
Qed.

Lemma guess_exceptions_not_negative e :
  e ∈ guess_exceptions ->
  e <> ValueError substrate_negative_message
  /\ e <> ValueError product_negative_message.
Proof.
  unfold guess_exceptions. intros H.
  repeat (apply elem_of_cons in H as [-> | H]); [split; discriminate ..|].
  by apply elem_of_nil in H.
Qed.

Lemma check_negative_spec self :
  (has_negative (substrate self) ->
   _check_negative_concentrations self = Raise (ValueError substrate_negative_message))
  /\ (~ has_negative (substrate self) -> has_negative (product self) ->
      _check_negative_concentrations self = Raise (ValueError product_negative_message))
  /\ (~ has_negative (substrate self) -> ~ has_negative (product self) ->
      _check_negative_concentrations self = Ok tt).
Proof.
  unfold _check_negative_concentrations. split; [|split].
  - intros H. apply any_negative_spec in H. by rewrite H.
  - intros Hs Hp. apply any_negative_false in Hs. apply any_negative_spec in Hp.
    by rewrite Hs, Hp.
  - intros Hs Hp. apply any_negative_false in Hs. apply any_negative_false in Hp.
    by rewrite Hs, Hp.
Qed.

(** C5: a negative entry of the normalised substrate or product array
    makes the construction raise the value error that names the array,
    and nothing is constructed; without a negative entry the
    construction raises neither of the two errors. *)
Theorem negative_concentrations (d : EnzymeKineticsExperiment.t) (self : Arrays) :
  _initialize_measurement_data d = Ok self ->
  (has_negative (substrate self) ->
   __init__ d = Raise (ValueError substrate_negative_message))
  /\ (~ has_negative (substrate self) -> has_negative (product self) ->
      __init__ d = Raise (ValueError product_negative_message))
  /\ (~ has_negative (substrate self) -> ~ has_negative (product self) ->
      __init__ d <> Raise (ValueError substrate_negative_message)
      /\ __init__ d <> Raise (ValueError product_negative_message))
  /\ (forall estimator, __init__ d = Ok estimator ->
      arrays estimator = self
      /\ ~ has_negative (substrate self) /\ ~ has_negative (product self)).
Proof.
  intros Hnorm. unfold __init__. rewrite Hnorm. simpl_bind.
  destruct (check_negative_spec self) as (Hsub & Hprod & Hnone).
  split; [|split; [|split]].
  - intros H. by rewrite (Hsub H).
  - intros Hs Hp. by rewrite (Hprod Hs Hp).
  - intros Hs Hp. rewrite (Hnone Hs Hp). simpl_bind.
    destruct (_calculate_kcat self _) as [kcat|e] eqn:Ek; simpl_bind.
    + destruct (_calculate_Km self _) as [km|e] eqn:Em; simpl_bind;
        [split; discriminate|].
      apply calculate_Km_Raise, guess_exceptions_not_negative in Em as [? ?].
      split; congruence.
    + apply calculate_kcat_Raise, guess_exceptions_not_negative in Ek as [? ?].
      split; congruence.
  - intros estimator H.
    destruct (any_negative (substrate self)) eqn:Es.
    { apply any_negative_spec in Es. rewrite (Hsub Es) in H. discriminate. }
    apply any_negative_false in Es.
    destruct (any_negative (product self)) eqn:Ep.
    { apply any_negative_spec in Ep. rewrite (Hprod Es Ep) in H. discriminate. }
    apply any_negative_false in Ep. rewrite (Hnone Es Ep) in H. simpl_bind in H.
    destruct (_calculate_kcat self _); [|discriminate]. simpl_bind in H.
    destruct (_calculate_Km self _); [|discriminate]. simpl_bind in H.
    injection H as <-. auto.
Qed.

(** ** Initial guesses *)

Lemma fleb_refl x : isnan x = false -> fleb x x = true.
Proof.
  destruct x; simpl; try done. intros _. apply Qle_bool_iff, Qle_refl.
Qed.

Lemma fleb_trans x y z : fleb x y = true -> fleb y z = true -> fleb x z = true.
Proof.
  destruct x, y, z; simpl; try done.
  rewrite !Qle_bool_iff. apply Qle_trans.
Qed.

Lemma fleb_total x y :
  isnan x = false -> isnan y = false -> fleb x y = true \/ fleb y x = true.
Proof.
  destruct x as [a| | |], y as [b| | |]; simpl; try done; auto.
  intros _ _. rewrite !Qle_bool_iff.
  destruct (Qlt_le_dec a b) as [H|H]; [left; by apply Qlt_le_weak | by right].
Qed.

Lemma nanmax_of_step acc seen x :
  nanmax_of acc seen -> nanmax_of (fmax acc x) (seen ++ [x]).
Proof.
  unfold nanmax_of, is_nanmax.
  intros [(Hacc & Hall) | (Hacc & Hin & Hmax)].
  - destruct acc; try discriminate. simpl.
    destruct (isnan x) eqn:Ex.
    + left. split; [done|]. intros y Hy.
      apply elem_of_app in Hy as [Hy | Hy]; [auto|].
      apply list_elem_of_singleton in Hy as ->. done.
    + right. split; [done|]. split; [set_solver|]. intros y Hy Hnan.
      apply elem_of_app in Hy as [Hy | Hy]; [apply Hall in Hy; congruence|].
      apply list_elem_of_singleton in Hy as ->. by apply fleb_refl.
  - right. destruct (isnan x) eqn:Ex.
    + assert (fmax acc x = acc) as ->
        by (destruct x; try discriminate; by destruct acc).
      split; [done|]. split; [set_solver|]. intros y Hy Hnan.
      apply elem_of_app in Hy as [Hy | Hy]; [auto|].
      apply list_elem_of_singleton in Hy as ->. congruence.
    + assert (fmax acc x = if fleb acc x then x else acc) as ->
        by (destruct acc; try discriminate; destruct x; try discriminate; done).
      destruct (fleb acc x) eqn:Ele.
      * split; [done|]. split; [set_solver|]. intros y Hy Hnan.
        apply elem_of_app in Hy as [Hy | Hy].
        -- eapply fleb_trans; [|exact Ele]. auto.
        -- apply list_elem_of_singleton in Hy as ->. by apply fleb_refl.
      * split; [done|]. split; [set_solver|]. intros y Hy Hnan.
        apply elem_of_app in Hy as [Hy | Hy]; [auto|].
        apply list_elem_of_singleton in Hy as ->.
        destruct (fleb_total acc x Hacc Ex); congruence.
Qed.

Lemma nanmax_of_fold xs acc seen :
  nanmax_of acc seen -> nanmax_of (fold_left fmax xs acc) (seen ++ xs).
Proof.
  revert acc seen. induction xs as [|x xs IH]; intros acc seen H; simpl.
  - by rewrite app_nil_r.
  - replace (seen ++ x :: xs) with ((seen ++ [x]) ++ xs) by (by rewrite <- app_assoc).
    apply IH. by apply nanmax_of_step.
Qed.

Lemma nanmax_of_singleton x : nanmax_of x [x].
Proof.
  unfold nanmax_of, is_nanmax. destruct (isnan x) eqn:E.
  - left. split; [done|]. intros y Hy. by apply list_elem_of_singleton in Hy as ->.
  - right. split; [done|]. split; [set_solver|]. intros y Hy _.
    apply list_elem_of_singleton in Hy as ->. by apply fleb_refl.
Qed.

Lemma nanmax_spec xs :
  xs <> [] -> exists r, nanmax xs = Ok r /\ nanmax_of r xs.
Proof.
  destruct xs as [|x xs]; [done|]. intros _. simpl. eexists. split; [done|].
  apply (nanmax_of_fold xs x [x]), nanmax_of_singleton.
Qed.

Lemma mapM_Ok_map {A B : Type} (f : A -> result B) (g : A -> B) (l : list A) :
  (forall a, a ∈ l -> f a = Ok (g a)) -> mapM f l = Ok (map g l).
Proof.
  induction l as [|x l IH]; intros H; simpl; [done|].
  rewrite (H x) by left. simpl_bind. rewrite IH; [done|].
  intros a Ha. apply H. by right.
Qed.

Lemma length_diff xs : length (diff xs) = (length xs - 1)%nat.
Proof.
  unfold diff. rewrite length_zip_with. destruct xs as [|x xs]; [done|].
  cbn [tail length]. lia.
Qed.

Lemma lookup_diff xs j a b :
  xs !! j = Some a -> xs !! S j = Some b -> diff xs !! j = Some (b - a)%Q.
Proof.
  intros Ha Hb. unfold diff. rewrite lookup_zip_with, Ha. simpl.
  rewrite lookup_tail, Hb. done.
Qed.

Lemma calculate_rates_aligned self data_time :
  Forall (fun row => length row = length data_time) (substrate self) ->
  _calculate_rates self data_time = Ok (map (row_rates data_time) (substrate self)).
Proof.
  intros Hall. unfold _calculate_rates.
  rewrite (mapM_Ok_map _ (fun d => zip_with np_div d (diff data_time))).
  - simpl_bind. by rewrite !map_map.
  - intros d Hd. apply list_elem_of_In, in_map_iff in Hd as (row & <- & Hrow).
    rewrite Forall_forall in Hall. unfold broadcast_div.
    rewrite !length_diff, (Hall row) by (by apply list_elem_of_In).
    by rewrite Nat.eqb_refl.
Qed.

Lemma length_row_rates data_time row :
  length row = length data_time ->
  length (row_rates data_time row) = (length data_time - 1)%nat.
Proof.
  intros H. unfold row_rates. rewrite length_map, length_zip_with, !length_diff. lia.
Qed.

Lemma lookup_row_rates data_time row j s_a s_b t_a t_b :
  row !! j = Some s_a -> row !! S j = Some s_b ->
  data_time !! j = Some t_a -> data_time !! S j = Some t_b ->
  row_rates data_time row !! j = Some (fabs (np_div (s_b - s_a) (t_b - t_a))).
Proof.
  intros Hsa Hsb Hta Htb. unfold row_rates.
  rewrite lookup_map, lookup_zip_with.
  rewrite (lookup_diff _ _ _ _ Hsa Hsb). simpl.
  by rewrite (lookup_diff _ _ _ _ Hta Htb).
Qed.

Lemma rates_per_enzyme_aligned self data_time :
  substrate self <> [] ->
  Forall (fun row => length row = length data_time) (substrate self) ->
  length (enzyme self) = length (substrate self) ->
  rates_per_enzyme self data_time
  = Ok (zip_with (fun row e => map (fun r => fdiv r (Fin e)) row)
                 (map (row_rates data_time) (substrate self)) (enzyme self)).
Proof.
  intros Hne Hall Hlen. unfold rates_per_enzyme.
  rewrite (calculate_rates_aligned _ _ Hall). simpl_bind.
  rewrite (shape_rectangular _ (length data_time - 1)).
  2: { by destruct (substrate self). }
  2: { apply Forall_forall. intros r Hr.
       apply list_elem_of_In, in_map_iff in Hr as (row & <- & Hrow).
       apply length_row_rates. rewrite Forall_forall in Hall.
       apply Hall. by apply list_elem_of_In. }
  cbn -[np.reshape np.repeat]. rewrite length_map, <- Hlen, reshape_repeat.
  simpl_bind. f_equal.
  assert (Forall (fun r => length r = (length data_time - 1)%nat)
                 (map (row_rates data_time) (substrate self))) as Hrates.
  { apply Forall_forall. intros r Hr.
    apply list_elem_of_In, in_map_iff in Hr as (row & <- & Hrow).
    apply length_row_rates. rewrite Forall_forall in Hall.
    apply Hall. by apply list_elem_of_In. }
  clear Hlen Hne Hall. revert Hrates.
  generalize (map (row_rates data_time) (substrate self)) as rates.
  generalize (enzyme self) as es. generalize (length data_time - 1)%nat as k.
  intros k es rates. revert es.
  induction rates as [|r rates IH]; intros es Hrates; [done|].
  destruct es as [|e es]; [done|]. apply Forall_cons in Hrates as [Hr Hrates].
  simpl. f_equal; [|by apply IH].
  clear -Hr. subst k. induction r as [|x r IH]; simpl; [done|]. by f_equal.
Qed.

Lemma elem_of_concat_entry {A : Type} (a : list (list A)) (x : A) :
  x ∈ concat a <-> exists i j, entry a i j = Some x.
Proof.
  unfold entry. split.
  - intros H. apply list_elem_of_In, in_concat in H as (row & Hrow & Hx).
    apply list_elem_of_In, list_elem_of_lookup in Hrow as [i Hi].
    apply list_elem_of_In, list_elem_of_lookup in Hx as [j Hj].
    exists i, j. rewrite Hi. done.
  - intros (i & j & H). destruct (a !! i) as [row|] eqn:Hi; [|done]. simpl in H.
    apply list_elem_of_In, in_concat. exists row.
    split; apply list_elem_of_In; eapply list_elem_of_lookup_2; eauto.
Qed.

Lemma entry_per_enzyme (rates : list (list npfloat)) (es : list Q) i j x :
  entry (zip_with (fun row e => map (fun r => fdiv r (Fin e)) row) rates es) i j
  = Some x
  <-> exists r e, entry rates i j = Some r /\ es !! i = Some e
                  /\ x = fdiv r (Fin e).
Proof.
  unfold entry. rewrite lookup_zip_with.
  destruct (rates !! i) as [row|]; simpl; [|split; [done | by intros (?&?&?&?)]].
  destruct (es !! i) as [e|]; simpl; [|split; [done | by intros (?&?&?&?&?)]].
  rewrite lookup_map. destruct (row !! j) as [r|]; simpl.
  - split; [intros [= <-]; eauto | intros (?&?&[= <-]&[= <-]&->); done].
  - split; [done | by intros (?&?&?&?)].
Qed.

Lemma entry_map {A B : Type} (f : list A -> list B) (a : list (list A)) i j :
  entry (map f a) i j = row ← a !! i; f row !! j.
Proof. unfold entry. rewrite lookup_map. by destruct (a !! i). Qed.

Lemma nanmax_concat_spec (a : list (list npfloat)) :
  (exists i j x, entry a i j = Some x) ->
  exists r, nanmax (concat a) = Ok r
            /\ is_nanmax r (fun x => exists i j, entry a i j = Some x).
Proof.
  intros (i & j & x & Hx).
  destruct (nanmax_spec (concat a)) as (r & Hr & Hmax).
  { intros Hnil. assert (x ∈ concat a) as Hin
      by (apply elem_of_concat_entry; eauto).
    rewrite Hnil in Hin. by apply elem_of_nil in Hin. }
  exists r. split; [done|]. unfold nanmax_of, is_nanmax in *.
  destruct Hmax as [(Hnan & Hall) | (Hnan & Hin & Hmax)]; [left | right].
  - split; [done|]. intros y Hy. apply Hall. by apply elem_of_concat_entry.
  - split; [done|]. split; [by apply elem_of_concat_entry|].
    intros y Hy. apply Hmax. by apply elem_of_concat_entry.
Qed.

(** C6, as the code has it: the rates are the absolute finite differences
    of the substrate over the consecutive points of the time grid; the
    catalytic-rate guess is the maximum over all rows and intervals of
    the rate divided by the enzyme concentration of the row, and the
    Michaelis-constant guess is half the maximum rate, where a maximum
    leaves out the NaN values only: an infinite value is not left out. *)
Theorem initial_guesses (self : Arrays) (data_time : list Q) :
  substrate self <> [] ->
  Forall (fun row => length row = length data_time) (substrate self) ->
  length (enzyme self) = length (substrate self) ->
  (2 <= length data_time)%nat ->
  exists rates kcat m,
    _calculate_rates self data_time = Ok rates
    /\ (forall i j s_a s_b t_a t_b,
          entry (substrate self) i j = Some s_a ->
          entry (substrate self) i (S j) = Some s_b ->
          data_time !! j = Some t_a -> data_time !! S j = Some t_b ->
          entry rates i j = Some (fabs (np_div (s_b - s_a) (t_b - t_a))))
    /\ (forall i j r, entry rates i j = Some r ->
          (i < length (substrate self))%nat /\ (S j < length data_time)%nat)
    /\ _calculate_kcat self data_time = Ok kcat
    /\ is_nanmax kcat
         (fun x => exists i j r e,
              entry rates i j = Some r /\ enzyme self !! i = Some e
              /\ x = fdiv r (Fin e))
    /\ _calculate_Km self data_time = Ok (fdiv m (Fin 2))
    /\ is_nanmax m (fun x => exists i j, entry rates i j = Some x).
Proof.
  intros Hne Hall Hlen Htime.
  set (rates := map (row_rates data_time) (substrate self)).
  assert (forall i j s_a s_b t_a t_b,
          entry (substrate self) i j = Some s_a ->
          entry (substrate self) i (S j) = Some s_b ->
          data_time !! j = Some t_a -> data_time !! S j = Some t_b ->
          entry rates i j = Some (fabs (np_div (s_b - s_a) (t_b - t_a))))
    as Hentries.
  { intros i j s_a s_b t_a t_b Ha Hb Hta Htb. unfold rates.
    rewrite entry_map. unfold entry in Ha, Hb.
    destruct (substrate self !! i) as [row|]; [|done]. simpl in *.
    by apply lookup_row_rates. }
  assert (exists x, entry rates 0 0 = Some x) as [x0 Hx0].
  { destruct (substrate self) as [|row rows] eqn:Hs; [done|].
    apply Forall_cons in Hall as [Hrow _].
    destruct (lookup_lt_is_Some_2 row 0) as [s_a Ha]; [lia|].
    destruct (lookup_lt_is_Some_2 row 1) as [s_b Hb]; [lia|].
    destruct (lookup_lt_is_Some_2 data_time 0) as [t_a Hta]; [lia|].
    destruct (lookup_lt_is_Some_2 data_time 1) as [t_b Htb]; [lia|].
    eexists. apply (Hentries 0%nat 0%nat s_a s_b t_a t_b); unfold entry; simpl; done. }
  destruct (lookup_lt_is_Some_2 (enzyme self) 0) as [e0 He0].
  { rewrite Hlen. destruct (substrate self); [done | simpl; lia]. }
  destruct (nanmax_concat_spec rates) as (m & Hm & Hmmax); [eauto|].
  destruct (nanmax_concat_spec
              (zip_with (fun row e => map (fun r => fdiv r (Fin e)) row)
                        rates (enzyme self)))
    as (kcat & Hkcat & Hkmax).
  { exists 0%nat, 0%nat. eexists. apply entry_per_enzyme. eauto. }
  exists rates, kcat, m.
  split; [by apply calculate_rates_aligned|]. split; [done|]. split.
  { intros i j r Hr. unfold rates in Hr. rewrite entry_map in Hr.
    destruct (substrate self !! i) as [row|] eqn:Hi; [|done]. simpl in Hr.
    split; [by apply lookup_lt_Some in Hi|].
    apply lookup_lt_Some in Hr. rewrite length_row_rates in Hr; [lia|].
    rewrite Forall_forall in Hall. apply Hall.
    by apply list_elem_of_lookup_2 in Hi. }
  split.
  { unfold _calculate_kcat. rewrite rates_per_enzyme_aligned by done.
    simpl_bind. exact Hkcat. }
  split.
  { unfold is_nanmax in *.
    destruct Hkmax as [(Hnan & Hallnan) | (Hnan & Hin & Hmax)]; [left | right].
    - split; [done|]. intros x (i & j & r & e & Hx). apply Hallnan.
      exists i, j. apply entry_per_enzyme. eauto.
    - split; [done|]. split.
      + destruct Hin as (i & j & Hin). apply entry_per_enzyme in Hin.
        destruct Hin as (r & e & ?). eauto 10.
      + intros x (i & j & r & e & Hx). apply Hmax.
        exists i, j. apply entry_per_enzyme. eauto. }
  split; [|done].
  unfold _calculate_Km. rewrite calculate_rates_aligned by done.
  simpl_bind. fold rates. rewrite Hm. done.
Qed.

(** ** Model sets *)

Lemma init_Ok d estimator :
  __init__ d = Ok estimator ->
  _initialize_measurement_data d = Ok (arrays estimator)
  /\ _check_negative_concentrations (arrays estimator) = Ok tt
  /\ _calculate_kcat (arrays estimator) (EnzymeKineticsExperiment.time d)
     = Ok (initial_kcat estimator)
  /\ _calculate_Km (arrays estimator) (EnzymeKineticsExperiment.time d)
     = Ok (initial_Km estimator)
  /\ data estimator = d.
Proof.
  unfold __init__. intros H.
  inv_bind H as self Hself. inv_bind H as u Hu. destruct u.
  inv_bind H as kcat Hkcat. inv_bind H as km Hkm. injection H as <-. done.
Qed.

Lemma broadcast_div_nonempty row ts out :
  broadcast_div row ts = Ok out -> out <> [] -> row <> [].
Proof.
  unfold broadcast_div. intros H Hout ->. simpl in H.
  destruct ts as [|t [|t' ts]]; simpl in H; try discriminate;
    injection H as <-; done.
Qed.

Lemma calculate_Km_columns self data_time km :
  _calculate_Km self data_time = Ok km ->
  exists row, row ∈ substrate self /\ (2 <= length row)%nat.
Proof.
  unfold _calculate_Km, _calculate_rates. intros H.
  inv_bind H as rates Hrates. inv_bind Hrates as quotients Hq.
  injection Hrates as <-. inv_bind H as m Hm. clear H.
  assert (exists x, x ∈ concat (map (map fabs) quotients)) as [x Hx].
  { destruct (concat _) as [|x xs]; [discriminate|]. exists x. left. }
  apply elem_of_concat_entry in Hx as (i & j & Hx).
  rewrite entry_map in Hx.
  destruct (quotients !! i) as [qrow|] eqn:Hi; [|done]. simpl in Hx.
  pose proof (mapM_Ok_length _ _ _ Hq) as Hlen.
  destruct (lookup_lt_is_Some_2 (map diff (substrate self)) i) as [d Hd].
  { rewrite <- Hlen. by apply lookup_lt_Some in Hi. }
  destruct (mapM_Ok_lookup _ _ _ Hq _ _ Hd) as (qrow' & Hi' & Hdiv).
  rewrite Hi in Hi'. injection Hi' as <-.
  rewrite lookup_map in Hd.
  destruct (substrate self !! i) as [row|] eqn:Hrow; [|done].
  injection Hd as <-. exists row. split; [by apply list_elem_of_lookup_2 in Hrow|].
  apply broadcast_div_nonempty in Hdiv.
  - assert (length (diff row) <> 0%nat) as Hne by (by destruct (diff row)).
    rewrite length_diff in Hne. lia.
  - intros ->. by rewrite lookup_map in Hx.
Qed.

Lemma calculated_row_length rows s0s k :
  Forall (fun r : list Q => length r = k) rows ->
  Forall (fun r : list Q => length r = k) (_calculate_product rows s0s).
Proof.
  intros Hall. apply Forall_forall. intros r Hr. unfold _calculate_product in Hr.
  apply list_elem_of_In, in_map_iff in Hr as ([row s0] & <- & Hin).
  rewrite length_map. rewrite Forall_forall in Hall. apply Hall.
  apply list_elem_of_In in Hin. by apply elem_of_zip_l in Hin.
Qed.

Lemma normalized_substrate_rows d self k :
  _initialize_measurement_data d = Ok self ->
  Forall (fun r => length r = k) (measurement_data d) ->
  Forall (fun r => length r = k) (substrate self)
  /\ Forall (fun r => length r = k) (product self).
Proof.
  intros H Hall.
  apply normalization_Ok in H as (_ & _ & _ & _ & _ & _ & _ & Hsp).
  destruct Hsp as [(_ & -> & ->) | (_ & -> & ->)];
    rewrite ?calculate_substrate_product;
    split; auto using calculated_row_length.
Qed.

Lemma all_zero_replicate (xs : list Q) (k : nat) :
  (1 <= k)%nat ->
  all_zero (map (replicate k) xs) = forallb (fun x => Qeq_bool x 0) xs.
Proof.
  intros Hk. unfold all_zero. induction xs as [|x xs IH]; simpl; [done|].
  rewrite IH. f_equal. destruct k as [|k]; [lia|]. simpl.
  clear. induction k as [|k IH]; simpl; [by rewrite andb_true_r|].
  rewrite IH. by destruct (Qeq_bool x 0).
Qed.

Lemma constructed_inhibitor_free d estimator :
  __init__ d = Ok estimator ->
  inhibitor_free estimator
  = forallb (fun c => Qeq_bool c 0) (per_replicate inhibitor_or_zero d).
Proof.
  intros H. apply init_Ok in H as (Hnorm & _ & _ & Hkm & _).
  destruct (normalization_Ok _ _ Hnorm) as (k & _ & Hall & _ & _ & _ & Hinh & _).
  destruct (normalized_substrate_rows _ _ _ Hnorm Hall) as [Hsub _].
  apply calculate_Km_columns in Hkm as (row & Hrow & Hlen).
  rewrite Forall_forall in Hsub. rewrite (Hsub _ Hrow) in Hlen.
  unfold inhibitor_free. rewrite Hinh. apply all_zero_replicate. lia.
Qed.

(** C2: the estimator of an experiment whose rows all have inhibitor
    concentration zero builds exactly the five inhibitor-free models; as
    soon as one row has a nonzero inhibitor concentration it builds
    exactly the four models of a true inhibitor; it builds no other set. *)
Theorem model_sets (d : EnzymeKineticsExperiment.t) (self : ParameterEstimator)
    (enzyme_inactivation : bool) (substrate product : matrix) (enzyme : vector)
    (inhibitor : matrix) :
  __init__ d = Ok self ->
  let rows := per_replicate inhibitor_or_zero d in
  let models :=
    _initialize_models self enzyme_inactivation substrate product enzyme inhibitor in
  let set_of table :=
    map (described self enzyme_inactivation substrate product enzyme inhibitor) table in
  (Forall (fun c => c == 0)%Q rows -> models = set_of inhibitor_free_models)
  /\ (Exists (fun c => ~ c == 0)%Q rows -> models = set_of true_inhibitor_models)
  /\ (models = set_of inhibitor_free_models \/ models = set_of true_inhibitor_models)
  /\ length (set_of inhibitor_free_models) = 5%nat
  /\ length (set_of true_inhibitor_models) = 4%nat.
Proof.
  intros H rows models set_of.
  pose proof (constructed_inhibitor_free _ _ H) as Hfree. fold rows in Hfree.
  assert (inhibitor_free self = true -> models = set_of inhibitor_free_models) as H5.
  { intros E. unfold models, _initialize_models. rewrite E. reflexivity. }
  assert (inhibitor_free self = false -> models = set_of true_inhibitor_models) as H4.
  { intros E. unfold models, _initialize_models. rewrite E. reflexivity. }
  split; [|split; [|split; [|done]]].
  - intros Hall. apply H5. rewrite Hfree. apply forallb_forall.
    intros c Hc. apply Qeq_bool_iff. rewrite Forall_forall in Hall.
    apply Hall. by apply list_elem_of_In.
  - intros Hex. apply H4. rewrite Hfree. apply Exists_exists in Hex as (c & Hc & Hnz).
    destruct (forallb _ rows) eqn:E; [|done]. exfalso. apply Hnz.
    rewrite forallb_forall in E. apply Qeq_bool_iff, E. by apply list_elem_of_In.
  - destruct (inhibitor_free self); auto.
Qed.

(** ** The relative standard error of the result overview *)


(** ** Indexing and slicing *)

Lemma fancy_seq {A : Type} (a : list A) (k n : nat) :
  (k + n <= length a)%nat -> fancy a (seq k n) = Ok (take n (drop k a)).
Proof.
  unfold fancy. revert k. induction n as [|n IH]; intros k Hk; simpl; [done|].
  destruct (lookup_lt_is_Some_2 a k) as [x Hx]; [lia|]. rewrite Hx. simpl_bind.
  rewrite IH by lia. simpl_bind.
  rewrite (drop_S _ _ _ Hx). done.
Qed.

Lemma fancy_all {A : Type} (a : list A) :
  fancy a (seq 0 (length a)) = Ok a.
Proof. rewrite fancy_seq by lia. by rewrite drop_0, firstn_all. Qed.

Lemma fancy_in_range {A : Type} (a : list A) (idx : list nat) :
  Forall (fun i => (i < length a)%nat) idx ->
  exists out, fancy a idx = Ok out /\ length out = length idx.
Proof.
  intros Hall. destruct (mapM_total (fun i => of_option (a !! i) IndexError) idx)
    as [out Hout].
  - intros i Hi. rewrite Forall_forall in Hall.
    destruct (lookup_lt_is_Some_2 a i) as [x Hx]; [by apply Hall|].
    rewrite Hx. simpl. eauto.
  - exists out. split; [done|]. by apply mapM_Ok_length in Hout.
Qed.

Lemma slice_None {A : Type} (l : list A) : slice None None l = l.
Proof. unfold slice. simpl. by rewrite Nat.sub_0_r, drop_0, firstn_all. Qed.

Lemma map_slice_None {A : Type} (a : list (list A)) : map (slice None None) a = a.
Proof. induction a as [|r a IH]; simpl; [done|]. by rewrite slice_None, IH. Qed.

Lemma clamp_index_nat (k len : nat) : clamp_index (Z.of_nat k) len = Nat.min k len.
Proof.
  unfold clamp_index. destruct (Z.ltb_spec (Z.of_nat k) 0); lia.
Qed.

Lemma slice_start {A : Type} (k : nat) (l : list A) :
  slice (Some (Z.of_nat k)) None l = drop (Nat.min k (length l)) l.
Proof.
  unfold slice, slice_indices. rewrite clamp_index_nat.
  apply take_ge. rewrite length_drop. lia.
Qed.



Lemma subset_data_no_filter self start stop :
  consistent self ->
  _subset_data self None start stop
  = Ok {| subset_substrate := map (slice start stop) (substrate self);
          subset_product := map (slice start stop) (product self);
          subset_enzyme := enzyme self;
          subset_initial_substrate := initial_substrate self;
          subset_time := slice start stop (time self);
          subset_inhibitor := inhibitor self |}.
Proof.
  intros (Hp & He & Hs0 & Hi). unfold _subset_data, row_index. simpl_bind.
  rewrite fancy_all. simpl_bind.
  rewrite <- Hp, fancy_all. simpl_bind.
  rewrite Hp, <- He, fancy_all. simpl_bind.
  rewrite He, <- Hs0, fancy_all. simpl_bind.
  rewrite Hs0, <- Hi, fancy_all. simpl_bind. done.
Qed.

(** ** The data of a fit *)

(** C10: with a start index of zero and nothing else, or with an empty
    filter list and nothing else, [fit_models] does not subset: it works
    on the arrays of the estimator, as the call without arguments does;
    the subsetting is done exactly when one of the three arguments is
    truthy. *)
Theorem zero_start_no_subsetting (self : ParameterEstimator) (enzyme_inactivation : bool) :
  fit_models self None None None enzyme_inactivation
  = Ok (unsubset self,
        _initialize_models self enzyme_inactivation (substrate self) (product self)
                           (enzyme self) (inhibitor self))
  /\ fit_models self None (Some 0%Z) None enzyme_inactivation
     = fit_models self None None None enzyme_inactivation
  /\ fit_models self (Some []) None None enzyme_inactivation
     = fit_models self None None None enzyme_inactivation
  /\ forall initial_substrate_concs start_time_index stop_time_index,
       fit_models_subset self initial_substrate_concs start_time_index stop_time_index
       = if np_any [py_list initial_substrate_concs;
                    py_int start_time_index; py_int stop_time_index]
         then _subset_data self initial_substrate_concs
                           start_time_index stop_time_index
         else Ok (unsubset self).
Proof. repeat split. Qed.

(** ** The initial state of the ODE *)




(** ** Selecting rows by concentration *)

Lemma contains_present xs c : contains xs c = true <-> present xs c.
Proof.
  unfold contains, present. rewrite existsb_exists. split.
  - intros (x & Hx & Heq). exists x.
    split; [by apply list_elem_of_In | by apply Qeq_bool_iff].
  - intros (x & Hx & Heq). exists x.
    split; [by apply list_elem_of_In | by apply Qeq_bool_iff].
Qed.

Lemma contains_absent xs c : contains xs c = false <-> ~ present xs c.
Proof.
  rewrite <- contains_present. destruct (contains xs c); split; congruence.
Qed.

Lemma contains_app xs ys c :
  contains (xs ++ ys) c = contains xs c || contains ys c.
Proof. unfold contains. apply existsb_app. Qed.

Lemma where_from_absent k xs c : contains xs c = false -> where_from k xs c = [].
Proof.
  revert k. induction xs as [|x xs IH]; intros k H; simpl in *; [done|].
  apply orb_false_iff in H as [-> H]. auto.
Qed.

Lemma where_from_app k xs ys c :
  where_from k (xs ++ ys) c = where_from k xs c ++ where_from (k + length xs) ys c.
Proof.
  revert k. induction xs as [|x xs IH]; intros k; simpl.
  - by rewrite Nat.add_0_r.
  - rewrite IH, Nat.add_succ_r. simpl. by destruct (Qeq_bool x c).
Qed.

Lemma where_from_range k xs c :
  Forall (fun i => (i < k + length xs)%nat) (where_from k xs c).
Proof.
  revert k. induction xs as [|x xs IH]; intros k; simpl; [constructor|].
  specialize (IH (S k)).
  assert (Forall (fun i => (i < k + S (length xs))%nat) (where_from (S k) xs c)).
  { eapply Forall_impl; [exact IH|]. simpl. intros; lia. }
  destruct (Qeq_bool x c); [constructor; [lia | done] | done].
Qed.

Lemma block_skip c xs : lead_block c xs ++ skip_block c xs = xs.
Proof.
  induction xs as [|x xs IH]; simpl; [done|].
  destruct (Qeq_bool x c); simpl; [by rewrite IH | done].
Qed.

Lemma lead_block_all c xs : Forall (fun x => (x == c)%Q) (lead_block c xs).
Proof.
  induction xs as [|x xs IH]; simpl; [constructor|].
  destruct (Qeq_bool x c) eqn:E; constructor; [by apply Qeq_bool_iff | done].
Qed.

Lemma where_from_block k c xs :
  contains (skip_block c xs) c = false ->
  where_from k xs c = seq k (length (lead_block c xs)).
Proof.
  revert k. induction xs as [|x xs IH]; intros k H; simpl in *; [done|].
  destruct (Qeq_bool x c) eqn:E; simpl.
  - f_equal. by apply IH.
  - simpl in H. rewrite E in H. simpl in H. by apply where_from_absent.
Qed.

Lemma grouped_present cs xs c :
  groupedb cs xs = true -> c ∈ cs -> contains xs c = true.
Proof.
  revert xs. induction cs as [|c' cs IH]; intros xs H Hc.
  - by apply elem_of_nil in Hc.
  - simpl in H. destruct xs as [|x xs]; [done|].
    apply andb_true_iff in H as [H Hrest]. apply andb_true_iff in H as [Hx Hskip].
    apply elem_of_cons in Hc as [-> | Hc].
    + simpl. by rewrite Hx.
    + rewrite <- (block_skip c' (x :: xs)), contains_app.
      rewrite (IH _ Hrest Hc). apply orb_true_r.
Qed.

Lemma collect_rows_grouped cs pre rest idx :
  groupedb cs rest = true ->
  (forall c, c ∈ cs -> contains pre c = false) ->
  collect_rows (pre ++ rest) cs idx = Ok (idx ++ seq (length pre) (length rest)).
Proof.
  revert pre rest idx. induction cs as [|c cs IH]; intros pre rest idx H Hpre.
  - simpl in *. destruct rest; [|done]. simpl. by rewrite app_nil_r.
  - pose proof (grouped_present _ _ c H ltac:(left)) as Hc.
    cbn [collect_rows]. rewrite contains_app, Hc, orb_true_r. cbn [negb].
    simpl in H. destruct rest as [|x rest']; [done|].
    apply andb_true_iff in H as [H Hrest]. apply andb_true_iff in H as [_ Hskip].
    apply negb_true_iff in Hskip.
    remember (x :: rest') as rest eqn:Er. clear Er x rest'.
    unfold where_eq. rewrite where_from_app, where_from_absent, app_nil_l
      by (apply Hpre; left).
    rewrite (where_from_block _ _ _ Hskip). rewrite Nat.add_0_l.
    rewrite <- (block_skip c rest) at 1. rewrite app_assoc.
    rewrite IH; [|done|].
    + rewrite <- app_assoc, length_app. do 2 f_equal.
      rewrite <- seq_app, <- length_app. by rewrite block_skip.
    + intros c' Hc'. rewrite contains_app, Hpre by (by right). simpl.
      apply contains_absent. intros (y & Hy & Heq).
      pose proof (lead_block_all c rest) as Hall. rewrite Forall_forall in Hall.
      apply Hall in Hy.
      apply (grouped_present _ _ c' Hrest), contains_present in Hc'.
      destruct Hc' as (z & Hz & Hzc). apply contains_absent in Hskip.
      apply Hskip. exists z. split; [done|].
      rewrite Hzc, <- Heq. exact Hy.
Qed.

Lemma subset_data_all_rows self initial_substrates start stop :
  consistent self ->
  row_index self initial_substrates = Ok (seq 0 (length (substrate self))) ->
  _subset_data self initial_substrates start stop
  = Ok {| subset_substrate := map (slice start stop) (substrate self);
          subset_product := map (slice start stop) (product self);
          subset_enzyme := enzyme self;
          subset_initial_substrate := initial_substrate self;
          subset_time := slice start stop (time self);
          subset_inhibitor := inhibitor self |}.
Proof.
  intros (Hp & He & Hs0 & Hi) Hidx. unfold _subset_data. rewrite Hidx. simpl_bind.
  rewrite fancy_all. simpl_bind.
  rewrite <- Hp, fancy_all. simpl_bind.
  rewrite Hp, <- He, fancy_all. simpl_bind.
  rewrite He, <- Hs0, fancy_all. simpl_bind.
  rewrite Hs0, <- Hi, fancy_all. simpl_bind. done.
Qed.

(** C7, as the code has it: when the rows of the dataset are grouped by
    concentration in the order in which the filter list names the
    concentrations, each once, subsetting without time bounds returns the
    arrays of the dataset unchanged, in values and in row order. *)
Theorem subset_of_all_concentrations (self : Arrays) (concentrations : list Q) :
  consistent self ->
  groupedb concentrations (initial_substrate self) = true ->
  _subset_data self (Some concentrations) None None = Ok (unsubset self).
Proof.
  intros Hc Hg. rewrite subset_data_all_rows; [| done |].
  - by rewrite !map_slice_None, slice_None.
  - destruct Hc as (_ & _ & Hs0 & _). unfold row_index.
    destruct concentrations as [|c cs] eqn:Ecs; [done|]. rewrite <- Ecs in *.
    pose proof (collect_rows_grouped concentrations [] (initial_substrate self) [] Hg)
      as Hrows.
    simpl in Hrows. rewrite Hrows, Hs0; [done|]. done.
Qed.

(** ** The selection error *)

Lemma present_cons x xs c : present (x :: xs) c <-> (x == c)%Q \/ present xs c.
Proof.
  unfold present. split.
  - intros (y & Hy & Heq). apply elem_of_cons in Hy as [-> | Hy]; eauto.
  - intros [Heq | (y & Hy & Heq)]; [exists x | exists y]; split; auto;
      [left | by right].
Qed.

Lemma present_insert_unique x l c :
  present (insert_unique x l) c <-> (x == c)%Q \/ present l c.
Proof.
  induction l as [|y l IH]; simpl.
  - rewrite present_cons. done.
  - destruct (Qeq_bool x y) eqn:Exy.
    + apply Qeq_bool_iff in Exy. rewrite present_cons. split; [auto|].
      intros [H | H]; [|done]. left. by rewrite <- Exy.
    + destruct (Qle_bool x y); [by rewrite present_cons|].
      rewrite present_cons, IH, present_cons. tauto.
Qed.

Lemma present_unique xs c : present (unique xs) c <-> present xs c.
Proof.
  induction xs as [|x xs IH]; simpl; [done|].
  by rewrite present_insert_unique, present_cons, IH.
Qed.

Lemma Forall_insert_unique (P : Q -> Prop) x l :
  P x -> Forall P l -> Forall P (insert_unique x l).
Proof.
  intros Hx. induction 1 as [|y l Hy Hl IH]; simpl; [by repeat constructor|].
  destruct (Qeq_bool x y); [by constructor|].
  destruct (Qle_bool x y); repeat constructor; auto.
Qed.

Lemma sorted_insert_unique x l :
  StronglySorted Qlt l -> StronglySorted Qlt (insert_unique x l).
Proof.
  induction 1 as [|y l Hl IH Hy]; simpl; [by repeat constructor|].
  destruct (Qeq_bool x y) eqn:Exy; [by constructor|].
  destruct (Qle_bool x y) eqn:Ele.
  - assert (x < y)%Q as Hlt.
    { apply Qle_bool_iff in Ele. apply Qle_lteq in Ele as [H | H]; [done|].
      apply Qeq_bool_iff in H. congruence. }
    constructor; [by constructor|]. constructor; [done|].
    eapply Forall_impl; [exact Hy|]. intros z Hz. simpl in Hz.
    by apply (Qlt_trans x y z).
  - constructor; [done|]. apply Forall_insert_unique; [|done].
    apply Qnot_le_lt. intros H. apply Qle_bool_iff in H. congruence.
Qed.

Lemma sorted_unique xs : StronglySorted Qlt (unique xs).
Proof.
  induction xs as [|x xs IH]; simpl; [constructor | by apply sorted_insert_unique].
Qed.

Lemma collect_rows_Raise xs cs idx :
  (exists c, c ∈ cs /\ contains xs c = false) ->
  exists c, c ∈ cs /\ contains xs c = false
            /\ collect_rows xs cs idx = Raise (ValueError (not_found_message c xs)).
Proof.
  revert idx. induction cs as [|c cs IH]; intros idx (c' & Hc' & Habs).
  - by apply elem_of_nil in Hc'.
  - simpl. destruct (contains xs c) eqn:Ec; simpl.
    + apply elem_of_cons in Hc' as [-> | Hc']; [congruence|].
      destruct (IH (idx ++ where_eq xs c)) as (c0 & H0 & Habs0 & Hraise); [eauto|].
      exists c0. split; [by right | done].
    + exists c. split; [left | done].
Qed.

Lemma collect_rows_Ok xs cs idx :
  (forall c, c ∈ cs -> contains xs c = true) ->
  Forall (fun i => (i < length xs)%nat) idx ->
  exists idx', collect_rows xs cs idx = Ok idx'
               /\ Forall (fun i => (i < length xs)%nat) idx'.
Proof.
  revert idx. induction cs as [|c cs IH]; intros idx Hall Hidx; simpl; [eauto|].
  rewrite (Hall c) by left. simpl. apply IH.
  - intros c' Hc'. apply Hall. by right.
  - apply Forall_app. split; [done|]. apply (where_from_range 0).
Qed.

Lemma subset_data_in_range self initial_substrates start stop idx :
  consistent self ->
  row_index self initial_substrates = Ok idx ->
  Forall (fun i => (i < length (substrate self))%nat) idx ->
  exists sub, _subset_data self initial_substrates start stop = Ok sub.
Proof.
  intros (Hp & He & Hs0 & Hi) Hidx Hrange. unfold _subset_data.
  rewrite Hidx. simpl_bind.
  destruct (fancy_in_range (substrate self) idx) as (a1 & -> & _); [done|].
  destruct (fancy_in_range (product self) idx) as (a2 & -> & _); [by rewrite Hp|].
  destruct (fancy_in_range (enzyme self) idx) as (a3 & -> & _); [by rewrite He|].
  destruct (fancy_in_range (initial_substrate self) idx) as (a4 & -> & _);
    [by rewrite Hs0|].
  destruct (fancy_in_range (inhibitor self) idx) as (a5 & -> & _); [by rewrite Hi|].
  simpl_bind. eauto.
Qed.

(** C8: a requested concentration that does not occur among the initial
    substrate concentrations of the dataset makes the subsetting raise
    the value error whose message lists the known concentrations, each
    once; when every requested concentration occurs, the subsetting
    returns. *)
Theorem selection_error (self : Arrays) (concentrations : list Q)
    (start_time_index stop_time_index : option Z) :
  consistent self ->
  let known := unique (initial_substrate self) in
  StronglySorted Qlt known
  /\ (forall c, present known c <-> present (initial_substrate self) c)
  /\ ((exists c, c ∈ concentrations /\ ~ present (initial_substrate self) c) ->
      exists c, c ∈ concentrations /\ ~ present (initial_substrate self) c
        /\ _subset_data self (Some concentrations) start_time_index stop_time_index
           = Raise (ValueError
               [Num c;
                Lit (" not found in initial substrate concentrations. " ++ newline
                     ++ "Initial substrate concentrations are ");
                NumList known]))
  /\ ((forall c, c ∈ concentrations -> present (initial_substrate self) c) ->
      exists sub,
        _subset_data self (Some concentrations) start_time_index stop_time_index
        = Ok sub).
Proof.
  intros Hc known. split; [apply sorted_unique|]. split; [apply present_unique|].
  split.
  - intros (c & Hin & Habs).
    destruct (collect_rows_Raise (initial_substrate self) concentrations [])
      as (c0 & Hin0 & Habs0 & Hraise).
    { exists c. split; [done | by apply contains_absent]. }
    exists c0. split; [done|]. split; [by apply contains_absent|].
    unfold _subset_data, row_index.
    destruct concentrations as [|c1 cs] eqn:Ecs; [by apply elem_of_nil in Hin|].
    rewrite <- Ecs in *. rewrite Hraise. done.
  - intros Hall. destruct concentrations as [|c1 cs] eqn:Ecs.
    + rewrite subset_data_all_rows by done. eauto.
    + rewrite <- Ecs in *.
      destruct (collect_rows_Ok (initial_substrate self) concentrations [])
        as (idx & Hidx & Hrange).
      { intros c Hin. by apply contains_present, Hall. }
      { constructor. }
      apply (subset_data_in_range _ _ _ _ idx); [done | |].
      * unfold row_index. by rewrite Ecs in *.
      * destruct Hc as (_ & _ & Hs0 & _). by rewrite <- Hs0.
Qed.

(** ** Copies and views *)

Lemma read_base h a b : Store.read h a = Some b -> (Store.base a < length h)%nat.
Proof.
  destruct a as [l | l lo hi]; simpl.
  - apply lookup_lt_Some.
  - destruct (h !! l) eqn:E; [|done]. intros _. by apply lookup_lt_Some in E.
Qed.

Lemma read_agree h h' a :
  h' !! Store.base a = h !! Store.base a -> Store.read h' a = Store.read h a.
Proof. destruct a as [l | l lo hi]; simpl; by intros ->. Qed.

Lemma load_agree h h' self :
  (forall l, l ∈ bases self -> h' !! l = h !! l) ->
  Store.load h' self = Store.load h self.
Proof.
  intros H. unfold Store.load, Store.read1, Store.read2.
  rewrite !(read_agree h h') by (apply H; unfold bases; set_solver).
  done.
Qed.

Lemma load_bases h self arrays :
  Store.load h self = Some arrays ->
  forall l, l ∈ bases self -> (l < length h)%nat.
Proof.
  unfold Store.load, Store.read1, Store.read2. intros H l Hl.
  destruct (Store.read h (Store.self_time self)) as [[?|?]|] eqn:E1; try done.
  destruct (Store.read h (Store.self_initial_substrate self)) as [[?|?]|] eqn:E2;
    try done.
  destruct (Store.read h (Store.self_enzyme self)) as [[?|?]|] eqn:E3; try done.
  destruct (Store.read h (Store.self_inhibitor self)) as [[?|?]|] eqn:E4; try done.
  destruct (Store.read h (Store.self_substrate self)) as [[?|?]|] eqn:E5; try done.
  destruct (Store.read h (Store.self_product self)) as [[?|?]|] eqn:E6; try done.
  unfold bases in Hl.
  repeat (apply elem_of_cons in Hl as [-> | Hl]; [eapply read_base; eauto|]).
  by apply elem_of_nil in Hl.
Qed.

Lemma getitem_fancy_slice_alloc h a idx start stop h' x :
  Store.getitem_fancy_slice h a idx start stop = Ok (h', x) ->
  exists b, h' = h ++ [b] /\ x = Store.Owner (length h).
Proof.
  unfold Store.getitem_fancy_slice. intros H.
  inv_bind H as m Hm. inv_bind H as rows Hrows.
  injection H as <- <-. eauto.
Qed.

Lemma getitem_fancy_alloc h a idx h' x :
  Store.getitem_fancy h a idx = Ok (h', x) ->
  exists b, h' = h ++ [b] /\ x = Store.Owner (length h).
Proof.
  unfold Store.getitem_fancy. intros H. inv_bind H as b Hb.
  destruct b as [v|m]; inv_bind H as out Hout; injection H as <- <-; eauto.
Qed.

Lemma subset_data_allocates h self filter start stop h' r :
  Store._subset_data h self filter start stop = Ok (h', r) ->
  exists b1 b2 b3 b4 b5,
    h' = h ++ [b1; b2; b3; b4; b5]
    /\ Store.new_substrate r = Store.Owner (length h)
    /\ Store.new_product r = Store.Owner (1 + length h)
    /\ Store.new_enzyme r = Store.Owner (2 + length h)
    /\ Store.new_initial_substrate r = Store.Owner (3 + length h)
    /\ Store.new_inhibitor r = Store.Owner (4 + length h)
    /\ Store.getitem_slice (h ++ [b1; b2; b3; b4]) (Store.self_time self) start stop
       = Ok (Store.new_time r).
Proof.
  unfold Store._subset_data. intros H.
  inv_bind H as arrays Harrays. inv_bind H as idx Hidx.
  inv_bind H as x1 H1. destruct x1 as [h1 a1].
  inv_bind H as x2 H2. destruct x2 as [h2 a2].
  inv_bind H as x3 H3. destruct x3 as [h3 a3].
  inv_bind H as x4 H4. destruct x4 as [h4 a4].
  inv_bind H as t Ht.
  inv_bind H as x5 H5. destruct x5 as [h5 a5].
  injection H as <- <-.
  apply getitem_fancy_slice_alloc in H1 as (b1 & -> & ->).
  apply getitem_fancy_slice_alloc in H2 as (b2 & -> & ->).
  apply getitem_fancy_alloc in H3 as (b3 & -> & ->).
  apply getitem_fancy_alloc in H4 as (b4 & -> & ->).
  apply getitem_fancy_alloc in H5 as (b5 & -> & ->).
  exists b1, b2, b3, b4, b5. cbn [Store.new_substrate Store.new_product
    Store.new_enzyme Store.new_initial_substrate Store.new_inhibitor Store.new_time].
  rewrite <- !app_assoc in *. simpl in *. rewrite !length_app. simpl.
  repeat split; try done; f_equal; lia.
Qed.

Lemma write_owner h l b h' :
  Store.write h (Store.Owner l) b = Ok h' -> h' = <[l := b]> h.
Proof.
  unfold Store.write. intros H. inv_bind H as old Hold.
  destruct (Store.same_shape old b); [|discriminate]. by injection H as <-.
Qed.

(** The arrays as objects compute what the arrays as values do: the two
    descriptions of [_subset_data] agree. *)

Lemma clamp_index_le i len : (clamp_index i len <= len)%nat.
Proof. unfold clamp_index. destruct (Z.ltb_spec i 0); lia. Qed.

Lemma slice_indices_le start stop len lo hi :
  slice_indices start stop len = (lo, hi) -> (lo <= len /\ hi <= len)%nat.
Proof.
  unfold slice_indices. intros [= <- <-].
  destruct start, stop; split; try apply clamp_index_le; lia.
Qed.

Lemma getitem_slice_reads h a start stop v :
  Store.read1 h a = Some v ->
  exists a', Store.getitem_slice h a start stop = Ok a'
             /\ Store.base a' = Store.base a
             /\ Store.read1 h a' = Some (slice start stop v).
Proof.
  intros Hv. unfold Store.getitem_slice. rewrite Hv. simpl_bind.
  unfold slice. destruct (slice_indices start stop (length v)) as [lo hi] eqn:E.
  pose proof (slice_indices_le _ _ _ _ _ E) as [Hlo Hhi].
  unfold slice_indices in E. injection E as Elo Ehi.
  unfold Store.read1 in *. destruct a as [l | l lo0 hi0];
    cbn [Store.read Store.base] in *.
  - eexists. split; [done|]. split; [done|]. cbn [Store.read].
    destruct (h !! l) as [[v'|m]|]; try done. rewrite ?Elo, ?Ehi.
    by injection Hv as ->.
  - eexists. split; [done|]. split; [done|]. cbn [Store.read].
    destruct (h !! l) as [[w|m]|]; try done. rewrite ?Elo, ?Ehi.
    injection Hv as <-. f_equal. rewrite length_take, length_drop in Hhi.
    replace (lo0 + hi - (lo0 + lo))%nat with (hi - lo)%nat by lia.
    rewrite <- drop_drop.
    destruct (decide (hi <= lo)%nat) as [Hle | Hgt].
    { replace (hi - lo)%nat with 0%nat by lia. done. }
    rewrite skipn_firstn_comm, take_take. f_equal. lia.
Qed.

Lemma read_grown h ext a :
  (Store.base a < length h)%nat -> Store.read (h ++ ext) a = Store.read h a.
Proof. intros H. apply read_agree. by apply lookup_app_l. Qed.

Lemma read_new h b ext :
  Store.read (h ++ b :: ext) (Store.Owner (length h)) = Some b.
Proof. simpl. by rewrite list_lookup_middle. Qed.

Lemma read1_grown h ext a v :
  Store.read1 h a = Some v -> Store.read1 (h ++ ext) a = Some v.
Proof.
  unfold Store.read1. intros H. rewrite read_grown; [done|].
  destruct (Store.read h a) eqn:E; [|done]. by apply read_base in E.
Qed.

Lemma read2_grown h ext a m :
  Store.read2 h a = Some m -> Store.read2 (h ++ ext) a = Some m.
Proof.
  unfold Store.read2. intros H. rewrite read_grown; [done|].
  destruct (Store.read h a) eqn:E; [|done]. by apply read_base in E.
Qed.

Lemma read1_new h v : Store.read1 (h ++ [Store.Buf1 v]) (Store.Owner (length h)) = Some v.
Proof. unfold Store.read1. by rewrite read_new. Qed.

Lemma read2_new h m : Store.read2 (h ++ [Store.Buf2 m]) (Store.Owner (length h)) = Some m.
Proof. unfold Store.read2. by rewrite read_new. Qed.

Lemma getitem_fancy_slice_Ok h a idx start stop m rows :
  Store.read2 h a = Some m -> fancy m idx = Ok rows ->
  Store.getitem_fancy_slice h a idx start stop
  = Ok (h ++ [Store.Buf2 (map (slice start stop) rows)], Store.Owner (length h)).
Proof.
  intros Hm Hrows. unfold Store.getitem_fancy_slice. rewrite Hm. simpl_bind.
  by rewrite Hrows.
Qed.

Lemma getitem_fancy1_Ok h a idx v v' :
  Store.read1 h a = Some v -> fancy v idx = Ok v' ->
  Store.getitem_fancy h a idx = Ok (h ++ [Store.Buf1 v'], Store.Owner (length h)).
Proof.
  intros Hv Hfancy. unfold Store.getitem_fancy, Store.read1 in *.
  destruct (Store.read h a) as [[w|m]|]; try done. injection Hv as ->.
  simpl_bind. by rewrite Hfancy.
Qed.

Lemma getitem_fancy2_Ok h a idx m m' :
  Store.read2 h a = Some m -> fancy m idx = Ok m' ->
  Store.getitem_fancy h a idx = Ok (h ++ [Store.Buf2 m'], Store.Owner (length h)).
Proof.
  intros Hm Hfancy. unfold Store.getitem_fancy, Store.read2 in *.
  destruct (Store.read h a) as [[w|m0]|]; try done. injection Hm as ->.
  simpl_bind. by rewrite Hfancy.
Qed.

Lemma getitem_fancy_slice_Raise h a idx start stop m e :
  Store.read2 h a = Some m -> fancy m idx = Raise e ->
  Store.getitem_fancy_slice h a idx start stop = Raise e.
Proof.
  intros Hm Hrows. unfold Store.getitem_fancy_slice. rewrite Hm. simpl_bind.
  by rewrite Hrows.
Qed.

Lemma getitem_fancy1_Raise h a idx v e :
  Store.read1 h a = Some v -> fancy v idx = Raise e ->
  Store.getitem_fancy h a idx = Raise e.
Proof.
  intros Hv Hfancy. unfold Store.getitem_fancy, Store.read1 in *.
  destruct (Store.read h a) as [[w|m]|]; try done. injection Hv as ->.
  simpl_bind. by rewrite Hfancy.
Qed.

Lemma getitem_fancy2_Raise h a idx m e :
  Store.read2 h a = Some m -> fancy m idx = Raise e ->
  Store.getitem_fancy h a idx = Raise e.
Proof.
  intros Hm Hfancy. unfold Store.getitem_fancy, Store.read2 in *.
  destruct (Store.read h a) as [[w|m0]|]; try done. injection Hm as ->.
  simpl_bind. by rewrite Hfancy.
Qed.

(** The reads of an estimator whose arrays are loaded in the store, and
    the agreement of the two descriptions of [_subset_data] on it. *)
Section Loaded.

Context (h : Store.store) (self : Store.Self) (arrays : Arrays).
Hypothesis Hload : Store.load h self = Some arrays.

Lemma load_reads :
  Store.read1 h (Store.self_time self) = Some (time arrays)
  /\ Store.read1 h (Store.self_initial_substrate self) = Some (initial_substrate arrays)
  /\ Store.read1 h (Store.self_enzyme self) = Some (enzyme arrays)
  /\ Store.read2 h (Store.self_inhibitor self) = Some (inhibitor arrays)
  /\ Store.read2 h (Store.self_substrate self) = Some (substrate arrays)
  /\ Store.read2 h (Store.self_product self) = Some (product arrays).
Proof.
  pose proof Hload as H. unfold Store.load in H.
  destruct (Store.read1 h (Store.self_time self)); [|done].
  destruct (Store.read1 h (Store.self_initial_substrate self)); [|done].
  destruct (Store.read1 h (Store.self_enzyme self)); [|done].
  destruct (Store.read2 h (Store.self_inhibitor self)); [|done].
  destruct (Store.read2 h (Store.self_substrate self)); [|done].
  destruct (Store.read2 h (Store.self_product self)); [|done].
  simpl in H. injection H as <-. done.
Qed.

Lemma subset_data_agrees initial_substrates start stop sub :
  _subset_data arrays initial_substrates start stop = Ok sub ->
  exists h' r,
    Store._subset_data h self initial_substrates start stop = Ok (h', r)
    /\ Store.load_returned h' r = Some sub.
Proof.
  intros Hsub.
  destruct load_reads as (Ht & Hs0 & He & Hi & Hs & Hp).
  unfold _subset_data in Hsub.
  inv_bind Hsub as idx Hidx. inv_bind Hsub as s Hfs. inv_bind Hsub as p Hfp.
  inv_bind Hsub as e Hfe. inv_bind Hsub as s0 Hfs0. inv_bind Hsub as i Hfi.
  injection Hsub as <-.
  unfold Store._subset_data. rewrite Hload. simpl_bind. rewrite Hidx. simpl_bind.
  rewrite (getitem_fancy_slice_Ok _ _ _ _ _ _ _ Hs Hfs). simpl_bind.
  rewrite (getitem_fancy_slice_Ok _ _ _ _ _ _ _ (read2_grown _ _ _ _ Hp) Hfp).
  simpl_bind.
  rewrite (getitem_fancy1_Ok _ _ _ _ _
             (read1_grown _ _ _ _ (read1_grown _ _ _ _ He)) Hfe).
  simpl_bind.
  rewrite (getitem_fancy1_Ok _ _ _ _ _
             (read1_grown _ _ _ _ (read1_grown _ _ _ _ (read1_grown _ _ _ _ Hs0)))
             Hfs0).
  simpl_bind.
  pose proof (read1_grown _ [Store.Buf1 s0] _ _ (read1_grown _ [Store.Buf1 e] _ _
    (read1_grown _ [Store.Buf2 (map (slice start stop) p)] _ _
       (read1_grown _ [Store.Buf2 (map (slice start stop) s)] _ _ Ht)))) as Ht4.
  destruct (getitem_slice_reads _ _ start stop _ Ht4) as (a' & -> & _ & Ha').
  simpl_bind.
  rewrite (getitem_fancy2_Ok _ _ _ _ _
             (read2_grown _ _ _ _ (read2_grown _ _ _ _
                (read2_grown _ _ _ _ (read2_grown _ _ _ _ Hi)))) Hfi).
  simpl_bind.
  eexists _, _. split; [reflexivity|].
  unfold Store.load_returned. cbn [Store.new_substrate Store.new_product
    Store.new_enzyme Store.new_initial_substrate Store.new_time Store.new_inhibitor].
  rewrite (read2_grown _ _ _ _ (read2_grown _ _ _ _ (read2_grown _ _ _ _
             (read2_grown _ _ _ _ (read2_new h _))))).
  rewrite (read2_grown _ _ _ _ (read2_grown _ _ _ _ (read2_grown _ _ _ _
             (read2_new _ _)))).
  rewrite (read1_grown _ _ _ _ (read1_grown _ _ _ _ (read1_new _ _))).
  rewrite (read1_grown _ _ _ _ (read1_new _ _)).
  rewrite (read1_grown _ _ _ _ Ha'). rewrite read2_new. done.
Qed.
Lemma subset_data_agrees_Raise initial_substrates start stop e :
  _subset_data arrays initial_substrates start stop = Raise e ->
  Store._subset_data h self initial_substrates start stop = Raise e.
Proof.
  intros Hsub.
  destruct load_reads as (Ht & Hs0 & He & Hi & Hs & Hp).
  unfold _subset_data in Hsub. unfold Store._subset_data.
  rewrite Hload. simpl_bind.
  apply bind_Raise in Hsub as [-> | (idx & -> & Hsub)]; [done|]. simpl_bind.
  apply bind_Raise in Hsub as [Hf | (s & Hfs & Hsub)].
  { by rewrite (getitem_fancy_slice_Raise _ _ _ _ _ _ _ Hs Hf). }
  rewrite (getitem_fancy_slice_Ok _ _ _ _ _ _ _ Hs Hfs). simpl_bind.
  apply bind_Raise in Hsub as [Hf | (p & Hfp & Hsub)].
  { by rewrite (getitem_fancy_slice_Raise _ _ _ _ _ _ _
                  (read2_grown _ _ _ _ Hp) Hf). }
  rewrite (getitem_fancy_slice_Ok _ _ _ _ _ _ _ (read2_grown _ _ _ _ Hp) Hfp).
  simpl_bind.
  apply bind_Raise in Hsub as [Hf | (en & Hfe & Hsub)].
  { by rewrite (getitem_fancy1_Raise _ _ _ _ _
                  (read1_grown _ _ _ _ (read1_grown _ _ _ _ He)) Hf). }
  rewrite (getitem_fancy1_Ok _ _ _ _ _
             (read1_grown _ _ _ _ (read1_grown _ _ _ _ He)) Hfe).
  simpl_bind.
  apply bind_Raise in Hsub as [Hf | (s0 & Hfs0 & Hsub)].
  { by rewrite (getitem_fancy1_Raise _ _ _ _ _
                  (read1_grown _ _ _ _ (read1_grown _ _ _ _
                     (read1_grown _ _ _ _ Hs0))) Hf). }
  rewrite (getitem_fancy1_Ok _ _ _ _ _
             (read1_grown _ _ _ _ (read1_grown _ _ _ _ (read1_grown _ _ _ _ Hs0)))
             Hfs0).
  simpl_bind.
  pose proof (read1_grown _ [Store.Buf1 s0] _ _ (read1_grown _ [Store.Buf1 en] _ _
    (read1_grown _ [Store.Buf2 (map (slice start stop) p)] _ _
       (read1_grown _ [Store.Buf2 (map (slice start stop) s)] _ _ Ht)))) as Ht4.
  destruct (getitem_slice_reads _ _ start stop _ Ht4) as (a' & -> & _ & _).
  simpl_bind.
  apply bind_Raise in Hsub as [Hf | (i & Hfi & Hsub)]; [|discriminate].
  by rewrite (getitem_fancy2_Raise _ _ _ _ _
                (read2_grown _ _ _ _ (read2_grown _ _ _ _
                   (read2_grown _ _ _ _ (read2_grown _ _ _ _ Hi)))) Hf).
Qed.

End Loaded.

Lemma getitem_slice_base h a start stop a' :
  Store.getitem_slice h a start stop = Ok a' -> Store.base a' = Store.base a.
Proof.
  unfold Store.getitem_slice. intros H. inv_bind H as v Hv.
  destruct (slice_indices start stop (length v)) as [lo hi].
  destruct a; by injection H as <-.
Qed.

(** C9, as the code has it: subsetting leaves the arrays of the dataset
    as they are, and the returned substrate, product, enzyme,
    initial-substrate and inhibitor arrays are new arrays, with the values
    of the subset: no assignment through one of them changes an array of
    the dataset.  The returned time array is a slice of the dataset's
    time array and has its buffer. *)
Theorem subset_copies (h : Store.store) (self : Store.Self) (arrays : Arrays)
    (initial_substrates : option (list Q)) (start_time_index stop_time_index : option Z)
    (h' : Store.store) (r : Store.Returned) :
  Store.load h self = Some arrays ->
  Store._subset_data h self initial_substrates start_time_index stop_time_index
  = Ok (h', r) ->
  Store.load h' self = Some arrays
  /\ (exists sub,
        _subset_data arrays initial_substrates start_time_index stop_time_index
        = Ok sub
        /\ Store.load_returned h' r = Some sub)
  /\ (forall a, a ∈ [Store.new_substrate r; Store.new_product r; Store.new_enzyme r;
                     Store.new_initial_substrate r; Store.new_inhibitor r] ->
        forall b h'', Store.write h' a b = Ok h'' ->
                      Store.load h'' self = Some arrays)
  /\ Store.base (Store.new_time r) = Store.base (Store.self_time self).
Proof.
  intros Hload Hsub.
  pose proof (load_bases _ _ _ Hload) as Hbases.
  assert (exists sub,
            _subset_data arrays initial_substrates start_time_index stop_time_index
            = Ok sub
            /\ Store.load_returned h' r = Some sub) as Hvalues.
  { destruct (_subset_data arrays initial_substrates start_time_index stop_time_index)
      as [sub|e] eqn:Eval.
    - destruct (subset_data_agrees _ _ _ Hload _ _ _ _ Eval) as (h1 & r1 & H1 & Hr1).
      rewrite H1 in Hsub. injection Hsub as <- <-. eauto.
    - rewrite (subset_data_agrees_Raise _ _ _ Hload _ _ _ _ Eval) in Hsub.
      discriminate. }
  apply subset_data_allocates in Hsub
    as (b1 & b2 & b3 & b4 & b5 & -> & Hs & Hp & He & Hs0 & Hi & Htime).
  assert (Store.load (h ++ [b1; b2; b3; b4; b5]) self = Some arrays) as Hload'.
  { rewrite <- Hload. apply load_agree. intros l Hl.
    apply lookup_app_l. by apply Hbases. }
  split; [done|]. split; [done|]. split; [|by apply getitem_slice_base in Htime].
  intros a Ha b h'' Hwrite.
  assert (exists l, a = Store.Owner l /\ (length h <= l)%nat) as (l & -> & Hl).
  { rewrite Hs, Hp, He, Hs0, Hi in Ha.
    repeat (apply elem_of_cons in Ha as [-> | Ha]; [eexists; split; [done | lia]|]).
    by apply elem_of_nil in Ha. }
  apply write_owner in Hwrite as ->. rewrite <- Hload'. apply load_agree.
  intros l0 Hl0. apply list_lookup_insert_ne. apply Hbases in Hl0. lia.
Qed.

(** ** The properties on the example data *)

Lemma testdata_constructed : __init__ testdata = Ok (estimator_of testdata).
Proof. vm_compute. reflexivity. Qed.

Lemma testdata_consistent : consistent (arrays_of testdata).
Proof. repeat split. Qed.


Lemma negative_concentrations_witness :
  exists self,
    _initialize_measurement_data (experiment_of [overshoot]) = Ok self
    /\ has_negative (substrate self)
    /\ __init__ (experiment_of [overshoot])
       = Raise (ValueError substrate_negative_message).
Proof.
  exists (arrays_of (experiment_of [overshoot])).
  assert (_initialize_measurement_data (experiment_of [overshoot])
          = Ok (arrays_of (experiment_of [overshoot]))) as H
    by (vm_compute; reflexivity).
  assert (has_negative (substrate (arrays_of (experiment_of [overshoot])))) as Hneg.
  { exists 0%nat, 4%nat, (-2)%Q. split; [vm_compute; reflexivity | reflexivity]. }
  split; [exact H|]. split; [exact Hneg|].
  apply (negative_concentrations _ _ H). exact Hneg.
Defined.

Lemma initial_guesses_witness :
  exists rates kcat m,
    _calculate_rates (arrays_of testdata) (EnzymeKineticsExperiment.time testdata)
    = Ok rates
    /\ _calculate_kcat (arrays_of testdata) (EnzymeKineticsExperiment.time testdata)
       = Ok kcat
    /\ _calculate_Km (arrays_of testdata) (EnzymeKineticsExperiment.time testdata)
       = Ok (fdiv m (Fin 2)).
Proof.
  destruct (initial_guesses (arrays_of testdata) (EnzymeKineticsExperiment.time testdata))
    as (rates & kcat & m & Hrates & _ & _ & Hkcat & _ & Hkm & _).
  - discriminate.
  - vm_compute. repeat constructor.
  - reflexivity.
  - vm_compute. lia.
  - exists rates, kcat, m. auto.
Defined.

(** C6, as the claim has it, fails on a blank without enzyme: the
    quotient of its rate by the enzyme concentration zero is infinite and
    becomes the guess, where the maximum of the finite values is 20. *)
Lemma infinite_guess_not_ignored :
  (self ← __init__ (experiment_of [m1; blank]); Ok (initial_kcat self)) = Ok PInf
  /\ _calculate_kcat (arrays_of (experiment_of [m1; blank]))
                     (EnzymeKineticsExperiment.time (experiment_of [m1; blank]))
     = Ok PInf
  /\ spec_calculate_kcat (arrays_of (experiment_of [m1; blank]))
                         (EnzymeKineticsExperiment.time (experiment_of [m1; blank]))
     = Ok (Fin (10000 # 500))
  /\ isfinite PInf = false.
Proof. repeat split; vm_compute; reflexivity. Qed.

Lemma model_sets_witness :
  __init__ testdata = Ok (estimator_of testdata)
  /\ keys (_initialize_models (estimator_of testdata) false
             (substrate (estimator_of testdata)) (product (estimator_of testdata))
             (enzyme (estimator_of testdata)) (inhibitor (estimator_of testdata)))
     = ["irreversible Michaelis Menten"; "competitive product inhibition";
        "uncompetitive product inhibition"; "non-competitive product inhibition";
        "substrate inhibition"].
Proof.
  split; [exact testdata_constructed|].
  destruct (model_sets testdata (estimator_of testdata) false
              (substrate (estimator_of testdata)) (product (estimator_of testdata))
              (enzyme (estimator_of testdata)) (inhibitor (estimator_of testdata))
              testdata_constructed) as (H5 & _).
  rewrite H5; [reflexivity|]. vm_compute. repeat constructor.
Defined.





Lemma subset_of_all_concentrations_witness :
  groupedb [100; 200; 300]%Q (initial_substrate (arrays_of testdata)) = true
  /\ _subset_data (arrays_of testdata) (Some [100; 200; 300]%Q) None None
     = Ok (unsubset (arrays_of testdata)).
Proof.
  split; [reflexivity|].
  apply (subset_of_all_concentrations (arrays_of testdata) [100; 200; 300]%Q).
  - exact testdata_consistent.
  - reflexivity.
Defined.

(** C7, as the claim has it, fails when the rows of the dataset are not
    in the order of the filter list: with the measurement at 200 before
    the one at 100, the known concentrations are 100 and 200, and the
    rows come back with those of 100 first. *)
Lemma subset_reorders_rows :
  initial_substrate (arrays_of (experiment_of [m2; m1]))
  = [200; 200; 200; 100; 100; 100]%Q
  /\ unique (initial_substrate (arrays_of (experiment_of [m2; m1]))) = [100; 200]%Q
  /\ (sub ← _subset_data (arrays_of (experiment_of [m2; m1]))
              (Some (unique (initial_substrate (arrays_of (experiment_of [m2; m1])))))
              None None;
      Ok (subset_initial_substrate sub))
     = Ok [100; 100; 100; 200; 200; 200]%Q
  /\ _subset_data (arrays_of (experiment_of [m2; m1]))
       (Some (unique (initial_substrate (arrays_of (experiment_of [m2; m1])))))
       None None
     <> Ok (unsubset (arrays_of (experiment_of [m2; m1]))).
Proof.
  split; [reflexivity|]. split; [reflexivity|]. split; [reflexivity|].
  vm_compute. discriminate.
Qed.

Lemma selection_error_witness :
  _subset_data (arrays_of testdata) (Some [100; 150]%Q) None None
  = Raise (ValueError
      [Num 150;
       Lit (" not found in initial substrate concentrations. " ++ newline
            ++ "Initial substrate concentrations are ");
       NumList [100; 200; 300]])%Q.
Proof.
  destruct (selection_error (arrays_of testdata) [100; 150]%Q None None
              testdata_consistent) as (_ & _ & Herr & _).
  destruct Herr as (c & Hc & Habs & Hraise).
  - exists 150%Q. split; [set_solver|]. apply contains_absent. reflexivity.
  - rewrite Hraise. repeat (apply elem_of_cons in Hc as [-> | Hc]).
    + exfalso. apply Habs. apply contains_present. reflexivity.
    + reflexivity.
    + by apply elem_of_nil in Hc.
Defined.

Lemma subset_copies_witness :
  exists h' r,
    Store._subset_data testdata_store testdata_self (Some [200%Q]) (Some 1%Z) None
    = Ok (h', r)
    /\ Store.load h' testdata_self = Some (arrays_of testdata)
    /\ forall b h'', Store.write h' (Store.new_substrate r) b = Ok h'' ->
                     Store.load h'' testdata_self = Some (arrays_of testdata).
Proof.
  eexists _, _. split; [vm_compute; reflexivity|].
  match goal with
  | |- Store.load ?h' _ = _
       /\ (forall b h'', Store.write _ (Store.new_substrate ?r) _ = _ -> _) =>
      destruct (subset_copies testdata_store testdata_self (arrays_of testdata)
                  (Some [200%Q]) (Some 1%Z) None h' r) as (Hload & _ & Hwrite & _)
  end.
  - reflexivity.
  - vm_compute. reflexivity.
  - split; [exact Hload|]. intros b h''. apply Hwrite. left.
Defined.

(** C9, as the claim has it, fails for the time array: the returned time
    array is a view of the dataset's time array, and an assignment
    through it changes the dataset. *)
Lemma returned_time_is_a_view :
  Store.read1 testdata_store (Store.self_time testdata_self) = Some [0; 2; 4; 6; 8; 9]%Q
  /\ (x ← Store._subset_data testdata_store testdata_self None None None;
      h ← Store.write x.1 (Store.new_time x.2) (Store.Buf1 [1; 2; 3; 4; 5; 6]%Q);
      Ok (Store.read1 h (Store.self_time testdata_self)))
     = Ok (Some [1; 2; 3; 4; 5; 6]%Q).
Proof. split; vm_compute; reflexivity. Qed.

(** * Further properties *)

(** ** The outcomes of the normalisation *)

Lemma shape_columns_None {A : Type} (rows : list (list A)) :
  np.shape rows !! 1%nat = None <-> rows = [] \/ ~ rectangular rows.
Proof.
  split.
  - intros Hnone. destruct rows as [|r rs]; [by left|]. right. intros [k Hk].
    rewrite (shape_rectangular (r :: rs) k) in Hnone; done.
  - intros [-> | Hrag]; [done|].
    destruct (np.shape rows !! 1%nat) as [k|] eqn:E; [|done].
    apply shape_columns in E as (_ & _ & Hall). exfalso. apply Hrag. by exists k.
Qed.

Lemma shape_columns_Some {A : Type} (rows : list (list A)) :
  rows <> [] -> rectangular rows -> exists k, np.shape rows !! 1%nat = Some k.
Proof.
  intros Hne [k Hk]. exists k. by rewrite (shape_rectangular rows k).
Qed.

Lemma normalization_after_shape d k :
  np.shape (measurement_data d) !! 1%nat = Some k ->
  (recognized d -> exists self, _initialize_measurement_data d = Ok self)
  /\ (~ recognized d ->
      _initialize_measurement_data d = Raise (AttributeError stoichiometry_message)).
Proof.
  intros Hk. pose proof (shape_columns _ _ Hk) as (Hne & Hshape & Hall).
  unfold _initialize_measurement_data. rewrite Hk. simpl_bind.
  rewrite Hshape, <- (length_per_replicate inhibitor_or_zero), reshape_repeat.
  simpl_bind. unfold recognized.
  destruct (String.eqb_spec (EnzymeKineticsExperiment.stoichiometry d)
                            StoichiometryTypes.SUBSTRATE) as [Hs|Hs].
  { split; [eauto | intros H; exfalso; auto]. }
  destruct (String.eqb_spec (EnzymeKineticsExperiment.stoichiometry d)
                            StoichiometryTypes.PRODUCT) as [Hp|Hp].
  { split; [eauto | intros H; exfalso; auto]. }
  split; [intros [?|?]; done | done].
Qed.

(** X1: the normalisation raises [IndexError] exactly when the experiment
    has no replicate or its replicates differ in length, it raises the
    attribute error of the stoichiometry exactly when the replicates are
    of one length and the selector is not recognised, and it returns in
    the remaining case; it raises nothing else. *)
Theorem normalization_outcome (d : EnzymeKineticsExperiment.t) :
  (_initialize_measurement_data d = Raise IndexError
   <-> measurement_data d = [] \/ ~ rectangular (measurement_data d))
  /\ (_initialize_measurement_data d = Raise (AttributeError stoichiometry_message)
      <-> measurement_data d <> [] /\ rectangular (measurement_data d)
          /\ ~ recognized d)
  /\ ((exists self, _initialize_measurement_data d = Ok self)
      <-> measurement_data d <> [] /\ rectangular (measurement_data d)
          /\ recognized d)
  /\ (forall e, _initialize_measurement_data d = Raise e ->
        e = IndexError \/ e = AttributeError stoichiometry_message).
Proof.
  destruct (np.shape (measurement_data d) !! 1%nat) as [k|] eqn:Hk.
  - pose proof (shape_columns _ _ Hk) as (Hne & _ & Hall).
    assert (rectangular (measurement_data d)) as Hrect by (by exists k).
    destruct (normalization_after_shape d k Hk) as [Hrec Hnot].
    assert (recognized d \/ ~ recognized d) as [Hr | Hr].
    { unfold recognized.
      destruct (String.eqb_spec (EnzymeKineticsExperiment.stoichiometry d)
                                StoichiometryTypes.SUBSTRATE); [by left; left|].
      destruct (String.eqb_spec (EnzymeKineticsExperiment.stoichiometry d)
                                StoichiometryTypes.PRODUCT); [by left; right|].
      right. intros [?|?]; done. }
    + destruct (Hrec Hr) as [self Hself]. rewrite Hself.
      split; [split; [done | intros [?|?]; done]|].
      split; [split; [done | intros (_ & _ & ?); done]|].
      split; [split; [done | eauto]|]. done.
    + rewrite (Hnot Hr).
      split; [split; [done | intros [?|?]; done]|].
      split; [done|].
      split; [split; [intros [? ?]; done | intros (_ & _ & ?); done]|].
      intros e [= <-]. by right.
  - pose proof (proj1 (shape_columns_None _) Hk) as Hbad.
    assert (_initialize_measurement_data d = Raise IndexError) as ->.
    { unfold _initialize_measurement_data. by rewrite Hk. }
    split; [done|].
    split; [split; [done | intros (Hne & Hrect & _); by destruct Hbad]|].
    split; [split; [intros [? ?]; done | intros (Hne & Hrect & _); by destruct Hbad]|].
    intros e [= <-]. by left.
Qed.

(** ** The rows of the normalised arrays *)


(** ** Construction *)

Lemma within_bounds_spec d :
  within_boundsb d = true <->
  forall i row s0 x,
    measurement_data d !! i = Some row ->
    per_replicate Measurement.initial_substrate_conc d !! i = Some s0 ->
    x ∈ row -> (0 <= x /\ x <= s0)%Q.
Proof.
  unfold within_boundsb. rewrite forallb_forall. split.
  - intros H i row s0 x Hrow Hs0 Hx.
    assert ((row, s0) ∈ zip (measurement_data d)
              (per_replicate Measurement.initial_substrate_conc d)) as Hin.
    { apply list_elem_of_lookup. exists i. apply lookup_zip_with_Some. eauto. }
    apply list_elem_of_In, H in Hin. rewrite forallb_forall in Hin.
    apply list_elem_of_In, Hin, andb_true_iff in Hx as [H0 H1].
    by rewrite !Qle_bool_iff in *.
  - intros H [row s0] Hin. apply list_elem_of_In, list_elem_of_lookup in Hin as [i Hi].
    apply lookup_zip_with_Some in Hi as (row' & s0' & [= <- <-] & Hrow & Hs0).
    apply forallb_forall. intros x Hx. apply list_elem_of_In in Hx.
    destruct (H i row s0 x Hrow Hs0 Hx) as [H0 H1].
    apply andb_true_iff. by rewrite !Qle_bool_iff.
Qed.

Lemma Qminus_negative (s0 x : Q) : (s0 - x < 0)%Q <-> (s0 < x)%Q.
Proof.
  rewrite (Qlt_minus_iff s0 x), (Qlt_minus_iff (s0 - x) 0).
  assert (0 + - (s0 - x) == x + - s0)%Q as H by ring. by rewrite H.
Qed.

Lemma has_negative_measured d :
  has_negative (measurement_data d) <->
  exists i row x, measurement_data d !! i = Some row /\ x ∈ row /\ (x < 0)%Q.
Proof.
  unfold has_negative. split.
  - intros (i & t & x & Hitem & Hneg). apply item2_Ok in Hitem as (row & Hrow & Hx).
    exists i, row, x. split; [done|]. split; [|done].
    by apply list_elem_of_lookup_2 in Hx.
  - intros (i & row & x & Hrow & Hx & Hneg).
    apply list_elem_of_lookup in Hx as [t Ht].
    exists i, t, x. split; [apply item2_Ok; eauto | done].
Qed.

Lemma has_negative_derived d s0s :
  length s0s = length (measurement_data d) ->
  has_negative (_calculate_product (measurement_data d) s0s) <->
  exists i row s0 x, measurement_data d !! i = Some row /\ s0s !! i = Some s0
                     /\ x ∈ row /\ (s0 < x)%Q.
Proof.
  intros Hlen. unfold has_negative. split.
  - intros (i & t & y & Hitem & Hneg). apply item2_Ok in Hitem as (drow & Hdrow & Hy).
    assert (exists row, measurement_data d !! i = Some row) as [row Hrow].
    { apply lookup_lt_is_Some_2. apply lookup_lt_Some in Hdrow.
      by rewrite length_calculate in Hdrow. }
    assert (exists s0, s0s !! i = Some s0) as [s0 Hs0].
    { apply lookup_lt_is_Some_2. rewrite Hlen. by apply lookup_lt_Some in Hrow. }
    rewrite (calculate_lookup _ _ _ _ _ Hrow Hs0) in Hdrow. injection Hdrow as <-.
    rewrite lookup_map in Hy. destruct (row !! t) as [x|] eqn:Hx; [|done].
    injection Hy as <-. exists i, row, s0, x.
    split; [done|]. split; [done|]. split; [by apply list_elem_of_lookup_2 in Hx|].
    by apply Qminus_negative.
  - intros (i & row & s0 & x & Hrow & Hs0 & Hx & Hlt).
    apply list_elem_of_lookup in Hx as [t Ht].
    exists i, t, (s0 - x)%Q. split.
    + apply item2_Ok. exists (map (fun v => (s0 - v)%Q) row).
      split; [by apply calculate_lookup|]. by rewrite lookup_map, Ht.
    + by apply Qminus_negative.
Qed.

Lemma bounded_not_negative d self :
  _initialize_measurement_data d = Ok self ->
  within_boundsb d = true <->
  ~ has_negative (substrate self) /\ ~ has_negative (product self).
Proof.
  intros H.
  destruct (normalization_Ok _ _ H) as (k & _ & _ & _ & Hs0 & _ & _ & Hsp).
  assert (length (initial_substrate self) = length (measurement_data d)) as Hlen
    by (rewrite Hs0; apply length_per_replicate).
  assert ((~ has_negative (substrate self) /\ ~ has_negative (product self))
          <-> (~ has_negative (measurement_data d)
               /\ ~ has_negative (_calculate_product (measurement_data d)
                                                      (initial_substrate self))))
    as ->.
  { destruct Hsp as [(_ & -> & ->) | (_ & -> & ->)];
      rewrite ?calculate_substrate_product; tauto. }
  rewrite has_negative_measured, (has_negative_derived _ _ Hlen), within_bounds_spec.
  rewrite Hs0. split.
  - intros Hb. split.
    + intros (i & row & x & Hrow & Hx & Hneg).
      assert (exists s0, per_replicate Measurement.initial_substrate_conc d !! i
                         = Some s0) as [s0 Hs0i].
      { apply lookup_lt_is_Some_2. rewrite length_per_replicate.
        by apply lookup_lt_Some in Hrow. }
      destruct (Hb i row s0 x Hrow Hs0i Hx) as [H0 _].
      by apply (Qlt_not_le _ _ Hneg).
    + intros (i & row & s0 & x & Hrow & Hs0i & Hx & Hlt).
      destruct (Hb i row s0 x Hrow Hs0i Hx) as [_ H1].
      by apply (Qlt_not_le _ _ Hlt).
  - intros [Hm Hd] i row s0 x Hrow Hs0i Hx. split.
    + apply Qnot_lt_le. intros Hneg. apply Hm. eauto 10.
    + apply Qnot_lt_le. intros Hlt. apply Hd. eauto 10.
Qed.

Lemma check_negative_Ok self :
  _check_negative_concentrations self = Ok tt <->
  ~ has_negative (substrate self) /\ ~ has_negative (product self).
Proof.
  unfold _check_negative_concentrations. rewrite <- !any_negative_false.
  destruct (any_negative (substrate self)), (any_negative (product self));
    split; (try done); intros [? ?]; done.
Qed.

Lemma rates_per_enzyme_of_rates self data_time rates k :
  _calculate_rates self data_time = Ok rates ->
  rates <> [] -> Forall (fun r => length r = k) rates ->
  length (enzyme self) = length rates ->
  rates_per_enzyme self data_time
  = Ok (zip_with (fun row e => map (fun r => fdiv r (Fin e)) row)
                 rates (enzyme self)).
Proof.
  intros Hrates Hne Hall Hlen. unfold rates_per_enzyme. rewrite Hrates. simpl_bind.
  rewrite (shape_rectangular _ k) by done.
  cbn -[np.reshape np.repeat]. rewrite <- Hlen, reshape_repeat.
  simpl_bind. f_equal. clear Hrates Hlen Hne. revert Hall.
  generalize (enzyme self) as es. intros es. revert es.
  induction rates as [|r rates IH]; intros es Hall; [done|].
  destruct es as [|e es]; [done|]. apply Forall_cons in Hall as [Hr Hall].
  simpl. f_equal; [|by apply IH].
  clear -Hr. subst k. induction r as [|x r IH]; simpl; [done|]. by f_equal.
Qed.

Lemma nanmax_Ok xs : xs <> [] -> exists r, nanmax xs = Ok r.
Proof. destruct xs; [done|]. simpl. eauto. Qed.

Lemma concat_nonempty {A : Type} (r : list A) (rows : list (list A)) :
  r <> [] -> concat (r :: rows) <> [].
Proof. destruct r; [done|]. simpl. done. Qed.

(** The guesses exist as soon as the rates do, for rows of one length
    that is not zero. *)
Lemma guesses_of_rates self data_time rates k :
  _calculate_rates self data_time = Ok rates ->
  rates <> [] -> Forall (fun r => length r = k) rates -> (1 <= k)%nat ->
  length (enzyme self) = length rates ->
  exists kcat m,
    _calculate_kcat self data_time = Ok kcat
    /\ _calculate_Km self data_time = Ok (fdiv m (Fin 2))
    /\ nanmax (concat rates) = Ok m.
Proof.
  intros Hrates Hne Hall Hk Hlen.
  destruct rates as [|r rates'] eqn:Er; [done|]. rewrite <- Er in *.
  assert (r <> []) as Hr.
  { rewrite Er in Hall. apply Forall_cons in Hall as [Hr _].
    destruct r; [simpl in Hr; lia | done]. }
  destruct (enzyme self) as [|e es] eqn:Ee; [by rewrite Er in Hlen|].
  destruct (nanmax_Ok (concat rates)) as [m Hm].
  { rewrite Er. by apply concat_nonempty. }
  destruct (nanmax_Ok (concat (zip_with (fun row e => map (fun r => fdiv r (Fin e)) row)
                                        rates (e :: es)))) as [kcat Hkcat].
  { rewrite Er. simpl. destruct r; [done|]. done. }
  exists kcat, m. split; [|split; [|done]].
  - unfold _calculate_kcat.
    rewrite (rates_per_enzyme_of_rates _ _ rates k) by (rewrite ?Ee; done).
    simpl_bind. by rewrite Ee.
  - unfold _calculate_Km. rewrite Hrates. simpl_bind. by rewrite Hm.
Qed.

Lemma aligned_rates_shape self data_time :
  Forall (fun row => length row = length data_time) (substrate self) ->
  Forall (fun r => length r = (length data_time - 1)%nat)
         (map (row_rates data_time) (substrate self)).
Proof.
  intros Hall. apply Forall_forall. intros r Hr.
  apply list_elem_of_In, in_map_iff in Hr as (row & <- & Hrow).
  apply length_row_rates. rewrite Forall_forall in Hall.
  apply Hall. by apply list_elem_of_In.
Qed.

Lemma valid_normalized d self :
  valid_experiment d -> _initialize_measurement_data d = Ok self ->
  substrate self <> []
  /\ Forall (fun row => length row = length (EnzymeKineticsExperiment.time d))
            (substrate self)
  /\ length (enzyme self) = length (substrate self).
Proof.
  intros (_ & Hne & Hall) H.
  destruct (normalized_substrate_rows _ _ _ H Hall) as [Hsub _].
  destruct (normalization_consistent _ _ H) as (_ & He & _ & _).
  split; [|done].
  destruct (normalization_Ok _ _ H) as (k & _ & _ & _ & Hs0 & _ & _ & Hsp).
  intros Hnil. apply Hne.
  assert (length (substrate self) = length (measurement_data d)) as Hlen.
  { destruct Hsp as [(_ & -> & _) | (_ & _ & ->)]; [done|].
    rewrite calculate_substrate_product. apply length_calculate.
    rewrite Hs0. apply length_per_replicate. }
  rewrite Hnil in Hlen. by destruct (measurement_data d).
Qed.

(** X3: an experiment with a recognised stoichiometry, at least one
    replicate, replicates aligned to a time grid of at least two points,
    and all readings between zero and the initial substrate concentration
    of their measurement can be constructed. *)
Theorem construction_succeeds (d : EnzymeKineticsExperiment.t) :
  valid_experiment d ->
  (2 <= length (EnzymeKineticsExperiment.time d))%nat ->
  within_boundsb d = true ->
  exists self, __init__ d = Ok self /\ data self = d
               /\ _initialize_measurement_data d = Ok (arrays self).
Proof.
  intros Hvalid Htime Hb.
  destruct (normalization_total d Hvalid) as [self Hself].
  destruct (valid_normalized _ _ Hvalid Hself) as (Hne & Hall & Hlen).
  destruct (guesses_of_rates self (EnzymeKineticsExperiment.time d)
              (map (row_rates (EnzymeKineticsExperiment.time d)) (substrate self))
              (length (EnzymeKineticsExperiment.time d) - 1))
    as (kcat & m & Hkcat & Hkm & _).
  - by apply calculate_rates_aligned.
  - by destruct (substrate self).
  - by apply aligned_rates_shape.
  - lia.
  - by rewrite length_map.
  - unfold __init__. rewrite Hself. simpl_bind.
    rewrite (proj2 (check_negative_Ok self)) by (by apply (bounded_not_negative d)).
    simpl_bind. rewrite Hkcat. simpl_bind. rewrite Hkm. simpl_bind.
    eexists. split; [reflexivity|]. done.
Qed.

Lemma broadcast_div_time row ts out :
  broadcast_div row ts = Ok out -> out <> [] -> ts <> [].
Proof.
  unfold broadcast_div. intros H Hout ->.
  destruct row as [|x [|x' row]]; simpl in H; try discriminate;
    injection H as <-; done.
Qed.

Lemma calculate_Km_time self data_time km :
  _calculate_Km self data_time = Ok km -> (2 <= length data_time)%nat.
Proof.
  unfold _calculate_Km, _calculate_rates. intros H.
  inv_bind H as rates Hrates. inv_bind Hrates as quotients Hq.
  injection Hrates as <-. inv_bind H as m Hm. clear H.
  assert (exists x, x ∈ concat (map (map fabs) quotients)) as [x Hx].
  { destruct (concat _) as [|x xs]; [discriminate|]. exists x. left. }
  apply elem_of_concat_entry in Hx as (i & j & Hx).
  rewrite entry_map in Hx.
  destruct (quotients !! i) as [qrow|] eqn:Hi; [|done]. simpl in Hx.
  pose proof (mapM_Ok_length _ _ _ Hq) as Hlen.
  destruct (lookup_lt_is_Some_2 (map diff (substrate self)) i) as [d Hd].
  { rewrite <- Hlen. by apply lookup_lt_Some in Hi. }
  destruct (mapM_Ok_lookup _ _ _ Hq _ _ Hd) as (qrow' & Hi' & Hdiv).
  rewrite Hi in Hi'. injection Hi' as <-.
  apply broadcast_div_time in Hdiv.
  - assert (length (diff data_time) <> 0%nat) as Hne by (by destruct (diff data_time)).
    rewrite length_diff in Hne. lia.
  - intros ->. by rewrite lookup_map in Hx.
Qed.

(** X4: every constructed estimator has at least one row and at least two
    time columns, its arrays agree in their row counts and its substrate,
    product and inhibitor rows in their lengths, its time grid has at
    least two points, and no substrate or product entry is negative. *)
Theorem constructed_invariant (d : EnzymeKineticsExperiment.t)
    (self : ParameterEstimator) :
  __init__ d = Ok self ->
  substrate self <> []
  /\ consistent self
  /\ (exists columns,
        (2 <= columns)%nat
        /\ Forall (fun row => length row = columns) (substrate self)
        /\ Forall (fun row => length row = columns) (product self)
        /\ Forall (fun row => length row = columns) (inhibitor self))
  /\ (2 <= length (time self))%nat
  /\ ~ has_negative (substrate self)
  /\ ~ has_negative (product self)
  /\ recognized d.
Proof.
  intros H. apply init_Ok in H as (Hnorm & Hcheck & _ & Hkm & _).
  destruct (normalization_Ok _ _ Hnorm)
    as (k & Hne & Hall & Htime & Hs0 & _ & Hinh & Hsp).
  destruct (normalized_substrate_rows _ _ _ Hnorm Hall) as [Hsub Hprod].
  pose proof (normalization_consistent _ _ Hnorm) as Hc.
  apply check_negative_Ok in Hcheck as [Hns Hnp].
  pose proof (calculate_Km_time _ _ _ Hkm) as HT.
  apply calculate_Km_columns in Hkm as (row & Hrow & Hlen).
  assert (substrate self <> []) as Hrows.
  { intros Hnil. rewrite Hnil in Hrow. by apply elem_of_nil in Hrow. }
  split; [done|]. split; [done|]. split.
  { exists k. split.
    - rewrite Forall_forall in Hsub. by rewrite <- (Hsub _ Hrow).
    - split; [done|]. split; [done|]. rewrite Hinh. apply Forall_forall.
      intros r Hr. apply list_elem_of_In, in_map_iff in Hr as (c & <- & _).
      apply length_replicate. }
  split; [by rewrite Htime|]. split; [done|]. split; [done|].
  destruct Hsp as [(? & _) | (? & _)]; [by left | by right].
Qed.

Lemma concat_empty_rows {A : Type} (rows : list (list A)) :
  Forall (fun r => length r = 0%nat) rows -> concat rows = [].
Proof.
  induction 1 as [|r rows Hr _ IH]; [done|]. simpl. rewrite IH.
  destruct r; [done | simpl in Hr; lia].
Qed.

(** X5: an experiment whose time grid has one point or none cannot be
    constructed: there is no interval to take a rate over, and the
    maximum over the empty array of rates raises a value error. *)
Theorem single_time_point (d : EnzymeKineticsExperiment.t) :
  valid_experiment d ->
  (length (EnzymeKineticsExperiment.time d) <= 1)%nat ->
  within_boundsb d = true ->
  __init__ d = Raise (ValueError zero_size_message).
Proof.
  intros Hvalid Htime Hb.
  destruct (normalization_total d Hvalid) as [self Hself].
  destruct (valid_normalized _ _ Hvalid Hself) as (Hne & Hall & Hlen).
  unfold __init__. rewrite Hself. simpl_bind.
  rewrite (proj2 (check_negative_Ok self)) by (by apply (bounded_not_negative d)).
  simpl_bind. unfold _calculate_kcat.
  rewrite rates_per_enzyme_aligned by done. simpl_bind.
  rewrite concat_empty_rows; [done|].
  pose proof (aligned_rates_shape _ _ Hall) as Hshape.
  revert Hshape. generalize (map (row_rates (EnzymeKineticsExperiment.time d))
                                 (substrate self)) as rates.
  generalize (enzyme self) as es. intros es rates. revert es.
  induction rates as [|r rates IH]; intros es Hshape; [constructor|].
  destruct es as [|e es]; [constructor|]. apply Forall_cons in Hshape as [Hr Hshape].
  simpl. constructor; [|by apply IH]. rewrite length_map, Hr. lia.
Qed.

Lemma normalized_rows_nonempty d self :
  _initialize_measurement_data d = Ok self ->
  length (substrate self) = length (measurement_data d)
  /\ substrate self <> [].
Proof.
  intros H.
  destruct (normalization_Ok _ _ H) as (k & Hne & _ & _ & Hs0 & _ & _ & Hsp).
  assert (length (substrate self) = length (measurement_data d)) as Hlen.
  { destruct Hsp as [(_ & -> & _) | (_ & _ & ->)]; [done|].
    rewrite calculate_substrate_product. apply length_calculate.
    rewrite Hs0. apply length_per_replicate. }
  split; [done|]. intros Hnil. rewrite Hnil in Hlen.
  by destruct (measurement_data d).
Qed.




Lemma rates_two_points self t0 t1 :
  _calculate_rates self [t0; t1]
  = Ok (map (fun row => map (fun x => fabs (np_div x (t1 - t0))) (diff row))
            (substrate self)).
Proof.
  unfold _calculate_rates.
  rewrite (mapM_Ok_map _ (fun row => map (fun x => np_div x (t1 - t0)) row)).
  - simpl_bind. rewrite !map_map. f_equal. apply map_ext. intros row.
    by rewrite map_map.
  - intros row _. unfold broadcast_div. change (diff [t0; t1]) with [(t1 - t0)%Q].
    destruct (Nat.eqb_spec (length row) (length [(t1 - t0)%Q])) as [Hlen|]; [|done].
    by destruct row as [|x [|x' row]].
Qed.

(** X7: a time grid of two points is accepted with replicates of any
    length from two on: the construction succeeds, and every interval of
    a replicate is divided by the one difference of the two time points. *)
Theorem two_point_time_grid (d : EnzymeKineticsExperiment.t) (columns : nat)
    (t0 t1 : Q) :
  measurement_data d <> [] ->
  Forall (fun row => length row = columns) (measurement_data d) ->
  (2 <= columns)%nat ->
  recognized d ->
  within_boundsb d = true ->
  EnzymeKineticsExperiment.time d = [t0; t1] ->
  exists self,
    __init__ d = Ok self
    /\ _calculate_rates self (EnzymeKineticsExperiment.time d)
       = Ok (map (fun row => map (fun x => fabs (np_div x (t1 - t0))) (diff row))
                 (substrate self)).
Proof.
  intros Hne Hall Hcol Hrec Hb Htime.
  destruct (shape_columns_Some (measurement_data d)) as [k Hk];
    [done | by exists columns |].
  destruct (proj1 (normalization_after_shape d k Hk) Hrec) as [self Hself].
  destruct (normalized_substrate_rows _ _ _ Hself Hall) as [Hsub _].
  destruct (normalized_rows_nonempty _ _ Hself) as [_ Hrows].
  destruct (normalization_consistent _ _ Hself) as (_ & He & _ & _).
  destruct (guesses_of_rates self [t0; t1]
              (map (fun row => map (fun x => fabs (np_div x (t1 - t0))) (diff row))
                   (substrate self)) (columns - 1))
    as (kcat & m & Hkcat & Hkm & _).
  - apply rates_two_points.
  - by destruct (substrate self).
  - apply Forall_forall. intros r Hr.
    apply list_elem_of_In, in_map_iff in Hr as (row & <- & Hrow).
    rewrite length_map, length_diff. rewrite Forall_forall in Hsub.
    rewrite (Hsub row); [done | by apply list_elem_of_In].
  - lia.
  - by rewrite length_map.
  - unfold __init__. rewrite Hself. simpl_bind.
    rewrite (proj2 (check_negative_Ok self)) by (by apply (bounded_not_negative d)).
    simpl_bind. rewrite Htime, Hkcat. simpl_bind. rewrite Hkm. simpl_bind.
    eexists. split; [reflexivity|]. apply rates_two_points.
Qed.

(** ** The sign and the finiteness of the initial guesses *)

Lemma fabs_not_negative x : not_negative (fabs x).
Proof. destruct x; simpl; try done. apply Qabs_nonneg. Qed.

Lemma fdiv_not_negative r e :
  not_negative r -> (0 <= e)%Q -> not_negative (fdiv r (Fin e)).
Proof.
  intros Hr He. destruct r as [q| | |]; simpl in *; try done.
  - unfold np_div. destruct (Qeq_bool e 0) eqn:Ee.
    + destruct (Qeq_bool q 0) eqn:Eq; [done|].
      destruct (Qltb 0 q) eqn:El; [done|]. exfalso.
      apply Qle_lteq in Hr as [Hlt | Heq].
      * apply Qltb_lt in Hlt. congruence.
      * symmetry in Heq. apply Qeq_bool_iff in Heq. congruence.
    + simpl. apply Qle_shift_div_l.
      * apply Qle_lteq in He as [Hlt | Heq]; [done|].
        symmetry in Heq. apply Qeq_bool_iff in Heq. congruence.
      * by rewrite Qmult_0_l.
  - destruct (Qltb e 0) eqn:El; [|done]. apply Qltb_lt in El.
    by apply (Qlt_not_le _ _ El).
Qed.

Lemma fmax_choice x y : fmax x y = x \/ fmax x y = y.
Proof. destruct x, y; simpl; auto; destruct (Qle_bool _ _); auto. Qed.

Lemma fold_fmax_in xs acc : fold_left fmax xs acc ∈ acc :: xs.
Proof.
  revert acc. induction xs as [|x xs IH]; intros acc; simpl; [left|].
  specialize (IH (fmax acc x)). apply elem_of_cons in IH as [-> | IH].
  - destruct (fmax_choice acc x) as [-> | ->]; [left | right; left].
  - right. by right.
Qed.

Lemma nanmax_in xs r : nanmax xs = Ok r -> r ∈ xs.
Proof.
  destruct xs as [|x xs]; simpl; [done|]. intros [= <-]. apply fold_fmax_in.
Qed.

Lemma Forall_np_repeat (P : Q -> Prop) xs k :
  Forall P xs -> Forall P (np.repeat xs k).
Proof.
  unfold np.repeat. induction 1 as [|x xs Hx _ IH]; simpl; [constructor|].
  apply Forall_app. split; [|done]. by apply Forall_replicate.
Qed.

Lemma Forall_chunks (P : Q -> Prop) n k flat :
  Forall P flat -> Forall (Forall P) (np.chunks n k flat).
Proof.
  revert flat. induction n as [|n IH]; intros flat H; simpl; constructor.
  - by apply Forall_take.
  - apply IH. by apply Forall_drop.
Qed.

Lemma Forall_reshape (P : Q -> Prop) flat shp m :
  np.reshape flat shp = Ok m -> Forall P flat -> Forall (Forall P) m.
Proof.
  unfold np.reshape. destruct shp as [|n [|k [|? ?]]]; try done.
  destruct (Nat.eqb _ _); [|done]. intros [= <-]. apply Forall_chunks.
Qed.

Lemma Forall_zip_rows {A B C : Type} (P : A -> Prop) (Q' : B -> Prop) (R : C -> Prop)
    (f : A -> B -> C) (xss : list (list A)) (yss : list (list B)) :
  (forall x y, P x -> Q' y -> R (f x y)) ->
  Forall (Forall P) xss -> Forall (Forall Q') yss ->
  Forall (Forall R) (zip_with (zip_with f) xss yss).
Proof.
  intros Hf Hx. revert yss. induction Hx as [|xs xss Hxs _ IH]; intros yss Hy;
    [constructor|].
  destruct Hy as [|ys yss Hys Hyss]; [constructor|]. simpl. constructor; [|by apply IH].
  clear -Hf Hxs Hys. revert ys Hys. induction Hxs as [|x xs Hx _ IH]; intros ys Hys;
    [constructor|].
  destruct Hys as [|y ys Hy Hys]; [constructor|]. simpl. constructor; auto.
Qed.

Lemma Forall_concat_rows {A : Type} (P : A -> Prop) (rows : list (list A)) :
  Forall (Forall P) rows -> Forall P (concat rows).
Proof.
  induction 1 as [|r rows Hr _ IH]; simpl; [constructor|]. by apply Forall_app.
Qed.

Lemma rates_not_negative self data_time rates :
  _calculate_rates self data_time = Ok rates ->
  Forall (Forall not_negative) rates.
Proof.
  unfold _calculate_rates. intros H. inv_bind H as quotients Hq.
  injection H as <-. apply Forall_forall. intros r Hr.
  apply list_elem_of_In, in_map_iff in Hr as (q & <- & _).
  apply Forall_forall. intros x Hx.
  apply list_elem_of_In, in_map_iff in Hx as (y & <- & _). apply fabs_not_negative.
Qed.

Lemma calculate_Km_not_negative self data_time km :
  _calculate_Km self data_time = Ok km -> not_negative km.
Proof.
  intros H. unfold _calculate_Km in H.
  inv_bind H as rates Hrates. inv_bind H as m Hm. injection H as <-.
  apply fdiv_not_negative; [|done].
  apply nanmax_in in Hm. apply rates_not_negative, Forall_concat_rows in Hrates.
  rewrite Forall_forall in Hrates. auto.
Qed.

(** X8: the guess of the Michaelis constant is never negative, and
    neither is the guess of the catalytic rate when no enzyme
    concentration is negative: each is NaN, plus infinity, or a finite
    number from zero on. *)
Theorem guesses_not_negative (self : Arrays) (data_time : list Q) :
  (forall km, _calculate_Km self data_time = Ok km -> not_negative km)
  /\ (Forall (fun e => 0 <= e)%Q (enzyme self) ->
      forall kcat, _calculate_kcat self data_time = Ok kcat -> not_negative kcat).
Proof.
  split.
  - intros km. apply calculate_Km_not_negative.
  - intros He kcat H. unfold _calculate_kcat, rates_per_enzyme in H.
    inv_bind H as quotients Hq. inv_bind Hq as rates Hrates.
    inv_bind Hq as columns Hcol. inv_bind Hq as tile Htile. injection Hq as <-.
    apply nanmax_in in H.
    assert (Forall not_negative
              (concat (zip_with (zip_with (fun r e => fdiv r (Fin e))) rates tile)))
      as Hall.
    { apply Forall_concat_rows.
      apply (Forall_zip_rows not_negative (fun e => 0 <= e)%Q).
      - intros x y. apply fdiv_not_negative.
      - by apply rates_not_negative in Hrates.
      - eapply Forall_reshape; [exact Htile|]. by apply Forall_np_repeat. }
    rewrite Forall_forall in Hall. auto.
Qed.





(** ** The rows and the window of a subset *)

Lemma fancy_Forall2 {A : Type} (a : list A) (idx : list nat) (out : list A) :
  fancy a idx = Ok out <-> Forall2 (fun i x => a !! i = Some x) idx out.
Proof.
  unfold fancy. revert out. induction idx as [|i idx IH]; intros out; simpl.
  - split; [intros [= <-]; constructor | by inversion 1].
  - split.
    + intros H. inv_bind H as x Hx. inv_bind H as xs Hxs. injection H as <-.
      constructor; [|by apply IH].
      destruct (a !! i); simpl in Hx; congruence.
    + inversion 1 as [|? x ? xs Hx Hxs]; subst. rewrite Hx. simpl_bind.
      apply IH in Hxs. rewrite Hxs. done.
Qed.

Lemma fancy_app {A : Type} (a : list A) (idx1 idx2 : list nat) out1 out2 :
  fancy a idx1 = Ok out1 -> fancy a idx2 = Ok out2 ->
  fancy a (idx1 ++ idx2) = Ok (out1 ++ out2).
Proof.
  rewrite !fancy_Forall2. apply Forall2_app.
Qed.

Lemma fancy_where (pre xs : vector) (c : Q) :
  fancy (pre ++ xs) (where_from (length pre) xs c)
  = Ok (List.filter (fun x => Qeq_bool x c) xs).
Proof.
  revert pre. induction xs as [|x xs IH]; intros pre; simpl; [done|].
  specialize (IH (pre ++ [x])). rewrite <- app_assoc, length_app in IH.
  simpl in IH. rewrite Nat.add_1_r in IH.
  destruct (Qeq_bool x c); [|done].
  unfold fancy in *. simpl. rewrite list_lookup_middle by done. simpl_bind.
  by rewrite IH.
Qed.

Lemma fancy_flat_map_where (xs : vector) (cs : list Q) :
  fancy xs (flat_map (where_eq xs) cs)
  = Ok (flat_map (fun c => List.filter (fun x => Qeq_bool x c) xs) cs).
Proof.
  induction cs as [|c cs IH]; simpl; [done|].
  apply fancy_app; [|done]. apply (fancy_where [] xs c).
Qed.

Lemma collect_rows_Ok_inv xs cs idx idx' :
  collect_rows xs cs idx = Ok idx' ->
  idx' = idx ++ flat_map (where_eq xs) cs
  /\ forall c, c ∈ cs -> contains xs c = true.
Proof.
  revert idx. induction cs as [|c cs IH]; intros idx; simpl.
  - intros [= <-]. split; [by rewrite app_nil_r|]. intros c Hc.
    by apply elem_of_nil in Hc.
  - destruct (contains xs c) eqn:Ec; simpl; [|done]. intros H.
    apply IH in H as [-> Hall]. split; [by rewrite app_assoc|].
    intros c' Hc'. apply elem_of_cons in Hc' as [-> | Hc']; auto.
Qed.

(** X10: with a filter list that is not empty, the rows come back in the
    order of the list: first the rows of the dataset with the first
    concentration of the list, in their order, then those with the
    second, and so on; a concentration that the list names twice has its
    rows returned twice. *)
Theorem subset_rows_in_filter_order (self : Arrays) (concentrations : list Q)
    (start_time_index stop_time_index : option Z) (sub : Subset) :
  concentrations <> [] ->
  _subset_data self (Some concentrations) start_time_index stop_time_index = Ok sub ->
  subset_initial_substrate sub
  = flat_map (fun c => List.filter (fun x => Qeq_bool x c) (initial_substrate self))
             concentrations
  /\ length (subset_substrate sub) = length (subset_initial_substrate sub)
  /\ forall c, c ∈ concentrations -> present (initial_substrate self) c.
Proof.
  intros Hne H. unfold _subset_data in H.
  inv_bind H as idx Hidx. inv_bind H as s Hs. inv_bind H as p Hp.
  inv_bind H as e He. inv_bind H as s0 Hs0. inv_bind H as i Hi.
  injection H as <-. cbn [subset_initial_substrate subset_substrate].
  unfold row_index in Hidx. destruct concentrations as [|c cs] eqn:Ecs; [done|].
  rewrite <- Ecs in *. apply collect_rows_Ok_inv in Hidx as [-> Hall].
  simpl in Hs0. rewrite fancy_flat_map_where in Hs0. injection Hs0 as <-.
  split; [done|]. split.
  - rewrite length_map. apply fancy_Forall2, Forall2_length in Hs.
    rewrite <- Hs. simpl.
    pose proof (fancy_flat_map_where (initial_substrate self) concentrations) as H0.
    apply fancy_Forall2, Forall2_length in H0. done.
  - intros c0 Hc0. by apply contains_present, Hall.
Qed.

(** X11: row [j] of every returned array is one and the same row of the
    dataset: its substrate and product cut to the time window, its enzyme
    and initial substrate concentration, and its inhibitor row, which is
    not cut to the window. *)
Theorem subset_rows_coherent (self : Arrays) (initial_substrates : option (list Q))
    (start_time_index stop_time_index : option Z) (sub : Subset) :
  _subset_data self initial_substrates start_time_index stop_time_index = Ok sub ->
  exists idx,
    row_index self initial_substrates = Ok idx
    /\ length (subset_substrate sub) = length idx
    /\ length (subset_product sub) = length idx
    /\ length (subset_enzyme sub) = length idx
    /\ length (subset_initial_substrate sub) = length idx
    /\ length (subset_inhibitor sub) = length idx
    /\ subset_time sub = slice start_time_index stop_time_index (time self)
    /\ forall j i, idx !! j = Some i ->
         subset_substrate sub !! j
         = slice start_time_index stop_time_index <$> substrate self !! i
         /\ subset_product sub !! j
            = slice start_time_index stop_time_index <$> product self !! i
         /\ subset_enzyme sub !! j = enzyme self !! i
         /\ subset_initial_substrate sub !! j = initial_substrate self !! i
         /\ subset_inhibitor sub !! j = inhibitor self !! i.
Proof.
  intros H. unfold _subset_data in H.
  inv_bind H as idx Hidx. inv_bind H as s Hs. inv_bind H as p Hp.
  inv_bind H as e He. inv_bind H as s0 Hs0. inv_bind H as i Hi.
  injection H as <-. exists idx. split; [done|].
  cbn [subset_substrate subset_product subset_enzyme subset_initial_substrate
       subset_time subset_inhibitor].
  apply fancy_Forall2 in Hs, Hp, He, Hs0, Hi.
  rewrite !length_map.
  rewrite <- (Forall2_length _ _ _ Hs), <- (Forall2_length _ _ _ Hp),
    <- (Forall2_length _ _ _ He), <- (Forall2_length _ _ _ Hs0),
    <- (Forall2_length _ _ _ Hi).
  do 6 (split; [done|]). intros j k Hj. rewrite !lookup_map.
  assert (forall (A : Type) (a out : list A),
            Forall2 (fun i x => a !! i = Some x) idx out -> out !! j = a !! k)
    as Hrow.
  { intros A a out HF. destruct (Forall2_lookup_l _ _ _ _ _ HF Hj) as (x & -> & Hx).
    done. }
  rewrite (Hrow _ _ _ Hs), (Hrow _ _ _ Hp), (Hrow _ _ _ He), (Hrow _ _ _ Hs0),
    (Hrow _ _ _ Hi). done.
Qed.

Lemma subset_data_inv self initial_substrates start stop sub :
  _subset_data self initial_substrates start stop = Ok sub ->
  exists idx s p e s0 i,
    row_index self initial_substrates = Ok idx
    /\ Forall2 (fun k x => substrate self !! k = Some x) idx s
    /\ Forall2 (fun k x => product self !! k = Some x) idx p
    /\ Forall2 (fun k x => enzyme self !! k = Some x) idx e
    /\ Forall2 (fun k x => initial_substrate self !! k = Some x) idx s0
    /\ Forall2 (fun k x => inhibitor self !! k = Some x) idx i
    /\ sub = {| subset_substrate := map (slice start stop) s;
                subset_product := map (slice start stop) p;
                subset_enzyme := e;
                subset_initial_substrate := s0;
                subset_time := slice start stop (time self);
                subset_inhibitor := i |}.
Proof.
  intros H. unfold _subset_data in H.
  inv_bind H as idx Hidx. inv_bind H as s Hs. inv_bind H as p Hp.
  inv_bind H as e He. inv_bind H as s0 Hs0. inv_bind H as i Hi.
  injection H as <-. apply fancy_Forall2 in Hs, Hp, He, Hs0, Hi.
  by exists idx, s, p, e, s0, i.
Qed.

Lemma length_slice {A : Type} (start stop : option Z) (l : list A) :
  length (slice start stop l)
  = (snd (slice_indices start stop (length l))
     - fst (slice_indices start stop (length l)))%nat.
Proof.
  unfold slice. destruct (slice_indices start stop (length l)) as [lo hi] eqn:E.
  apply slice_indices_le in E as [Hlo Hhi]. cbn [fst snd].
  rewrite length_take, length_drop. lia.
Qed.

Lemma lookup_slice {A : Type} (start stop : option Z) (l : list A) (t : nat) (x : A) :
  slice start stop l !! t = Some x ->
  l !! (fst (slice_indices start stop (length l)) + t)%nat = Some x.
Proof.
  unfold slice. destruct (slice_indices start stop (length l)) as [lo hi]. cbn [fst].
  intros H. apply lookup_take_Some in H as [H _]. by rewrite lookup_drop in H.
Qed.

Lemma slice_nat {A : Type} (a b : nat) (l : list A) :
  slice (Some (Z.of_nat a)) (Some (Z.of_nat b)) l = take (b - a) (drop a l).
Proof.
  unfold slice, slice_indices. rewrite !clamp_index_nat.
  destruct (decide (length l <= a)%nat) as [Hge | Hlt].
  - rewrite !drop_ge by lia. by rewrite !take_nil.
  - rewrite (Nat.min_l a) by lia.
    destruct (decide (b <= length l)%nat) as [Hb | Hb].
    + by rewrite (Nat.min_l b) by lia.
    + rewrite (Nat.min_r b) by lia. rewrite !take_ge; [done | |];
        rewrite length_drop; lia.
Qed.

Lemma slice_stop_negative {A : Type} (k : nat) (l : list A) :
  (0 < k)%nat ->
  slice None (Some (- Z.of_nat k)%Z) l = take (length l - k) l.
Proof.
  intros Hk. unfold slice, slice_indices, clamp_index.
  destruct (Z.ltb_spec (- Z.of_nat k) 0); [|lia].
  rewrite drop_0, Nat.sub_0_r. f_equal. lia.
Qed.

Lemma slice_start_negative {A : Type} (k : nat) (l : list A) :
  (0 < k)%nat ->
  slice (Some (- Z.of_nat k)%Z) None l = drop (length l - k) l.
Proof.
  intros Hk. unfold slice, slice_indices, clamp_index.
  destruct (Z.ltb_spec (- Z.of_nat k) 0); [|lia].
  replace (Z.to_nat (Z.max (- Z.of_nat k + Z.of_nat (length l)) 0))
    with (length l - k)%nat by lia.
  apply take_ge. rewrite length_drop. lia.
Qed.

(** X12: the time window keeps the rows aligned to the time grid: when
    the substrate and product rows of the estimator have the length of
    its time grid, those of the subset have the length of the subset's
    time grid, whatever the start and stop indices, and the window is
    never longer than the grid. *)
Theorem subset_window_aligned (self : Arrays) (initial_substrates : option (list Q))
    (start_time_index stop_time_index : option Z) (sub : Subset) :
  Forall (fun row => length row = length (time self)) (substrate self) ->
  Forall (fun row => length row = length (time self)) (product self) ->
  _subset_data self initial_substrates start_time_index stop_time_index = Ok sub ->
  Forall (fun row => length row = length (subset_time sub)) (subset_substrate sub)
  /\ Forall (fun row => length row = length (subset_time sub)) (subset_product sub)
  /\ (length (subset_time sub) <= length (time self))%nat.
Proof.
  intros Hs Hp H.
  destruct (subset_data_inv _ _ _ _ _ H) as (idx & s & p & e & s0 & i & _ & Fs & Fp & _ & _ & _ & ->).
  cbn [subset_substrate subset_product subset_time].
  assert (forall (a out : matrix),
            Forall (fun row => length row = length (time self)) a ->
            Forall2 (fun k x => a !! k = Some x) idx out ->
            Forall (fun row => length row
                               = length (slice start_time_index stop_time_index (time self)))
                   (map (slice start_time_index stop_time_index) out)) as Hrows.
  { intros a out Ha HF. apply Forall_forall. intros row Hrow.
    apply list_elem_of_lookup in Hrow as [j Hrow]. rewrite lookup_map in Hrow.
    destruct (out !! j) as [full|] eqn:Hj; simpl in Hrow; [|done].
    injection Hrow as <-.
    destruct (Forall2_lookup_r _ _ _ _ _ HF Hj) as (k & _ & Hk).
    rewrite Forall_forall in Ha. apply list_elem_of_lookup_2, Ha in Hk.
    by rewrite !length_slice, Hk. }
  split; [by apply (Hrows (substrate self)) |].
  split; [by apply (Hrows (product self)) |].
  rewrite length_slice.
  destruct (slice_indices _ _ _) as [lo hi] eqn:E.
  apply slice_indices_le in E. simpl. lia.
Qed.

(** X13: the window bounds are those of a Python slice, and no bound is
    an error.  With indices that are not negative the window is the
    columns from the start index up to, not including, the stop index,
    both cut to the length of the grid (so a start at or behind the stop,
    or behind the last column, leaves an empty window); a stop index
    [-k] drops the last [k] columns; a start index [-k] keeps the last
    [k] columns. *)
Theorem subset_window (self : Arrays) :
  consistent self ->
  (forall a b : nat,
      _subset_data self None (Some (Z.of_nat a)) (Some (Z.of_nat b))
      = Ok (windowed self (fun A l => take (b - a) (drop a l))))
  /\ (forall k : nat, (0 < k)%nat ->
        _subset_data self None None (Some (- Z.of_nat k)%Z)
        = Ok (windowed self (fun A l => take (length l - k) l)))
  /\ (forall k : nat, (0 < k)%nat ->
        _subset_data self None (Some (- Z.of_nat k)%Z) None
        = Ok (windowed self (fun A l => drop (length l - k) l))).
Proof.
  intros Hc. split; [|split]; intros; rewrite (subset_data_no_filter self _ _ Hc);
    unfold windowed; do 2 f_equal;
    try (apply map_ext; intros row);
    first [apply slice_nat
          | by apply slice_stop_negative
          | by apply slice_start_negative].
Qed.

Lemma entry_map_slice start stop (out : matrix) j t x :
  entry (map (slice start stop) out) j t = Some x ->
  exists full, out !! j = Some full
    /\ full !! (fst (slice_indices start stop (length full)) + t)%nat = Some x.
Proof.
  unfold entry. rewrite lookup_map. destruct (out !! j) as [full|]; simpl; [|done].
  intros H. exists full. split; [done|]. exact (lookup_slice start stop full t x H).
Qed.

(** X14: subsetting keeps the mass balance and adds no negative value:
    when product plus substrate is the initial substrate concentration
    wherever the arrays of the estimator have an entry, and the substrate
    and product rows have the same lengths, the same holds in the subset;
    and a subset of arrays without a negative entry has none. *)
Theorem subset_keeps_invariants (self : Arrays) (initial_substrates : option (list Q))
    (start_time_index stop_time_index : option Z) (sub : Subset) :
  _subset_data self initial_substrates start_time_index stop_time_index = Ok sub ->
  (balanced (substrate self) (product self) (initial_substrate self) ->
   Forall2 (fun s p => length s = length p) (substrate self) (product self) ->
   balanced (subset_substrate sub) (subset_product sub) (subset_initial_substrate sub))
  /\ (~ has_negative (substrate self) -> ~ has_negative (subset_substrate sub))
  /\ (~ has_negative (product self) -> ~ has_negative (subset_product sub)).
Proof.
  intros H.
  destruct (subset_data_inv _ _ _ _ _ H)
    as (idx & s & p & e & s0 & i & _ & Fs & Fp & _ & Fs0 & _ & ->).
  cbn [subset_substrate subset_product subset_initial_substrate].
  assert (forall (a out : matrix),
            Forall2 (fun k x => a !! k = Some x) idx out ->
            ~ has_negative a -> ~ has_negative (map (slice start_time_index stop_time_index) out))
    as Hneg.
  { intros a out HF Hno (j & t & x & Hx & Hlt). apply Hno.
    unfold item2 in Hx. rewrite lookup_map in Hx.
    destruct (out !! j) as [full|] eqn:Hj; simpl in Hx; [|done].
    destruct (slice _ _ full !! t) as [x'|] eqn:Ht; simpl in Hx; [|done].
    injection Hx as ->. apply (lookup_slice start_time_index stop_time_index) in Ht.
    destruct (Forall2_lookup_r _ _ _ _ _ HF Hj) as (k & _ & Hk).
    exists k, (fst (slice_indices start_time_index stop_time_index (length full)) + t)%nat, x.
    split; [|done]. unfold item2. rewrite Hk. simpl_bind. by rewrite Ht. }
  split; [|split; [by apply (Hneg (substrate self)) | by apply (Hneg (product self))]].
  intros Hbal Hlen j t x y Hx Hy.
  apply entry_map_slice in Hx as (fs & Hfs & Hx).
  apply entry_map_slice in Hy as (fp & Hfp & Hy).
  destruct (Forall2_lookup_r _ _ _ _ _ Fs Hfs) as (k & Hk & Hsk).
  destruct (Forall2_lookup_l _ _ _ _ _ Fp Hk) as (fp' & Hfp' & Hpk).
  assert (fp' = fp) as -> by congruence.
  destruct (Forall2_lookup_l _ _ _ _ _ Fs0 Hk) as (c & Hc & Hs0k).
  assert (length fs = length fp) as Hl.
  { destruct (Forall2_lookup_l _ _ _ _ _ Hlen Hsk) as (fp'' & Hfp'' & Hl).
    congruence. }
  rewrite <- Hl in Hy.
  destruct (Hbal k (fst (slice_indices start_time_index stop_time_index (length fs)) + t)%nat
                 x y) as (c' & Hc' & Hsum).
  - unfold entry. rewrite Hsk. exact Hx.
  - unfold entry. rewrite Hpk. exact Hy.
  - exists c. split; [done|]. congruence.
Qed.

(** ** The arguments of [fit_models] *)

Lemma slice_zero_start {A : Type} (l : list A) : slice (Some 0%Z) None l = l.
Proof. apply (slice_start 0 l). Qed.

Lemma subset_data_zero_start self :
  consistent self -> _subset_data self None (Some 0%Z) None = Ok (unsubset self).
Proof.
  intros Hc. rewrite subset_data_no_filter by done. unfold unsubset.
  rewrite slice_zero_start. do 2 f_equal.
  - rewrite <- (map_id (substrate self)) at 2. apply map_ext, @slice_zero_start.
  - rewrite <- (map_id (product self)) at 2. apply map_ext, @slice_zero_start.
Qed.

Lemma subset_data_no_window self :
  consistent self -> _subset_data self None None None = Ok (unsubset self).
Proof.
  intros Hc. rewrite subset_data_no_filter by done. unfold unsubset.
  by rewrite slice_None, !map_slice_None.
Qed.

(** X15: a stop index of zero alone does not subset.  Whenever the stop
    index is not zero, the arrays a fit works on are those that
    [_subset_data] returns for the three arguments, also when the test on
    the arguments skips the call; but with a stop index of zero, no
    filter and no start index, the fit works on all the data, although
    [_subset_data] returns an empty time window for these arguments. *)
Theorem stop_zero_ignored (self : ParameterEstimator) (enzyme_inactivation : bool) :
  consistent self ->
  (forall initial_substrate_concs start_time_index stop_time_index,
      stop_time_index <> Some 0%Z ->
      fit_models_subset self initial_substrate_concs start_time_index stop_time_index
      = _subset_data self initial_substrate_concs start_time_index stop_time_index)
  /\ fit_models self None None (Some 0%Z) enzyme_inactivation
     = fit_models self None None None enzyme_inactivation
  /\ _subset_data self None None (Some 0%Z) = Ok (windowed self (fun A l => [])).
Proof.
  intros Hc. split; [|split].
  - intros f start stop Hstop. unfold fit_models_subset.
    destruct (np_any _) eqn:Hany; [done|].
    assert (_subset_data self f start stop = _subset_data self None start stop) as ->.
    { destruct f as [[|c cs]|]; [done | discriminate Hany | done]. }
    fold (unsubset self).
    destruct stop as [[|z|z]|]; [done | | |].
    + destruct f as [[|c cs]|], start as [[|y|y]|]; discriminate Hany.
    + destruct f as [[|c cs]|], start as [[|y|y]|]; discriminate Hany.
    + destruct start as [[|y|y]|].
      * by rewrite subset_data_zero_start.
      * destruct f as [[|c cs]|]; discriminate Hany.
      * destruct f as [[|c cs]|]; discriminate Hany.
      * by rewrite subset_data_no_window.
  - reflexivity.
  - rewrite subset_data_no_filter by done. unfold windowed.
    assert (forall (A : Type) (l : list A), slice None (Some 0%Z) l = []) as Hempty.
    { intros A l. unfold slice, slice_indices, clamp_index. simpl.
      replace (Z.to_nat _) with 0%nat by lia. done. }
    rewrite Hempty. do 2 f_equal; apply map_ext; intros; apply Hempty.
Qed.



(** ** The labels of the result overview *)

Lemma parameter_mapper_items time_unit data_conc_unit inhibitor_unit :
  parameter_mapper time_unit data_conc_unit inhibitor_unit
  = [("k_cat", "kcat [1/" ++ time_unit ++ "]");
     ("Km", "Km [" ++ data_conc_unit ++ "]");
     ("K_ic", "Ki competitive [" ++ inhibitor_unit ++ "]");
     ("K_iu", "Ki uncompetitive [" ++ inhibitor_unit ++ "]");
     ("K_ie", "ki time-dep enzyme-inactiv. [1/" ++ time_unit ++ "]")]%string.
Proof. reflexivity. Qed.

Lemma dict_get_None {V : Type} (k : string) (d : dict V) :
  dict_get k d = None <-> k ∉ keys d.
Proof.
  induction d as [|[k' v] d IH]; simpl.
  - split; [intros _ H; by apply elem_of_nil in H | done].
  - rewrite not_elem_of_cons. destruct (String.eqb_spec k k') as [-> | Hne].
    + split; [done | intros [H _]; done].
    + rewrite IH. tauto.
Qed.

(** X17: the labels of the result overview.  Whatever the unit strings,
    the five parameter names have five different labels, so that no
    parameter of a model overwrites another one in its row; a name other
    than the five has no label (a [KeyError]); no label starts with
    "Ki time-dep", so the test on the label never holds; and every free
    parameter that a model of [_initialize_models] declares has a
    label. *)
Theorem parameter_labels (time_unit data_conc_unit inhibitor_unit : string) :
  let mapper := parameter_mapper time_unit data_conc_unit inhibitor_unit in
  keys mapper = parameter_names
  /\ NoDup (dict_values mapper)
  /\ (forall name, dict_get name mapper = None <-> name ∉ parameter_names)
  /\ (forall name label, dict_get name mapper = Some label ->
        startswith label "Ki time-dep" = false)
  /\ (forall (self : ParameterEstimator) enzyme_inactivation s p e i kineticmodel name,
        kineticmodel ∈ dict_values (_initialize_models self enzyme_inactivation s p e i) ->
        name ∈ KineticModel.params kineticmodel ->
        exists label, dict_get name mapper = Some label).
Proof.
  intros mapper. subst mapper. rewrite parameter_mapper_items.
  split; [reflexivity|]. split.
  { simpl. repeat (apply NoDup_cons; split;
      [rewrite ?not_elem_of_cons; repeat split; try discriminate;
       by intros H; apply elem_of_nil in H |]).
    apply NoDup_nil. done. }
  split.
  { intros name. rewrite <- parameter_mapper_items. apply dict_get_None. }
  split.
  { intros name label. simpl.
    repeat (destruct (String.eqb name _); [intros [= <-]; reflexivity |]). done. }
  intros self ei s p e i km name Hkm Hname.
  assert (name = "K_ic" \/ name = "K_iu") as [-> | ->]; [|by eexists..].
  revert Hkm Hname. unfold _initialize_models.
  destruct (inhibitor_free self); cbv -[elem_of]; intros Hkm;
    repeat (apply elem_of_cons in Hkm as [-> | Hkm]);
    try (by apply elem_of_nil in Hkm); cbn [KineticModel.params];
    intros Hname;
    repeat (apply elem_of_cons in Hname as [-> | Hname]); auto;
    by apply elem_of_nil in Hname.
Qed.

(** ** The legend *)





(** ** The markers *)

Lemma Qeq_bool_equal (x y key : Q) : (x == y)%Q -> Qeq_bool x key = Qeq_bool y key.
Proof.
  intros Hxy. destruct (Qeq_bool y key) eqn:Ey.
  - apply Qeq_bool_iff. apply Qeq_bool_iff in Ey. by rewrite Hxy.
  - destruct (Qeq_bool x key) eqn:Ex; [|done].
    apply Qeq_bool_iff in Ex. rewrite Hxy in Ex. apply Qeq_bool_iff in Ex. congruence.
Qed.

Lemma getitem_equal {V : Type} (mapping : list (Q * V)) (x y : Q) (v : V) :
  (x == y)%Q -> getitem mapping x = Value v -> getitem mapping y = Value v.
Proof.
  intros Hxy. induction mapping as [|[key w] rest IH]; simpl; [done|].
  rewrite (Qeq_bool_equal x y key Hxy). destruct (Qeq_bool y key); auto.
Qed.

Lemma getitem_Value {V : Type} (mapping : list (Q * V)) (x : Q) (v : V) :
  getitem mapping x = Value v -> exists key, (key, v) ∈ mapping /\ (x == key)%Q.
Proof.
  induction mapping as [|[key w] rest IH]; simpl; [done|].
  destruct (Qeq_bool x key) eqn:Ex.
  - intros [= ->]. exists key. split; [left | by apply Qeq_bool_iff].
  - intros H. destruct (IH H) as (key' & Hin & Heq). exists key'. split; [by right | done].
Qed.

Lemma getitem_KeyError {V : Type} (mapping : list (Q * V)) (x key : Q) :
  getitem mapping x = KeyError key <-> key = x /\ ~ present mapping.*1 x.
Proof.
  induction mapping as [|[key' w] rest IH]; simpl.
  - split.
    + intros [= <-]. split; [done|]. intros (y & Hy & _). by apply elem_of_nil in Hy.
    + by intros [-> _].
  - rewrite present_cons. destruct (Qeq_bool x key') eqn:Ex.
    + split; [done|]. intros [_ Hno]. exfalso. apply Hno. left.
      apply Qeq_bool_iff in Ex. by symmetry.
    + rewrite IH. split; intros [-> Hno]; (split; [done|]); [|tauto].
      intros [Heq | Hp]; [|done].
      assert (Qeq_bool x key' = true); [|congruence].
      apply Qeq_bool_iff. by symmetry.
Qed.

Lemma getitems_Value {V : Type} (mapping : list (Q * V)) (items : vector) (vs : list V) :
  getitems mapping items = Value vs
  <-> Forall2 (fun x v => getitem mapping x = Value v) items vs.
Proof.
  revert vs. induction items as [|x items IH]; intros vs; simpl.
  - split; [intros [= <-]; constructor | by inversion 1].
  - destruct (getitem mapping x) as [v|key] eqn:Ex.
    + destruct (getitems mapping items) as [vs'|key] eqn:Erest.
      * split.
        -- intros [= <-]. constructor; [done | by apply IH].
        -- inversion 1 as [|? v' ? vs'' Hv Hvs]; subst.
           apply IH in Hvs. congruence.
      * split; [done|]. inversion 1 as [|? v' ? vs'' Hv Hvs]; subst.
        apply IH in Hvs. done.
    + split; [done|]. inversion 1; congruence.
Qed.

Lemma getitems_KeyError {V : Type} (mapping : list (Q * V)) (items : vector) (key : Q) :
  getitems mapping items = KeyError key ->
  key ∈ items /\ ~ present mapping.*1 key.
Proof.
  induction items as [|x items IH]; simpl; [done|].
  destruct (getitem mapping x) as [v|key'] eqn:Ex.
  - destruct (getitems mapping items) as [vs'|key'] eqn:Erest; [done|].
    intros [= ->]. destruct (IH eq_refl). split; [by right | done].
  - intros [= ->]. apply getitem_KeyError in Ex as [-> Hno]. split; [left | done].
Qed.

Lemma getitem_sorted_injective {V : Type} (keys : vector) (values : list V) x y v :
  StronglySorted Qlt keys -> NoDup values ->
  getitem (zip keys values) x = Value v ->
  getitem (zip keys values) y = Value v ->
  (x == y)%Q.
Proof.
  intros Hsorted. revert values.
  induction Hsorted as [|key keys Hs IH Hlt]; intros values Hnd; [done|].
  destruct values as [|w values]; [done|]. simpl.
  apply NoDup_cons in Hnd as [Hw Hnd].
  assert (forall z, getitem (zip keys values) z = Value w -> False) as Hfresh.
  { intros z Hz. apply getitem_Value in Hz as (key' & Hin & _).
    apply Hw. apply elem_of_zip_r in Hin. done. }
  destruct (Qeq_bool x key) eqn:Ex, (Qeq_bool y key) eqn:Ey.
  - intros _ _. apply Qeq_bool_iff in Ex, Ey. by rewrite Ex, Ey.
  - intros [= <-] Hy. by apply Hfresh in Hy.
  - intros Hx [= <-]. by apply Hfresh in Hx.
  - by apply IH.
Qed.

Lemma zip_fst_take {A B : Type} (l : list A) (p : list B) :
  (zip l (take (length l) p)).*1 = take (length p) l.
Proof.
  revert p. induction l as [|a l IH]; intros [|b p]; simpl; try done.
  f_equal. apply IH.
Qed.

Lemma first_column_Ok (a : matrix) :
  Forall (fun row => row <> []) a ->
  exists column0, first_column a = Ok column0
    /\ Forall2 (fun row x => row !! 0%nat = Some x) a column0.
Proof.
  unfold first_column. induction 1 as [|row a Hrow Ha IH]; simpl.
  - exists []. split; [done | constructor].
  - destruct row as [|x row]; [done|]. destruct IH as (col & -> & HF).
    exists (x :: col). split; [done|]. by constructor.
Qed.

Lemma present_self (xs : vector) (x : Q) : x ∈ xs -> present xs x.
Proof. intros Hx. exists x. split; [done | reflexivity]. Qed.

Lemma marker_keys (array : vector) :
  (mapping_of array markers).*1 = take 5 (unique array).
Proof. unfold mapping_of. apply (zip_fst_take (unique array) markers). Qed.

(** X19: the inhibitor concentrations that get a marker.  For an
    inhibitor array whose rows are not empty, the markers of the rows
    are found exactly when the first entry of every row is among the
    five smallest distinct values of the whole array; otherwise the
    lookup ends with the [KeyError] of the first entry that is not.  So
    with at most five distinct values in the array the markers are
    always found. *)
Theorem marker_lookup (self : Arrays) :
  Forall (fun row => row <> []) (inhibitor self) ->
  let five := take 5 (unique (concat (inhibitor self))) in
  ((exists marks, marker_vector self = Ok (Value marks))
   <-> Forall (fun row => forall x, row !! 0%nat = Some x -> present five x)
              (inhibitor self))
  /\ (forall r, marker_vector self = Ok r ->
        match r with
        | Value marks => length marks = length (inhibitor self)
        | KeyError key =>
            ~ present five key
            /\ exists row, row ∈ inhibitor self /\ row !! 0%nat = Some key
        end)
  /\ ((length (unique (concat (inhibitor self))) <= 5)%nat ->
      exists marks, marker_vector self = Ok (Value marks)).
Proof.
  intros Hrows five. unfold marker_vector.
  destruct (first_column_Ok _ Hrows) as (col & -> & Hcol). simpl_bind.
  assert ((exists marks, Ok (getitems (mapping_of (concat (inhibitor self)) markers) col)
                         = Ok (Value marks))
          <-> Forall (fun row => forall x, row !! 0%nat = Some x -> present five x)
                     (inhibitor self)) as Hiff.
  { split.
    - intros (marks & [= Hm]). apply getitems_Value in Hm.
      apply Forall_forall. intros row Hrow x Hx.
      apply list_elem_of_lookup in Hrow as [i Hi].
      destruct (Forall2_lookup_l _ _ _ _ _ Hcol Hi) as (x' & Hx' & Hrx).
      assert (x' = x) as -> by congruence.
      destruct (Forall2_lookup_l _ _ _ _ _ Hm Hx') as (v & _ & Hv).
      apply getitem_Value in Hv as (key & Hin & Heq).
      exists key. split; [|by symmetry].
      apply (list_elem_of_fmap_2 fst) in Hin. by rewrite marker_keys in Hin.
    - intros Hall.
      destruct (getitems (mapping_of (concat (inhibitor self)) markers) col)
        as [marks|key] eqn:E; [eauto|].
      exfalso. apply getitems_KeyError in E as [Hkey Hno].
      rewrite marker_keys in Hno. apply Hno.
      apply list_elem_of_lookup in Hkey as [i Hi].
      destruct (Forall2_lookup_r _ _ _ _ _ Hcol Hi) as (row & Hrow & Hx).
      rewrite Forall_forall in Hall.
      apply (Hall row); [by apply list_elem_of_lookup_2 in Hrow | done]. }
  split; [exact Hiff|]. split.
  - intros r [= <-].
    destruct (getitems (mapping_of (concat (inhibitor self)) markers) col)
      as [marks|key] eqn:E.
    + apply getitems_Value, Forall2_length in E.
      apply Forall2_length in Hcol. congruence.
    + apply getitems_KeyError in E as [Hkey Hno].
      rewrite marker_keys in Hno. split; [done|].
      apply list_elem_of_lookup in Hkey as [i Hi].
      destruct (Forall2_lookup_r _ _ _ _ _ Hcol Hi) as (row & Hrow & Hx).
      exists row. split; [by apply list_elem_of_lookup_2 in Hrow | done].
  - intros Hfive. apply Hiff. apply Forall_forall. intros row Hrow x Hx.
    unfold five. rewrite take_ge by done. apply present_unique, present_self.
    apply list_elem_of_lookup in Hrow as [i Hi].
    apply elem_of_concat_entry. exists i, 0%nat. unfold entry. by rewrite Hi.
Qed.

(** X20: when the markers are found, there is one for every row of the
    dataset, and two rows have the same marker exactly when the first
    entries of their inhibitor rows are equal. *)
Theorem markers_distinguish (self : Arrays) (marks : list string) :
  marker_vector self = Ok (Value marks) ->
  length marks = length (inhibitor self)
  /\ forall i j row_i row_j x_i x_j mark_i mark_j,
       inhibitor self !! i = Some row_i -> row_i !! 0%nat = Some x_i ->
       inhibitor self !! j = Some row_j -> row_j !! 0%nat = Some x_j ->
       marks !! i = Some mark_i -> marks !! j = Some mark_j ->
       (mark_i = mark_j <-> (x_i == x_j)%Q).
Proof.
  unfold marker_vector. intros H. inv_bind H as col Hcol. injection H as H.
  apply getitems_Value in H.
  split.
  { apply Forall2_length in H. apply mapM_Ok_length in Hcol. congruence. }
  intros i j ri rj xi xj mi mj Hri Hxi Hrj Hxj Hmi Hmj.
  assert (forall k row x mark, inhibitor self !! k = Some row -> row !! 0%nat = Some x ->
            marks !! k = Some mark ->
            getitem (mapping_of (concat (inhibitor self)) markers) x = Value mark) as Hget.
  { intros k row x mark Hrow Hx Hmark.
    destruct (mapM_Ok_lookup _ _ _ Hcol k row Hrow) as (x' & Hx' & Hrx).
    rewrite Hx in Hrx. injection Hrx as <-.
    destruct (Forall2_lookup_l _ _ _ _ _ H Hx') as (v & Hv & Hgv). congruence. }
  pose proof (Hget i _ _ _ Hri Hxi Hmi) as Hgi.
  pose proof (Hget j _ _ _ Hrj Hxj Hmj) as Hgj.
  split.
  - intros <-. unfold mapping_of in Hgi, Hgj.
    eapply getitem_sorted_injective; [apply sorted_unique | | exact Hgi | exact Hgj].
    apply (sublist_NoDup _ markers); [|apply sublist_take].
    unfold markers. repeat (apply NoDup_cons; split;
      [rewrite ?not_elem_of_cons; repeat split; try discriminate;
       by intros Hn; apply elem_of_nil in Hn |]).
    by apply NoDup_nil.
  - intros Heq. apply (getitem_equal _ _ _ _ Heq) in Hgi. congruence.
Qed.

(** ** Means per concentration *)

Lemma fancy_rows_with {A : Type} (pre data : list A) (init_substrate : vector) (c : Q) :
  (length init_substrate <= length data)%nat ->
  fancy (pre ++ data) (where_from (length pre) init_substrate c)
  = Ok (rows_with c init_substrate data).
Proof.
  revert pre data. induction init_substrate as [|x xs IH]; intros pre data Hlen;
    [done|].
  destruct data as [|d data]; [simpl in Hlen; lia|].
  specialize (IH (pre ++ [d]) data). rewrite <- app_assoc, length_app in IH.
  simpl in IH. rewrite Nat.add_1_r in IH.
  unfold rows_with. simpl. unfold rows_with in IH.
  destruct (Qeq_bool x c).
  - unfold fancy in *. simpl. rewrite list_lookup_middle by done. simpl_bind.
    rewrite IH by (simpl in Hlen; lia). done.
  - apply IH. simpl in Hlen. lia.
Qed.

Lemma getitem_rows_with (columns : nat) (data : matrix) (init_substrate : vector) c :
  (length init_substrate <= length data)%nat ->
  nd_getitem_rows (Nd2 columns data) (where_eq init_substrate c)
  = Ok (Nd2 columns (rows_with c init_substrate data)).
Proof.
  intros Hlen. unfold nd_getitem_rows, where_eq.
  pose proof (fancy_rows_with [] data init_substrate c Hlen) as H.
  cbn [app length] in H. by rewrite H.
Qed.

Lemma getitem_entries_with (data : vector) (init_substrate : vector) c :
  (length init_substrate <= length data)%nat ->
  nd_getitem_rows (Nd1 data) (where_eq init_substrate c)
  = Ok (Nd1 (rows_with c init_substrate data)).
Proof.
  intros Hlen. unfold nd_getitem_rows, where_eq.
  pose proof (fancy_rows_with [] data init_substrate c Hlen) as H.
  cbn [app length] in H. by rewrite H.
Qed.

Lemma mean_std_loop_rows s0 columns data cs mean_data std_data :
  (length s0 <= length data)%nat ->
  mean_std_loop s0 (Nd2 columns data) cs mean_data std_data
  = Ok (mean_data ++ flat_map (group_reduce mean columns s0 data) cs,
        std_data ++ flat_map (group_reduce std columns s0 data) cs).
Proof.
  intros Hlen. revert mean_data std_data.
  induction cs as [|c cs IH]; intros md sd; cbn [mean_std_loop flat_map].
  - by rewrite !app_nil_r.
  - rewrite getitem_rows_with by done. simpl_bind. cbn [np_mean np_std reduce_axis0].
    simpl_bind. cbn [np_append nd_flatten]. rewrite IH, <- !app_assoc. done.
Qed.

Lemma rows_of_flat_flat_map {A B : Type} (f : B -> list A) (k : nat) (cs : list B) :
  (forall c, length (f c) = k) ->
  rows_of_flat (length cs) k (flat_map f cs) = map f cs
  /\ length (flat_map f cs) = (length cs * k)%nat.
Proof.
  intros Hk. induction cs as [|c cs [IH1 IH2]]; simpl; [done|].
  rewrite take_app_length', drop_app_length' by done.
  rewrite IH1, length_app, IH2, Hk. done.
Qed.

Lemma length_group_reduce {B : Type} (f : vector -> B) columns s0 data c :
  length (group_reduce f columns s0 data c) = columns.
Proof. unfold group_reduce. by rewrite length_map, length_seq. Qed.

Lemma insert_unique_nonempty x l : insert_unique x l <> [].
Proof.
  destruct l as [|y l]; simpl; [done|].
  destruct (Qeq_bool x y); [done|]. by destruct (Qle_bool x y).
Qed.

Lemma unique_nonempty xs : xs <> [] -> unique xs <> [].
Proof. destruct xs as [|x xs]; [done|]. intros _. apply insert_unique_nonempty. Qed.

Lemma calculate_mean_std_rows s0 columns data :
  s0 <> [] ->
  (length s0 <= length data)%nat ->
  _calculate_mean_std s0 (Nd2 columns data)
  = Ok (Nd2 columns (map (group_reduce mean columns s0 data) (unique s0)),
        Nd2 columns (map (group_reduce std columns s0 data) (unique s0))).
Proof.
  intros Hne Hlen. unfold _calculate_mean_std.
  rewrite mean_std_loop_rows by done. simpl_bind. rewrite !app_nil_l.
  destruct (rows_of_flat_flat_map (group_reduce mean columns s0 data) columns (unique s0))
    as [Hm Hlm]; [intros; apply length_group_reduce|].
  destruct (rows_of_flat_flat_map (group_reduce std columns s0 data) columns (unique s0))
    as [Hs Hls]; [intros; apply length_group_reduce|].
  apply unique_nonempty in Hne.
  assert (length (unique s0) <> 0)%nat as Hn by (by destruct (unique s0)).
  unfold int_div. rewrite Hlm, Hls.
  destruct (Nat.eqb_spec (length (unique s0)) 0) as [|_]; [done|]. simpl_bind.
  rewrite (Nat.mul_comm (length (unique s0)) columns), Nat.div_mul by done.
  unfold nd_reshape. rewrite Hlm, Hls, Nat.eqb_refl. simpl_bind.
  by rewrite Hm, Hs.
Qed.






Lemma mean_w0_loop_stacked s0 columns data cs rows :
  (length s0 <= length data)%nat -> (0 < columns)%nat -> rows <> [] ->
  mean_w0_loop (Nd2 columns data) s0 cs (Nd2 columns rows)
  = Ok (Nd2 columns (rows ++ map (group_reduce mean columns s0 data) cs)).
Proof.
  intros Hlen Hcols. revert rows. induction cs as [|c cs IH]; intros rows Hrows;
    cbn [mean_w0_loop map].
  - by rewrite app_nil_r.
  - rewrite getitem_rows_with by done. simpl_bind. cbn [np_mean reduce_axis0].
    simpl_bind. cbn [nd_size].
    destruct (Nat.eqb_spec (length rows * columns) 0) as [Hz | _].
    { destruct rows; [done|]. simpl in Hz. lia. }
    unfold np_vstack. cbn [nd_columns atleast_2d].
    fold (group_reduce mean columns s0 data c).
    rewrite length_group_reduce, Nat.eqb_refl. simpl_bind.
    rewrite IH by (by destruct rows). by rewrite <- app_assoc.
Qed.

Lemma mean_w0_rows s0 columns data :
  (length s0 <= length data)%nat -> (0 < columns)%nat ->
  _mean_w0 (Nd2 columns data) s0
  = Ok (match unique s0 with
        | [] => Nd1 []
        | [c] => Nd1 (group_reduce mean columns s0 data c)
        | cs => Nd2 columns (map (group_reduce mean columns s0 data) cs)
        end).
Proof.
  intros Hlen Hcols. unfold _mean_w0.
  destruct (unique s0) as [|c [|c' cs]]; [done | |].
  - cbn [mean_w0_loop]. rewrite getitem_rows_with by done. done.
  - cbn [mean_w0_loop]. rewrite !getitem_rows_with by done. simpl_bind.
    cbn [np_mean reduce_axis0]. simpl_bind. cbn [nd_size length Nat.eqb].
    simpl_bind. cbn [np_append nd_flatten app nd_size].
    fold (group_reduce mean columns s0 data c).
    fold (group_reduce mean columns s0 data c').
    rewrite length_group_reduce.
    destruct (Nat.eqb_spec columns 0) as [|_]; [lia|].
    unfold np_vstack, np_append. cbn [nd_flatten app nd_columns atleast_2d].
    rewrite !length_group_reduce, Nat.eqb_refl. simpl_bind.
    rewrite mean_w0_loop_stacked by done. done.
Qed.

(** X22: the initial states and the plotted means agree.  With at least
    two distinct initial substrate concentrations and an array of at
    least one column, [_mean_w0] returns the array of means that
    [_calculate_mean_std] returns for the same data: row [i] of either
    is the mean of the rows with the [i]-th smallest concentration. *)
Theorem mean_w0_agrees (s0 : vector) (columns : nat) (data : matrix) :
  (length s0 <= length data)%nat ->
  (0 < columns)%nat ->
  (2 <= length (unique s0))%nat ->
  exists means deviations,
    _calculate_mean_std s0 (Nd2 columns data) = Ok (means, deviations)
    /\ _mean_w0 (Nd2 columns data) s0 = Ok means
    /\ means = Nd2 columns (map (group_reduce mean columns s0 data) (unique s0)).
Proof.
  intros Hlen Hcols Htwo. eexists _, _.
  split; [apply calculate_mean_std_rows; [|done];
          destruct s0; [simpl in Htwo; lia | done] |].
  split; [|done]. rewrite mean_w0_rows by done.
  destruct (unique s0) as [|c [|c' cs]]; simpl in Htwo; [lia | lia | done].
Qed.

(** X23: with a single initial substrate concentration the means of
    [_mean_w0] are a one-dimensional array, the mean row itself, while
    those of [_calculate_mean_std] are an array of one row; every index
    [[i, j]] into the former, as [visualize] takes it for the initial
    state, is an index error. *)
Theorem single_concentration_means (s0 : vector) (columns : nat) (data : matrix) :
  (length s0 <= length data)%nat ->
  (0 < columns)%nat ->
  length (unique s0) = 1%nat ->
  exists row deviations,
    _calculate_mean_std s0 (Nd2 columns data) = Ok (Nd2 columns [row], deviations)
    /\ _mean_w0 (Nd2 columns data) s0 = Ok (Nd1 row)
    /\ forall i j, (a ← _mean_w0 (Nd2 columns data) s0; nd_item2 a i j)
                   = Raise IndexError.
Proof.
  intros Hlen Hcols Hone. rewrite mean_w0_rows by done.
  rewrite calculate_mean_std_rows;
    [| destruct s0; [simpl in Hone; lia | done] | done].
  destruct (unique s0) as [|c [|c' cs]]; simpl in Hone; [lia | | lia].
  eexists _, _. split; [reflexivity|]. split; [reflexivity|]. done.
Qed.

Lemma mean_w0_loop_column s0 (data : vector) cs rows :
  (length s0 <= length data)%nat -> rows <> [] ->
  mean_w0_loop (Nd1 data) s0 cs (Nd2 1 rows)
  = Ok (Nd2 1 (rows ++ map (fun c => [mean (rows_with c s0 data)]) cs)).
Proof.
  intros Hlen. revert rows. induction cs as [|c cs IH]; intros rows Hrows;
    cbn [mean_w0_loop map].
  - by rewrite app_nil_r.
  - rewrite getitem_entries_with by done. simpl_bind. cbn [np_mean reduce_axis0].
    simpl_bind. cbn [nd_size].
    destruct (Nat.eqb_spec (length rows * 1) 0) as [Hz | _].
    { destruct rows; [done|]. simpl in Hz. lia. }
    unfold np_vstack. cbn [nd_columns atleast_2d Nat.eqb]. simpl_bind.
    rewrite IH by (by destruct rows). by rewrite <- app_assoc.
Qed.

(** X24: the means of a one-dimensional array, such as the enzyme
    concentrations among the initial states: with at least two distinct
    initial substrate concentrations [_mean_w0] returns a
    two-dimensional array of one column, with the mean of the entries of
    every concentration in a row of its own; with a single concentration
    it returns a one-dimensional array of one entry. *)
Theorem mean_w0_of_vector (s0 data : vector) :
  (length s0 <= length data)%nat ->
  _mean_w0 (Nd1 data) s0
  = Ok (match unique s0 with
        | [] => Nd1 []
        | [c] => Nd1 [mean (rows_with c s0 data)]
        | cs => Nd2 1 (map (fun c => [mean (rows_with c s0 data)]) cs)
        end).
Proof.
  intros Hlen. unfold _mean_w0.
  destruct (unique s0) as [|c [|c' cs]]; [done | |].
  - cbn [mean_w0_loop]. rewrite getitem_entries_with by done. done.
  - cbn [mean_w0_loop]. rewrite !getitem_entries_with by done. simpl_bind.
    cbn [np_mean reduce_axis0]. simpl_bind. cbn [nd_size length Nat.eqb].
    simpl_bind. unfold np_vstack, np_append.
    cbn [nd_flatten app nd_size nd_columns atleast_2d length Nat.eqb]. simpl_bind.
    rewrite mean_w0_loop_column by done. done.
Qed.

(** ** The further properties on the example data *)

Lemma testdata_valid : valid_experiment testdata.
Proof. split; [right; reflexivity|]. split; [discriminate|]. repeat constructor. Qed.


Lemma construction_succeeds_witness :
  exists self, __init__ testdata = Ok self /\ data self = testdata
               /\ _initialize_measurement_data testdata = Ok (arrays self).
Proof.
  apply (construction_succeeds testdata).
  - exact testdata_valid.
  - simpl. lia.
  - vm_compute. reflexivity.
Defined.

Lemma constructed_invariant_witness :
  substrate (estimator_of testdata) <> []
  /\ consistent (estimator_of testdata)
  /\ (2 <= length (time (estimator_of testdata)))%nat
  /\ ~ has_negative (substrate (estimator_of testdata)).
Proof.
  destruct (constructed_invariant testdata (estimator_of testdata))
    as (Hrows & Hc & _ & Htime & Hs & _).
  - vm_compute. reflexivity.
  - auto.
Defined.

Lemma single_time_point_witness :
  __init__ (with_time (experiment_of [spot]) [0%Q]) = Raise (ValueError zero_size_message).
Proof.
  apply (single_time_point (with_time (experiment_of [spot]) [0%Q])).
  - split; [right; reflexivity|]. split; [discriminate|]. repeat constructor.
  - simpl. lia.
  - vm_compute. reflexivity.
Defined.


Lemma two_point_time_grid_witness :
  exists self,
    __init__ (with_time testdata [0; 2]%Q) = Ok self
    /\ _calculate_rates self (EnzymeKineticsExperiment.time (with_time testdata [0; 2]%Q))
       = Ok (map (fun row => map (fun x => fabs (np_div x (2 - 0))) (diff row))
                 (substrate self)).
Proof.
  apply (two_point_time_grid (with_time testdata [0; 2]%Q) 6 0%Q 2%Q).
  - discriminate.
  - repeat constructor.
  - lia.
  - right. reflexivity.
  - vm_compute. reflexivity.
  - reflexivity.
Defined.


Lemma subset_rows_in_filter_order_witness :
  subset_initial_substrate (subset_of (arrays_of testdata) (Some [300; 100]%Q) None None)
  = [300; 300; 300; 100; 100; 100]%Q.
Proof.
  destruct (subset_rows_in_filter_order (arrays_of testdata) [300; 100]%Q None None
              (subset_of (arrays_of testdata) (Some [300; 100]%Q) None None))
    as (Hrows & _).
  - discriminate.
  - vm_compute. reflexivity.
  - rewrite Hrows. reflexivity.
Defined.

Lemma subset_rows_coherent_witness :
  exists idx,
    row_index (arrays_of testdata) (Some [200%Q]) = Ok idx
    /\ length (subset_substrate
                 (subset_of (arrays_of testdata) (Some [200%Q]) (Some 1%Z) (Some (-1)%Z)))
       = length idx
    /\ subset_time (subset_of (arrays_of testdata) (Some [200%Q]) (Some 1%Z) (Some (-1)%Z))
       = slice (Some 1%Z) (Some (-1)%Z) (time (arrays_of testdata)).
Proof.
  destruct (subset_rows_coherent (arrays_of testdata) (Some [200%Q])
              (Some 1%Z) (Some (-1)%Z)
              (subset_of (arrays_of testdata) (Some [200%Q]) (Some 1%Z) (Some (-1)%Z)))
    as (idx & Hidx & Hs & _ & _ & _ & _ & Htime & _).
  - vm_compute. reflexivity.
  - exists idx. auto.
Defined.

Lemma subset_window_aligned_witness :
  Forall (fun row => length row
                     = length (subset_time (subset_of (arrays_of testdata) (Some [200%Q])
                                                      (Some 1%Z) (Some (-1)%Z))))
         (subset_substrate (subset_of (arrays_of testdata) (Some [200%Q])
                                      (Some 1%Z) (Some (-1)%Z))).
Proof.
  destruct (subset_window_aligned (arrays_of testdata) (Some [200%Q])
              (Some 1%Z) (Some (-1)%Z)
              (subset_of (arrays_of testdata) (Some [200%Q]) (Some 1%Z) (Some (-1)%Z)))
    as (Hs & _).
  - repeat constructor.
  - repeat constructor.
  - vm_compute. reflexivity.
  - exact Hs.
Defined.

Lemma subset_window_witness :
  _subset_data (arrays_of testdata) None None (Some (-2)%Z)
  = Ok (windowed (arrays_of testdata) (fun A l => take (length l - 2) l)).
Proof.
  destruct (subset_window (arrays_of testdata) testdata_consistent) as (_ & Hstop & _).
  apply (Hstop 2%nat). lia.
Defined.

Lemma subset_keeps_invariants_witness :
  ~ has_negative (subset_substrate
                    (subset_of (arrays_of testdata) (Some [200%Q]) (Some 1%Z) None)).
Proof.
  destruct (subset_keeps_invariants (arrays_of testdata) (Some [200%Q]) (Some 1%Z) None
              (subset_of (arrays_of testdata) (Some [200%Q]) (Some 1%Z) None))
    as (_ & Hs & _).
  - vm_compute. reflexivity.
  - apply Hs. apply any_negative_false. vm_compute. reflexivity.
Defined.

Lemma stop_zero_ignored_witness :
  fit_models (estimator_of testdata) None None (Some 0%Z) false
  = fit_models (estimator_of testdata) None None None false
  /\ _subset_data (estimator_of testdata) None None (Some 0%Z)
     = Ok (windowed (estimator_of testdata) (fun A l => [])).
Proof.
  destruct (stop_zero_ignored (estimator_of testdata) false testdata_consistent)
    as (_ & Hfit & Hsub).
  auto.
Defined.


Lemma marker_lookup_witness :
  exists marks, marker_vector (arrays_of testdata) = Ok (Value marks).
Proof.
  destruct (marker_lookup (arrays_of testdata)) as (_ & _ & Hfive).
  - repeat constructor; discriminate.
  - apply Hfive. vm_compute. lia.
Defined.

Lemma markers_distinguish_witness :
  marker_vector (arrays_of (experiment_of [m1; inhibited]))
  = Ok (Value ["o"; "o"; "o"; "x"; "x"; "x"])
  /\ ("o" = "x" <-> (0 == 5)%Q).
Proof.
  assert (marker_vector (arrays_of (experiment_of [m1; inhibited]))
          = Ok (Value ["o"; "o"; "o"; "x"; "x"; "x"])) as H
    by (vm_compute; reflexivity).
  split; [exact H|].
  destruct (markers_distinguish (arrays_of (experiment_of [m1; inhibited]))
              ["o"; "o"; "o"; "x"; "x"; "x"] H) as (_ & Hsame).
  apply (Hsame 0%nat 3%nat (replicate 6 0%Q) (replicate 6 5%Q)); reflexivity.
Defined.

Lemma mean_w0_agrees_witness :
  exists means deviations,
    _calculate_mean_std (initial_substrate (arrays_of testdata))
                        (Nd2 6 (substrate (arrays_of testdata)))
    = Ok (means, deviations)
    /\ _mean_w0 (Nd2 6 (substrate (arrays_of testdata)))
                (initial_substrate (arrays_of testdata))
       = Ok means
    /\ exists x, nd_item2 means 0 0 = Ok (Fin x) /\ (x == 99.7)%Q.
Proof.
  destruct (mean_w0_agrees (initial_substrate (arrays_of testdata)) 6
              (substrate (arrays_of testdata)))
    as (means & deviations & Hstd & Hmean & ->).
  - simpl. lia.
  - lia.
  - vm_compute. lia.
  - eexists _, _. split; [exact Hstd|]. split; [exact Hmean|].
    eexists. split; [vm_compute; reflexivity | reflexivity].
Defined.

Lemma single_concentration_means_witness :
  exists row deviations,
    _calculate_mean_std (initial_substrate (arrays_of (experiment_of [m1])))
                        (Nd2 6 (substrate (arrays_of (experiment_of [m1]))))
    = Ok (Nd2 6 [row], deviations)
    /\ _mean_w0 (Nd2 6 (substrate (arrays_of (experiment_of [m1]))))
                (initial_substrate (arrays_of (experiment_of [m1])))
       = Ok (Nd1 row)
    /\ forall i j,
         (a ← _mean_w0 (Nd2 6 (substrate (arrays_of (experiment_of [m1]))))
                       (initial_substrate (arrays_of (experiment_of [m1])));
          nd_item2 a i j)
         = Raise IndexError.
Proof.
  apply (single_concentration_means
           (initial_substrate (arrays_of (experiment_of [m1]))) 6
           (substrate (arrays_of (experiment_of [m1])))).
  - simpl. lia.
  - lia.
  - vm_compute. reflexivity.
Defined.

Lemma mean_w0_of_vector_witness :
  _mean_w0 (Nd1 (enzyme (arrays_of testdata))) (initial_substrate (arrays_of testdata))
  = Ok (Nd2 1 (map (fun c => [mean (rows_with c (initial_substrate (arrays_of testdata))
                                             (enzyme (arrays_of testdata)))])
                   [100; 200; 300]%Q)).
Proof.
  rewrite (mean_w0_of_vector (initial_substrate (arrays_of testdata))
             (enzyme (arrays_of testdata))).
  - reflexivity.
  - simpl. lia.
Defined.
